(** * ArmaTuPc: the compatibility engine and the cooler socket heuristic

    A shallow embedding of
      - [etapa2_interfaz/filtros.py]: [GestorFiltros] (catalog queries,
        cascading filters, power budget, full-build validation),
        [FiltroAvanzado] (price, performance and specification filters),
        [ValidadorCompatibilidad] (physical dimensions, connectivity,
        cooling), [FiltroCompatibilidad] with
        [crear_filtro_desde_seleccion], and [formatear_componente_para_ui];
      - [etapa1_normalizar/clases.py]: [SocketSupport] ([from_string],
        [get_socket_families]), the value parsers [Dimension.from_string]
        and [FanSlots.from_string], and of [CPUCoolerDataNormalizer] the
        helpers [_analyze_compatibility], [_calculate_total_fans] and
        [_determine_cooler_type].

    The engine works on records decoded from JSON, reads them with
    [dict.get] and compares whatever it finds.  The embedding keeps that:
    records are association lists of dynamically typed values, and every
    operation that Python can refuse ([.get] on something that is not a
    dict, an order comparison with [None], hashing a list) returns an
    exception in a small error monad.

    Modelling choices, fixed once for the whole file:
      - arguments follow the annotations of the source (a [Dict] is a
        [pydict], an optional one an [option], the catalog one list per
        category); what the records hold stays dynamic;
      - a Python [str] is carried as the byte string of its UTF-8 encoding;
        case mapping, whitespace and digit classes are those of the ASCII
        range, bytes of longer encodings are carried unchanged.  The text
        operations therefore speak for Python on ASCII text, and on the
        characters beyond it that Python leaves alone too (the micro sign
        of 'µATX' is one); they do not on the rest of Unicode, where
        [str.strip] removes more whitespace, [str.lower] maps more letters
        and [\d] and [int] read more digits.  A theorem whose answer
        depends on them names the texts it covers ([es_ascii],
        [ascii_o_micro], or a shape made of ASCII classes);
      - [int] and [float] are both carried as exact rationals; the rounding
        of float products and of [float(text)] is not modelled, and [int]
        has no limit on the number of digits it reads (CPython refuses
        more than 4300 by default);
      - a regular expression is matched as [re] matches it, greedy
        repetitions giving characters back one at a time, with the ASCII
        classes for [\d], [\w] and [\s];
      - the text of an f-string message is not rendered: a message is its
        template together with the interpolated values. *)

From Stdlib Require Import String Ascii List Bool ZArith QArith Qminmax Lia Lqa.
Import ListNotations.
Open Scope string_scope.
Open Scope list_scope.
Set Warnings "-register-all".

(** ** Python values and exceptions *)

Inductive pyval : Type :=
| VNone
| VBool (b : bool)
| VNum (q : Q)
| VStr (s : string)
| VList (l : list pyval)
| VDict (d : list (string * pyval)).

(** A JSON object: keys in insertion order, looked up first match. *)
Definition pydict : Type := list (string * pyval).

Inductive pyexc : Type := AttributeError | TypeError | KeyError.

Inductive result (A : Type) : Type :=
| Ok (a : A)
| Raise (e : pyexc).
Arguments Ok {A} a.
Arguments Raise {A} e.

Definition bind {A B : Type} (c : result A) (k : A -> result B) : result B :=
  match c with
  | Ok a => k a
  | Raise e => Raise e
  end.

Declare Scope py_scope.
Delimit Scope py_scope with py.
Notation "x <- c ;; k" := (bind c (fun x => k))
  (at level 61, c at next level, right associativity) : py_scope.
Notation "' p <- c ;; k" := (bind c (fun x => let p := x in k))
  (at level 61, p pattern, c at next level, right associativity) : py_scope.
Open Scope py_scope.

(** [for x in xs: body], threading the loop's local state. *)
Fixpoint for_each {A S : Type} (xs : list A) (body : A -> S -> result S) (s : S)
  : result S :=
  match xs with
  | [] => Ok s
  | x :: rest => s' <- body x s ;; for_each rest body s'
  end.

(** ** Dictionaries *)

Fixpoint lookup (k : string) (d : pydict) : option pyval :=
  match d with
  | [] => None
  | (k', v) :: rest => if String.eqb k k' then Some v else lookup k rest
  end.

(** [k in d] *)
Definition has_key (k : string) (d : pydict) : bool :=
  match lookup k d with Some _ => true | None => false end.

(** [d.get(k, default)] on a dict *)
Definition dict_get (d : pydict) (k : string) (default : pyval) : pyval :=
  match lookup k d with Some v => v | None => default end.

(** [o.get(k, default)] on an arbitrary value: only a dict has [.get]. *)
Definition py_get (o : pyval) (k : string) (default : pyval) : result pyval :=
  match o with
  | VDict d => Ok (dict_get d k default)
  | _ => Raise AttributeError
  end.

(** [isinstance(v, dict)] and [isinstance(v, (int, float))]; [bool] is a
    subclass of [int]. *)
Definition is_dict (v : pyval) : bool :=
  match v with VDict _ => true | _ => false end.

Definition is_number (v : pyval) : bool :=
  match v with VBool _ | VNum _ => true | _ => false end.

Definition num_value (v : pyval) : option Q :=
  match v with
  | VNum q => Some q
  | VBool true => Some 1%Q
  | VBool false => Some 0%Q
  | _ => None
  end.

(** Truth value of a Python object. *)
Definition truthy (v : pyval) : bool :=
  match v with
  | VNone => false
  | VBool b => b
  | VNum q => negb (Qeq_bool q 0)
  | VStr s => negb (String.eqb s "")
  | VList l => match l with [] => false | _ => true end
  | VDict d => match d with [] => false | _ => true end
  end.

(** [hash(v)] succeeds: lists and dicts are unhashable. *)
Definition hashable (v : pyval) : bool :=
  match v with VList _ | VDict _ => false | _ => true end.

(** [a == b].  Numbers compare by value ([True == 1], [1 == 1.0]), lists
    element by element, dicts as maps. *)
Fixpoint py_eq (a b : pyval) {struct a} : bool :=
  match a, b with
  | VNone, VNone => true
  | VStr s, VStr t => String.eqb s t
  | VBool x, VBool y => Bool.eqb x y
  | VBool x, VNum q => Qeq_bool (if x then 1 else 0) q
  | VNum p, VBool y => Qeq_bool p (if y then 1 else 0)
  | VNum p, VNum q => Qeq_bool p q
  | VList l, VList m =>
      (fix eq_list (l : list pyval) (m : list pyval) {struct l} : bool :=
         match l, m with
         | [], [] => true
         | x :: l', y :: m' => py_eq x y && eq_list l' m'
         | _, _ => false
         end) l m
  | VDict d, VDict e =>
      Nat.eqb (length d) (length e) &&
      (fix sub_dict (d : list (string * pyval)) : bool :=
         match d with
         | [] => true
         | (k, v) :: d' =>
             match lookup k e with
             | Some w => py_eq v w
             | None => false
             end && sub_dict d'
         end) d
  | _, _ => false
  end.

(** [a > b], [a < b], [a >= b]: between two numbers by value, between two
    strings in code point order, otherwise a [TypeError].  (Python also
    orders two lists; every comparison of the engine has a number on one
    side, so that case is left out.) *)
Definition py_gt (a b : pyval) : result bool :=
  match a, b with
  | VStr s, VStr t => Ok (String.ltb t s)
  | _, _ =>
      match num_value a, num_value b with
      | Some p, Some q => Ok (negb (Qle_bool p q))
      | _, _ => Raise TypeError
      end
  end.

Definition py_lt (a b : pyval) : result bool := py_gt b a.

Definition py_ge (a b : pyval) : result bool :=
  match a, b with
  | VStr s, VStr t => Ok (String.leb t s)
  | _, _ =>
      match num_value a, num_value b with
      | Some p, Some q => Ok (Qle_bool q p)
      | _, _ => Raise TypeError
      end
  end.

(** [max(a, b)]: the first argument unless the second is greater. *)
Definition py_max (a b : Q) : Q := if Qle_bool b a then a else b.

(** ** Strings *)

Definition is_upper (c : ascii) : bool :=
  let n := nat_of_ascii c in (65 <=? n)%nat && (n <=? 90)%nat.

Definition is_lower (c : ascii) : bool :=
  let n := nat_of_ascii c in (97 <=? n)%nat && (n <=? 122)%nat.

Definition is_digit (c : ascii) : bool :=
  let n := nat_of_ascii c in (48 <=? n)%nat && (n <=? 57)%nat.

(** Whitespace of [str.strip()]: TAB..CR, FS..US and the space. *)
Definition is_space (c : ascii) : bool :=
  let n := nat_of_ascii c in
  ((9 <=? n)%nat && (n <=? 13)%nat) || ((28 <=? n)%nat && (n <=? 32)%nat).

Definition lower_char (c : ascii) : ascii :=
  if is_upper c then ascii_of_nat (nat_of_ascii c + 32) else c.

Definition upper_char (c : ascii) : ascii :=
  if is_lower c then ascii_of_nat (nat_of_ascii c - 32) else c.

Fixpoint map_string (f : ascii -> ascii) (s : string) : string :=
  match s with
  | EmptyString => EmptyString
  | String c rest => String (f c) (map_string f rest)
  end.

(** [s.lower()] and [s.upper()], for the letters A-Z and a-z; [str.lower]
    also maps the capital letters beyond ASCII, which are left as they are
    here. *)
Definition py_lower : string -> string := map_string lower_char.
Definition py_upper : string -> string := map_string upper_char.

(** [s.replace('_', '-')] *)
Definition replace_underscore : string -> string :=
  map_string (fun c => if Ascii.eqb c "_" then "-"%char else c).

Fixpoint lstrip (s : string) : string :=
  match s with
  | String c rest => if is_space c then lstrip rest else s
  | EmptyString => EmptyString
  end.

Fixpoint rev_string (acc s : string) : string :=
  match s with
  | EmptyString => acc
  | String c rest => rev_string (String c acc) rest
  end.

Definition rstrip (s : string) : string :=
  rev_string "" (lstrip (rev_string "" s)).

(** [s.strip()], for the ASCII whitespace; [str.strip] also removes the
    whitespace beyond ASCII (U+0085, U+00A0, U+2003, ...), which stays
    here. *)
Definition py_strip (s : string) : string := rstrip (lstrip s).

(** [s.isdigit()]: non-empty and all digits. *)
Fixpoint all_digits (s : string) : bool :=
  match s with
  | EmptyString => true
  | String c rest => is_digit c && all_digits rest
  end.

Definition py_isdigit (s : string) : bool :=
  match s with EmptyString => false | _ => all_digits s end.

(** [s.startswith(p)] *)
Definition py_startswith (s p : string) : bool := String.prefix p s.

(** [x in s] on strings *)
Fixpoint py_contains (x s : string) : bool :=
  String.prefix x s ||
  match s with
  | EmptyString => false
  | String _ rest => py_contains x rest
  end.

(** *** The texts on which these operations are Python's *)

(** A byte of the ASCII range: a character on its own. *)
Definition byte_ascii (c : ascii) : bool := (nat_of_ascii c <? 128)%nat.

(** A text of ASCII characters only. *)
Fixpoint es_ascii (s : string) : bool :=
  match s with
  | EmptyString => true
  | String c rest => byte_ascii c && es_ascii rest
  end.

(** A text of ASCII characters and micro signs (U+00B5, the bytes 194 181
    in UTF-8): the micro sign is no whitespace and [str.lower] leaves it
    as it is, so [py_strip] and [py_lower] act on such a text as
    [str.strip] and [str.lower] do. *)
Fixpoint ascii_o_micro (s : string) : bool :=
  match s with
  | EmptyString => true
  | String c rest =>
      if byte_ascii c then ascii_o_micro rest
      else
        match rest with
        | String c' rest' =>
            Ascii.eqb c (ascii_of_nat 194) && Ascii.eqb c' (ascii_of_nat 181) &&
            ascii_o_micro rest'
        | EmptyString => false
        end
  end.

(** ** Form-factor compatibility ([GestorFiltros]) *)

(** [form_factor_sizes.get(name, -1)] *)
Definition form_factor_sizes : list (string * Z) :=
  [("e-atx", 4); ("xl-atx", 3); ("atx", 2); ("micro-atx", 1); ("mini-itx", 0)]%Z.

(** [name_variations] *)
Definition name_variations : list (string * string) :=
  [("matx", "micro-atx"); ("µatx", "micro-atx"); ("uatx", "micro-atx");
   ("mitx", "mini-itx"); ("itx", "mini-itx")].

Fixpoint table_get {V : Type} (t : list (string * V)) (k : string) (default : V) : V :=
  match t with
  | [] => default
  | (k', v) :: rest => if String.eqb k k' then v else table_get rest k default
  end.

(** [s.strip().lower().replace('_', '-')] *)
Definition clean (s : string) : string :=
  replace_underscore (py_lower (py_strip s)).

Definition _es_case_compatible_con_motherboard (case_support mb_form_factor : pyval)
  : result bool :=
  if negb (truthy case_support) || negb (truthy mb_form_factor) then Ok false
  else
    match case_support, mb_form_factor with
    | VStr cs, VStr mf =>
        let case_support_clean := clean cs in
        let mb_form_factor_clean := clean mf in
        let case_support_clean :=
          table_get name_variations case_support_clean case_support_clean in
        let mb_form_factor_clean :=
          table_get name_variations mb_form_factor_clean mb_form_factor_clean in
        if String.eqb case_support_clean mb_form_factor_clean then Ok true
        else
          let case_size := table_get form_factor_sizes case_support_clean (-1)%Z in
          let mb_size := table_get form_factor_sizes mb_form_factor_clean (-1)%Z in
          if Z.eqb case_size (-1) || Z.eqb mb_size (-1)
          then Ok (String.eqb case_support_clean mb_form_factor_clean)
          else Ok (Z.geb case_size mb_size)
    | _, _ => Raise AttributeError
    end.

(** The predicate as the specification words it: normalisation, alias map
    and ordinal table. *)
Fixpoint assoc {V : Type} (t : list (string * V)) (k : string) : option V :=
  match t with
  | [] => None
  | (k', v) :: rest => if String.eqb k k' then Some v else assoc rest k
  end.

Definition alias_spec (s : string) : string :=
  if existsb (String.eqb s) ["matx"; "µatx"; "uatx"] then "micro-atx"
  else if existsb (String.eqb s) ["mitx"; "itx"] then "mini-itx"
  else s.

Definition normalize_spec (s : string) : string :=
  alias_spec (replace_underscore (py_lower (py_strip s))).

Definition ordinal_spec (s : string) : option Z :=
  assoc [("e-atx", 4); ("xl-atx", 3); ("atx", 2); ("micro-atx", 1); ("mini-itx", 0)]%Z s.

Definition form_factor_compatible_spec (c m : string) : Prop :=
  let nc := normalize_spec c in
  let nm := normalize_spec m in
  nc = nm \/
  exists oc om : Z,
    ordinal_spec nc = Some oc /\ ordinal_spec nm = Some om /\ (oc >= om)%Z.

(** *** The predicate over any trimming and lower-casing

    [str.strip] and [str.lower] are the only steps of the predicate that
    look beyond the ASCII range.  Here they are parameters: whatever two
    functions on texts they are, the rest of the predicate is the source's,
    line for line.  With [py_strip] and [py_lower] for them this is
    [_es_case_compatible_con_motherboard]. *)
Section CualquierTexto.

Variables strip lower : string -> string.

(** [s.strip().lower().replace('_', '-')] *)
Definition clean_con (s : string) : string :=
  replace_underscore (lower (strip s)).

Definition es_case_compatible_con (case_support mb_form_factor : pyval)
  : result bool :=
  if negb (truthy case_support) || negb (truthy mb_form_factor) then Ok false
  else
    match case_support, mb_form_factor with
    | VStr cs, VStr mf =>
        let case_support_clean := clean_con cs in
        let mb_form_factor_clean := clean_con mf in
        let case_support_clean :=
          table_get name_variations case_support_clean case_support_clean in
        let mb_form_factor_clean :=
          table_get name_variations mb_form_factor_clean mb_form_factor_clean in
        if String.eqb case_support_clean mb_form_factor_clean then Ok true
        else
          let case_size := table_get form_factor_sizes case_support_clean (-1)%Z in
          let mb_size := table_get form_factor_sizes mb_form_factor_clean (-1)%Z in
          if Z.eqb case_size (-1) || Z.eqb mb_size (-1)
          then Ok (String.eqb case_support_clean mb_form_factor_clean)
          else Ok (Z.geb case_size mb_size)
    | _, _ => Raise AttributeError
    end.

(** The specification's normalisation and predicate, over the same two
    functions. *)
Definition normalize_spec_con (s : string) : string :=
  alias_spec (replace_underscore (lower (strip s))).

Definition form_factor_compatible_spec_con (c m : string) : Prop :=
  let nc := normalize_spec_con c in
  let nm := normalize_spec_con m in
  nc = nm \/
  exists oc om : Z,
    ordinal_spec nc = Some oc /\ ordinal_spec nm = Some om /\ (oc >= om)%Z.

End CualquierTexto.

(** ** More of Python's object protocol *)

(** [o[k]] with a string key: a dict answers or raises [KeyError]; a list
    or a string wants an integer index; nothing else is subscriptable. *)
Definition py_item (o : pyval) (k : string) : result pyval :=
  match o with
  | VDict d => match lookup k d with Some v => Ok v | None => Raise KeyError end
  | _ => Raise TypeError
  end.

(** [k in o] with a string [k] *)
Definition py_in (k : string) (o : pyval) : result bool :=
  match o with
  | VDict d => Ok (has_key k d)
  | VList l => Ok (existsb (py_eq (VStr k)) l)
  | VStr s => Ok (py_contains k s)
  | _ => Raise TypeError
  end.

(** [x * f] for a float literal [f], as the exact product; the float
    product is the nearest double to it (for 266.9 * 0.9 a double just
    below 240.21). *)
Definition py_mul (x : pyval) (f : Q) : result Q :=
  match num_value x with
  | Some q => Ok (q * f)%Q
  | None => Raise TypeError
  end.

(** [d[k]] on the configuration dict *)
Definition item (d : pydict) (k : string) : result pyval := py_item (VDict d) k.

(** [not d] for an optional dict argument ([Dict = None]) *)
Definition falsy_dict (d : option pydict) : bool :=
  match d with
  | None | Some [] => true
  | Some _ => false
  end.

(** ** Power budget *)

Definition gpu_power_map : list (string * Q) :=
  [("entry_level", 75); ("budget", 120); ("mid_range", 180);
   ("high_end", 250); ("enthusiast", 320); ("flagship", 400)]%Q.

(** [gpu_power_map.get(k, default)]: the key is hashed first. *)
Definition gpu_power_map_get (k : pyval) (default : Q) : result Q :=
  match k with
  | VStr s => Ok (table_get gpu_power_map s default)
  | VList _ | VDict _ => Raise TypeError
  | _ => Ok default
  end.

Definition is_none (v : pyval) : bool :=
  match v with VNone => true | _ => false end.

(** CPU TDP *)
Definition potencia_cpu (componentes : pydict) (potencia_total : Q) : result Q :=
  if has_key "cpu" componentes then
    cpu_data <- item componentes "cpu" ;;
    architecture <- py_get cpu_data "architecture" VNone ;;
    cpu_tdp <-
      (if is_dict architecture then
         tdp_info <- py_get architecture "tdp" VNone ;;
         if is_dict tdp_info then py_get tdp_info "value" (VNum 65)
         else if is_number tdp_info then Ok tdp_info
         else Ok VNone
       else Ok VNone) ;;
    (* Fallback a otros campos posibles *)
    cpu_tdp <-
      (if is_none cpu_tdp then py_get cpu_data "tdp" (VNum 65)
       else Ok cpu_tdp) ;;
    Ok (potencia_total +
        match num_value cpu_tdp with Some q => q | None => 65 end)%Q
  else Ok potencia_total.

(** GPU (estimación basada en categoría) *)
Definition potencia_gpu (componentes : pydict) (potencia_total : Q) : result Q :=
  if has_key "gpu" componentes then
    gpu_data <- item componentes "gpu" ;;
    calculated_metrics <- py_get gpu_data "calculated_metrics" VNone ;;
    gpu_category <-
      (if is_dict calculated_metrics
       then py_get calculated_metrics "gpu_category" (VStr "mid_range")
       else Ok (VStr "mid_range")) ;;
    watts <- gpu_power_map_get gpu_category 180 ;;
    Ok (potencia_total + watts)%Q
  else Ok potencia_total.

Definition _calcular_potencia_requerida (componentes : option pydict) : result Q :=
  match componentes with
  | None => Ok 300%Q
  | Some componentes =>
      if falsy_dict (Some componentes) then Ok 300%Q
      else
        let potencia_total := 0%Q in
        potencia_total <- potencia_cpu componentes potencia_total ;;
        potencia_total <- potencia_gpu componentes potencia_total ;;
        (* Motherboard y RAM (estimación fija) *)
        let potencia_total := (potencia_total + 50)%Q in
        (* Ventiladores y periféricos *)
        let potencia_total := (potencia_total + 30)%Q in
        Ok (py_max potencia_total 300)
  end.

(** ** Reports *)

(** The f-string templates of the validators, with their interpolated
    values. *)
Inductive mensaje : Type :=
| IncompatibilidadSocket (cpu_socket mb_socket : pyval)
| IncompatibilidadRAM (ram_type mb_ram_type : pyval)
| IncompatibilidadFormFactor (case_mb_support mb_form_factor : pyval)
| PSUInsuficiente (psu_wattage : pyval) (potencia_requerida : Q)
| PSUMargenAjustado (psu_wattage : pyval) (potencia_requerida : Q)
| PSUSinPotencia
| CaseSinSoporteMotherboard
| MotherboardSinFormFactor
| GPUMuyLarga (gpu_length max_gpu_length : pyval)
| GPUAjustada (gpu_length max_gpu_length : pyval)
| CoolerMuyAlto (cooler_height max_cooler_height : pyval)
| SlotsRAMInsuficientes (necesarios : Q) (disponibles : pyval)
| PuertosSATAInsuficientes (necesarios : nat) (disponibles : pyval).

(** The report dict.  [recomendaciones] exists only in the report of
    [verificar_compatibilidad_completa], which never fills it; the two
    validators of [ValidadorCompatibilidad] leave it empty here. *)
Record reporte : Type := mkReporte {
  compatible : bool;
  advertencias : list mensaje;
  errores : list mensaje;
  recomendaciones : list mensaje
}.

Definition reporte_inicial : reporte :=
  {| compatible := true; advertencias := []; errores := []; recomendaciones := [] |}.

(** [r['errores'].append(m)] *)
Definition append_error (m : mensaje) (r : reporte) : reporte :=
  {| compatible := compatible r; advertencias := advertencias r;
     errores := errores r ++ [m]; recomendaciones := recomendaciones r |}.

(** [r['advertencias'].append(m)] *)
Definition append_advertencia (m : mensaje) (r : reporte) : reporte :=
  {| compatible := compatible r; advertencias := advertencias r ++ [m];
     errores := errores r; recomendaciones := recomendaciones r |}.

(** [r['compatible'] = False] *)
Definition set_incompatible (r : reporte) : reporte :=
  {| compatible := false; advertencias := advertencias r;
     errores := errores r; recomendaciones := recomendaciones r |}.

(** ** Full-build validation ([GestorFiltros]) *)

(** Verificar CPU y Motherboard *)
Definition verificar_cpu_motherboard (configuracion : pydict) (resultados : reporte)
  : result reporte :=
  if has_key "cpu" configuracion && has_key "motherboard" configuracion then
    cpu <- item configuracion "cpu" ;;
    architecture <- py_get cpu "architecture" (VDict []) ;;
    cpu_socket <- py_get architecture "socket" VNone ;;
    motherboard <- item configuracion "motherboard" ;;
    platform <- py_get motherboard "platform" (VDict []) ;;
    mb_socket <- py_get platform "socket" VNone ;;
    if negb (py_eq cpu_socket mb_socket) then
      Ok (set_incompatible
            (append_error (IncompatibilidadSocket cpu_socket mb_socket) resultados))
    else Ok resultados
  else Ok resultados.

(** Verificar RAM y Motherboard *)
Definition verificar_ram_motherboard (configuracion : pydict) (resultados : reporte)
  : result reporte :=
  if has_key "ram" configuracion && has_key "motherboard" configuracion then
    ram <- item configuracion "ram" ;;
    memory_specs <- py_get ram "memory_specs" (VDict []) ;;
    ram_type_info <- py_get memory_specs "ram_type" (VDict []) ;;
    ram_type <- py_get ram_type_info "generation" VNone ;;
    motherboard <- item configuracion "motherboard" ;;
    memory <- py_get motherboard "memory" (VDict []) ;;
    mb_ram_type <- py_get memory "type" VNone ;;
    if negb (py_eq ram_type mb_ram_type) then
      Ok (set_incompatible
            (append_error (IncompatibilidadRAM ram_type mb_ram_type) resultados))
    else Ok resultados
  else Ok resultados.

(** Verificar Case y Motherboard *)
Definition verificar_case_motherboard (configuracion : pydict) (resultados : reporte)
  : result reporte :=
  if has_key "case" configuracion && has_key "motherboard" configuracion then
    case <- item configuracion "case" ;;
    compatibility <- py_get case "compatibility" (VDict []) ;;
    case_mb_support <- py_get compatibility "motherboard" VNone ;;
    motherboard <- item configuracion "motherboard" ;;
    mb_form_factor <- py_get motherboard "form_factor" VNone ;;
    if truthy case_mb_support && truthy mb_form_factor then
      ok <- _es_case_compatible_con_motherboard case_mb_support mb_form_factor ;;
      if negb ok then
        Ok (set_incompatible
              (append_error
                 (IncompatibilidadFormFactor case_mb_support mb_form_factor)
                 resultados))
      else Ok resultados
    else if negb (truthy case_mb_support) then
      Ok (append_advertencia CaseSinSoporteMotherboard resultados)
    else if negb (truthy mb_form_factor) then
      Ok (append_advertencia MotherboardSinFormFactor resultados)
    else Ok resultados
  else Ok resultados.

(** Verificar potencia PSU *)
Definition verificar_potencia_psu (configuracion : pydict) (resultados : reporte)
  : result reporte :=
  if has_key "psu" configuracion then
    potencia_requerida <- _calcular_potencia_requerida (Some configuracion) ;;
    psu_data <- item configuracion "psu" ;;
    let psu_wattage := VNum 0 in
    has_power <- py_in "power" psu_data ;;
    psu_wattage <-
      (if has_power then
         power_info <- py_item psu_data "power" ;;
         if is_dict power_info then
           has_wattage <- py_in "wattage" power_info ;;
           if has_wattage then
             wattage <- py_item power_info "wattage" ;;
             if is_dict wattage then py_get wattage "value" (VNum 0)
             else py_get power_info "wattage" (VNum 0)
           else Ok psu_wattage
         else Ok psu_wattage
       else Ok psu_wattage) ;;
    (* Fallback directo *)
    psu_wattage <-
      (if py_eq psu_wattage (VNum 0) then py_get psu_data "wattage" (VNum 0)
       else Ok psu_wattage) ;;
    positive <- py_gt psu_wattage (VNum 0) ;;
    if positive then
      insuficiente <- py_lt psu_wattage (VNum potencia_requerida) ;;
      if insuficiente then
        Ok (set_incompatible
              (append_error (PSUInsuficiente psu_wattage potencia_requerida)
                 resultados))
      else
        ajustado <- py_lt psu_wattage (VNum (potencia_requerida * 1.2)) ;;
        if ajustado then
          Ok (append_advertencia
                (PSUMargenAjustado psu_wattage potencia_requerida) resultados)
        else Ok resultados
    else Ok (append_advertencia PSUSinPotencia resultados)
  else Ok resultados.

Definition verificar_compatibilidad_completa (configuracion : pydict) : result reporte :=
  let resultados := reporte_inicial in
  resultados <- verificar_cpu_motherboard configuracion resultados ;;
  resultados <- verificar_ram_motherboard configuracion resultados ;;
  resultados <- verificar_case_motherboard configuracion resultados ;;
  resultados <- verificar_potencia_psu configuracion resultados ;;
  Ok resultados.

(** ** Physical validation ([ValidadorCompatibilidad]) *)

(** [configuracion.get(k)] and [configuracion.get(k, [])] *)
Definition config_get (configuracion : pydict) (k : string) (default : pyval) : pyval :=
  dict_get configuracion k default.

(** [case.get('compatibility', {}).get('supported_gpu_length', {}).get('value', 0)] *)
Definition max_gpu_length_de (case : pyval) : result pyval :=
  compatibility <- py_get case "compatibility" (VDict []) ;;
  supported <- py_get compatibility "supported_gpu_length" (VDict []) ;;
  py_get supported "value" (VNum 0).

(** [gpu.get('dimensions', {}).get('length', {}).get('value', 0)] *)
Definition gpu_length_de (gpu : pyval) : result pyval :=
  dimensions <- py_get gpu "dimensions" (VDict []) ;;
  length_info <- py_get dimensions "length" (VDict []) ;;
  py_get length_info "value" (VNum 0).

(** Verificar GPU vs Case *)
Definition validar_gpu_case (case gpu : pyval) (resultado : reporte) : result reporte :=
  if truthy case && truthy gpu then
    max_gpu_length <- max_gpu_length_de case ;;
    gpu_length <- gpu_length_de gpu ;;
    max_positive <- py_gt max_gpu_length (VNum 0) ;;
    both_positive <- (if max_positive then py_gt gpu_length (VNum 0) else Ok false) ;;
    if both_positive then
      too_long <- py_gt gpu_length max_gpu_length ;;
      if too_long then
        Ok (set_incompatible
              (append_error (GPUMuyLarga gpu_length max_gpu_length) resultado))
      else
        limit <- py_mul max_gpu_length 0.9 ;;
        tight <- py_gt gpu_length (VNum limit) ;;
        if tight then
          Ok (append_advertencia (GPUAjustada gpu_length max_gpu_length) resultado)
        else Ok resultado
    else Ok resultado
  else Ok resultado.

(** Verificar CPU Cooler vs Case *)
Definition validar_cooler_case (case cpu_cooler : pyval) (resultado : reporte)
  : result reporte :=
  if truthy case && truthy cpu_cooler then
    compatibility <- py_get case "compatibility" (VDict []) ;;
    supported <- py_get compatibility "supported_cpu_cooler_height" (VDict []) ;;
    max_cooler_height <- py_get supported "value" (VNum 0) ;;
    dimensions <- py_get cpu_cooler "dimensions" (VDict []) ;;
    height <- py_get dimensions "height" (VDict []) ;;
    cooler_height <- py_get height "value" (VNum 0) ;;
    max_positive <- py_gt max_cooler_height (VNum 0) ;;
    both_positive <- (if max_positive then py_gt cooler_height (VNum 0) else Ok false) ;;
    if both_positive then
      too_tall <- py_gt cooler_height max_cooler_height ;;
      if too_tall then
        Ok (set_incompatible
              (append_error (CoolerMuyAlto cooler_height max_cooler_height) resultado))
      else Ok resultado
    else Ok resultado
  else Ok resultado.

Definition validar_dimensiones_fisicas (configuracion : pydict) : result reporte :=
  let resultado := reporte_inicial in
  let case := config_get configuracion "case" VNone in
  let gpu := config_get configuracion "gpu" VNone in
  let cpu_cooler := config_get configuracion "cpu_cooler" VNone in
  resultado <- validar_gpu_case case gpu resultado ;;
  resultado <- validar_cooler_case case cpu_cooler resultado ;;
  Ok resultado.

Fixpoint chars (s : string) : list pyval :=
  match s with
  | EmptyString => []
  | String c rest => VStr (String c EmptyString) :: chars rest
  end.

(** What [for x in v] walks through: the items of a list, the keys of a
    dict, the characters of a string (byte-wise here). *)
Definition py_iter (v : pyval) : result (list pyval) :=
  match v with
  | VList l => Ok l
  | VDict d => Ok (map (fun kv => VStr (fst kv)) d)
  | VStr s => Ok (chars s)
  | _ => Raise TypeError
  end.

(** [acc + x] inside [sum(...)] *)
Definition py_add (acc : Q) (x : pyval) : result Q :=
  match num_value x with
  | Some q => Ok (acc + q)%Q
  | None => Raise TypeError
  end.

(** Verificar slots de RAM *)
Definition validar_slots_ram (motherboard ram_modules : pyval) (resultado : reporte)
  : result reporte :=
  if truthy motherboard && truthy ram_modules then
    memory <- py_get motherboard "memory" (VDict []) ;;
    ram_slots_disponibles <- py_get memory "slots" (VNum 0) ;;
    modules <- py_iter ram_modules ;;
    ram_modules_necesarios <-
      for_each modules
        (fun ram acc =>
           memory_specs <- py_get ram "memory_specs" (VDict []) ;;
           sticks <- py_get memory_specs "sticks" (VNum 1) ;;
           py_add acc sticks)
        0%Q ;;
    short <- py_gt (VNum ram_modules_necesarios) ram_slots_disponibles ;;
    if short then
      Ok (set_incompatible
            (append_error
               (SlotsRAMInsuficientes ram_modules_necesarios ram_slots_disponibles)
               resultado))
    else Ok resultado
  else Ok resultado.

(** Verificar puertos SATA para almacenamiento *)
Definition validar_puertos_sata (motherboard storage_devices : pyval)
  (resultado : reporte) : result reporte :=
  if truthy motherboard && truthy storage_devices then
    connectivity <- py_get motherboard "connectivity" (VDict []) ;;
    sata_ports <- py_get connectivity "sata_ports" (VNum 0) ;;
    devices <- py_iter storage_devices ;;
    sata <-
      for_each devices
        (fun dev acc =>
           interface <- py_get dev "interface" VNone ;;
           Ok (if py_eq interface (VStr "SATA") then acc ++ [dev] else acc))
        [] ;;
    let sata_devices := length sata in
    short <- py_gt (VNum (inject_Z (Z.of_nat sata_devices))) sata_ports ;;
    if short then
      Ok (set_incompatible
            (append_error (PuertosSATAInsuficientes sata_devices sata_ports)
               resultado))
    else Ok resultado
  else Ok resultado.

Definition validar_conectividad (configuracion : pydict) : result reporte :=
  let resultado := reporte_inicial in
  let motherboard := config_get configuracion "motherboard" VNone in
  let ram_modules := config_get configuracion "ram_modules" (VList []) in
  let storage_devices := config_get configuracion "storage_devices" (VList []) in
  resultado <- validar_slots_ram motherboard ram_modules resultado ;;
  resultado <- validar_puertos_sata motherboard storage_devices resultado ;;
  Ok resultado.

(** ** Cascading filters ([GestorFiltros]) *)

(** [self.datos]: one JSON array per category. *)
Definition catalogo : Type := list (string * list pyval).

(** [self.datos.get(k, [])] *)
Definition datos_get (datos : catalogo) (k : string) : list pyval :=
  table_get datos k [].

(** [[x for x in xs if cond(x)]], and the loops that append the entries
    passing a test to a fresh list. *)
Definition seleccionar (cond : pyval -> result bool) (xs : list pyval)
  : result (list pyval) :=
  for_each xs
    (fun x acc => b <- cond x ;; Ok (if b then acc ++ [x] else acc))
    [].

(** [mb.get('platform', {}).get('socket') == socket] *)
Definition socket_es (socket : string) (mb : pyval) : result bool :=
  platform <- py_get mb "platform" (VDict []) ;;
  mb_socket <- py_get platform "socket" VNone ;;
  Ok (py_eq mb_socket (VStr socket)).

Definition filtrar_motherboards_por_socket (datos : catalogo) (socket : string)
  : result (list pyval) :=
  seleccionar (socket_es socket) (datos_get datos "motherboard").

(** A Python set of hashable values: no two members equal under [==]. *)
Definition set_mem (x : pyval) (s : list pyval) : bool := existsb (py_eq x) s.

(** [s.add(x)] *)
Definition set_add (x : pyval) (s : list pyval) : result (list pyval) :=
  if hashable x then Ok (if set_mem x s then s else s ++ [x])
  else Raise TypeError.

(** [x in s] *)
Definition set_in (x : pyval) (s : list pyval) : result bool :=
  if hashable x then Ok (set_mem x s) else Raise TypeError.

(** [mb.get('form_factor') == form_factor] *)
Definition form_factor_es (form_factor : string) (mb : pyval) : result bool :=
  mb_form_factor <- py_get mb "form_factor" VNone ;;
  Ok (py_eq mb_form_factor (VStr form_factor)).

(** [mb.get('memory', {}).get('type')] *)
Definition memory_type (mb : pyval) : result pyval :=
  memory <- py_get mb "memory" (VDict []) ;;
  py_get memory "type" VNone.

(** [if arg: mbs = [mb for mb in mbs if cond]] for an optional string
    argument ([str = None]): [None] and [''] leave the list as it is. *)
Definition seleccionar_si (arg : option string)
  (cond : string -> pyval -> result bool) (mbs : list pyval) : result (list pyval) :=
  match arg with
  | Some s => if String.eqb s "" then Ok mbs else seleccionar (cond s) mbs
  | None => Ok mbs
  end.

(** [ram.get('memory_specs', {}).get('ram_type', {}).get('generation')] *)
Definition ram_generation (ram : pyval) : result pyval :=
  memory_specs <- py_get ram "memory_specs" (VDict []) ;;
  ram_type <- py_get memory_specs "ram_type" (VDict []) ;;
  py_get ram_type "generation" VNone.

(** The first half of [filtrar_ram_por_motherboard]: the memory types of
    the motherboards that match. *)
Definition tipos_ram_soportados (datos : catalogo) (socket form_factor : option string)
  : result (list pyval) :=
  let motherboards_compatibles := datos_get datos "motherboard" in
  motherboards_compatibles <-
    seleccionar_si socket socket_es motherboards_compatibles ;;
  motherboards_compatibles <-
    seleccionar_si form_factor form_factor_es motherboards_compatibles ;;
  for_each motherboards_compatibles
    (fun mb tipos =>
       tipo <- memory_type mb ;;
       if truthy tipo then set_add tipo tipos else Ok tipos)
    [].

(** Returns the compatible RAM and [list(tipos_ram_soportados)]; the order
    of the second list is the set's, which Python does not fix. *)
Definition filtrar_ram_por_motherboard (datos : catalogo)
  (socket form_factor : option string) : result (list pyval * list pyval) :=
  tipos <- tipos_ram_soportados datos socket form_factor ;;
  ram_compatible <-
    seleccionar
      (fun ram => ram_type <- ram_generation ram ;; set_in ram_type tipos)
      (datos_get datos "ram") ;;
  Ok (ram_compatible, tipos).

Definition filtrar_cases_por_motherboard_form_factor (datos : catalogo)
  (form_factor : pyval) : result (list pyval) :=
  seleccionar
    (fun case =>
       compatibility <- py_get case "compatibility" (VDict []) ;;
       motherboard_support <- py_get compatibility "motherboard" (VStr "") ;;
       _es_case_compatible_con_motherboard motherboard_support form_factor)
    (datos_get datos "case").

(** [psu.get('power', {}).get('wattage', {}).get('value', 0)] *)
Definition psu_wattage_value (psu : pyval) : result pyval :=
  power <- py_get psu "power" (VDict []) ;;
  wattage <- py_get power "wattage" (VDict []) ;;
  py_get wattage "value" (VNum 0).

Definition filtrar_psu_por_case_y_componentes (datos : catalogo)
  (case_data componentes_seleccionados : option pydict) : result (list pyval) :=
  case_psu_support <-
    (match case_data with
     | Some c =>
         if falsy_dict case_data then Ok VNone
         else
           compatibility <- py_get (VDict c) "compatibility" (VDict []) ;;
           py_get compatibility "power_supply" VNone
     | None => Ok VNone
     end) ;;
  potencia_requerida <- _calcular_potencia_requerida componentes_seleccionados ;;
  seleccionar
    (fun psu =>
       psu_form_factor <- py_get psu "form_factor" VNone ;;
       psu_wattage <- psu_wattage_value psu ;;
       let compatible_form_factor :=
         if truthy case_psu_support && truthy psu_form_factor
         then py_eq case_psu_support psu_form_factor
         else true in
       potencia_suficiente <-
         py_ge psu_wattage (VNum (potencia_requerida * 1.2)) ;;
       Ok (compatible_form_factor && potencia_suficiente))
    (datos_get datos "psu").

(** ** Cooler socket families ([clases.py]) *)

(** [sockets_str.split(',')] *)
Fixpoint split_comma (cur : string) (s : string) : list string :=
  match s with
  | EmptyString => [rev_string "" cur]
  | String c rest =>
      if Ascii.eqb c "," then rev_string "" cur :: split_comma "" rest
      else split_comma (String c cur) rest
  end.

(** [SocketSupport.from_string(...).sockets], with the trimming of
    [py_strip]: Python's list on an ASCII text. *)
Definition from_string (sockets_str : string) : list string :=
  if String.eqb sockets_str "" || String.eqb (py_strip sockets_str) "" then []
  else
    filter (fun socket => negb (String.eqb socket ""))
      (map py_strip (split_comma "" sockets_str)).

Record socket_families : Type := mkFamilies {
  intel : list string;
  amd : list string
}.

Definition amd_markers : list string := ["AM"; "FM"; "TR4"; "sTRX4"].

Definition get_socket_families (sockets : list string) : socket_families :=
  fold_left
    (fun fam socket =>
       if py_isdigit socket || py_startswith socket "LGA" then
         {| intel := intel fam ++ [socket]; amd := amd fam |}
       else if existsb (fun x => py_contains x (py_upper socket)) amd_markers then
         {| intel := intel fam; amd := amd fam ++ [socket] |}
       else
         {| intel := intel fam ++ [socket]; amd := amd fam ++ [socket] |})
    sockets
    {| intel := []; amd := [] |}.

(** The socket part of the dict returned by [_analyze_compatibility];
    [cooler_type] and [thermal_factor] come from other helpers and are
    left out. *)
Record compatibility_analysis : Type := mkAnalysis {
  families : socket_families;
  supports_intel : bool;
  supports_amd : bool;
  is_universal : bool
}.

(** [row] is a CSV row: column name to text. *)
Definition _analyze_compatibility (row : list (string * string)) : compatibility_analysis :=
  let socket_support := from_string (table_get row "Supported Sockets" "") in
  let socket_families := get_socket_families socket_support in
  {| families := socket_families;
     supports_intel := Nat.ltb 0 (length (intel socket_families));
     supports_amd := Nat.ltb 0 (length (amd socket_families));
     is_universal := Nat.ltb 0 (length (intel socket_families)) &&
                     Nat.ltb 0 (length (amd socket_families)) |}.

(** ** Properties of a report *)

(** The flag says incompatible exactly when there are errors. *)
Definition coherente (r : reporte) : Prop :=
  compatible r = false <-> errores r <> [].

(** No message about an insufficient PSU among the errors. *)
Definition sin_error_psu (r : reporte) : Prop :=
  forall (w : pyval) (p : Q), ~ In (PSUInsuficiente w p) (errores r).

(** ** Reading the records as the specification names their fields *)

(** A motherboard record: a JSON object whose [platform], when present, is
    an object. *)
Definition registro_motherboard (mb : pyval) : Prop :=
  exists d : pydict,
    mb = VDict d /\
    (lookup "platform" d = None \/ exists p : pydict, lookup "platform" d = Some (VDict p)).

(** The socket field of a motherboard is exactly the string [s]. *)
Definition tiene_socket (s : string) (mb : pyval) : bool :=
  match mb with
  | VDict d =>
      match lookup "platform" d with
      | Some (VDict p) =>
          match lookup "socket" p with
          | Some (VStr s') => String.eqb s' s
          | _ => false
          end
      | _ => false
      end
  | _ => false
  end.

(** A motherboard matches an optional socket and an optional form factor:
    an axis that is not given (or given as the empty string) does not
    filter. *)
Definition coincide (socket form_factor : option string) (mb : pyval) : Prop :=
  (forall s : string, socket = Some s -> s <> "" -> socket_es s mb = Ok true) /\
  (forall f : string, form_factor = Some f -> f <> "" -> form_factor_es f mb = Ok true).

(** A PSU record on which no wattage is stored: the path
    [power.wattage.value] stops at a missing key, and there is no top-level
    [wattage] either. *)
Definition sin_potencia (psu : pydict) : Prop :=
  lookup "wattage" psu = None /\
  (lookup "power" psu = None \/
   exists power : pydict,
     lookup "power" psu = Some (VDict power) /\
     (lookup "wattage" power = None \/
      exists wattage : pydict,
        lookup "wattage" power = Some (VDict wattage) /\
        lookup "value" wattage = None)).

(** ** The power budget as the specification words it *)

(** The CPU's TDP field: [architecture.tdp.value], or a bare number at
    [architecture.tdp]; when neither gives a value, the top-level [tdp].
    65 stands in where the key looked up is missing. *)
Definition tdp_directo (cpu : pydict) : pyval :=
  let anidado :=
    match lookup "architecture" cpu with
    | Some (VDict a) =>
        match lookup "tdp" a with
        | Some (VDict t) => dict_get t "value" (VNum 65)
        | Some v => if is_number v then v else VNone
        | None => VNone
        end
    | _ => VNone
    end in
  match anidado with
  | VNone => dict_get cpu "tdp" (VNum 65)
  | v => v
  end.

Definition contribucion_cpu (build : pydict) : Q :=
  match lookup "cpu" build with
  | Some (VDict cpu) =>
      match num_value (tdp_directo cpu) with
      | Some q => q
      | None => 65
      end
  | _ => 0
  end.

Definition categoria_gpu (gpu : pydict) : pyval :=
  match lookup "calculated_metrics" gpu with
  | Some (VDict m) => dict_get m "gpu_category" (VStr "mid_range")
  | _ => VStr "mid_range"
  end.

Definition potencia_por_categoria (categoria : pyval) : Q :=
  match categoria with
  | VStr c =>
      match assoc [("entry_level", 75); ("budget", 120); ("mid_range", 180);
                   ("high_end", 250); ("enthusiast", 320); ("flagship", 400)]%Q c with
      | Some w => w
      | None => 180
      end
  | _ => 180
  end.

(** GPU contribution by category alone. *)
Definition contribucion_gpu_categoria (build : pydict) : Q :=
  match lookup "gpu" build with
  | Some (VDict gpu) => potencia_por_categoria (categoria_gpu gpu)
  | _ => 0
  end.

(** The numeric TDP a GPU record stores, if any: [performance.tdp.value]
    (where the normaliser puts it), a bare number at [performance.tdp], or
    a top-level [tdp]. *)
Definition tdp_gpu_almacenado (gpu : pydict) : option Q :=
  let anidado :=
    match lookup "performance" gpu with
    | Some (VDict a) =>
        match lookup "tdp" a with
        | Some (VDict t) => num_value (dict_get t "value" VNone)
        | Some v => num_value v
        | None => None
        end
    | _ => None
    end in
  match anidado with
  | Some q => Some q
  | None => num_value (dict_get gpu "tdp" VNone)
  end.

(** GPU contribution as the specification has it: the direct TDP when the
    record stores one, the category otherwise. *)
Definition contribucion_gpu_spec (build : pydict) : Q :=
  match lookup "gpu" build with
  | Some (VDict gpu) =>
      match tdp_gpu_almacenado gpu with
      | Some q => q
      | None => potencia_por_categoria (categoria_gpu gpu)
      end
  | _ => 0
  end.

Definition presupuesto_spec (build : pydict) : Q :=
  Qmax 300 (contribucion_cpu build + contribucion_gpu_spec build + 50 + 30).

(** The selected CPU and GPU are records, and the GPU's category can be
    hashed (it is not a list or an object). *)
Definition componentes_validos (build : pydict) : Prop :=
  (forall v : pyval, lookup "cpu" build = Some v -> is_dict v = true) /\
  (forall v : pyval, lookup "gpu" build = Some v ->
     exists gpu : pydict, v = VDict gpu /\ hashable (categoria_gpu gpu) = true).

Definition build_gpu_con_tdp : pydict :=
  [("gpu",
    VDict [("name", VStr "RTX 4090");
           ("tdp", VNum 450);
           ("performance",
            VDict [("tdp", VDict [("value", VNum 450); ("unit", VStr "W")])]);
           ("calculated_metrics", VDict [("gpu_category", VStr "flagship")])])].

Definition build_ejemplo : pydict :=
  [("cpu",
    VDict [("name", VStr "Ryzen 7 5800X");
           ("architecture",
            VDict [("tdp", VDict [("value", VNum 105); ("unit", VStr "W")]);
                   ("socket", VStr "AM4")])]);
   ("gpu",
    VDict [("name", VStr "RTX 3070");
           ("calculated_metrics", VDict [("gpu_category", VStr "high_end")])])].

(** ** The socket families as the specification words them *)

Inductive familia : Type := Intel | AMD | Ambas.

(** [marker] occurs in [s], letter case ignored. *)
Definition contiene_sin_distinguir (marker s : string) : bool :=
  py_contains (py_upper marker) (py_upper s).

Definition familia_spec (socket : string) : familia :=
  if py_isdigit socket || py_startswith socket "LGA" then Intel
  else if existsb (fun marker => contiene_sin_distinguir marker socket)
            ["AM"; "FM"; "TR4"; "sTRX4"]
  then AMD
  else Ambas.

(** The three-way test of [get_socket_families] on one socket. *)
Definition familia_codigo (socket : string) : familia :=
  if py_isdigit socket || py_startswith socket "LGA" then Intel
  else if existsb (fun x => py_contains x (py_upper socket)) amd_markers then AMD
  else Ambas.

Definition en_intel (f : familia) : bool :=
  match f with AMD => false | _ => true end.

Definition en_amd (f : familia) : bool :=
  match f with Intel => false | _ => true end.

Definition familias_spec (sockets : list string) : socket_families :=
  {| intel := filter (fun s => en_intel (familia_spec s)) sockets;
     amd := filter (fun s => en_amd (familia_spec s)) sockets |}.

(** ** Builds and records used as concrete inputs *)

(** A CPU with a socket, a motherboard whose record has no socket. *)
Definition build_motherboard_sin_socket : pydict :=
  [("cpu", VDict [("name", VStr "Ryzen 5 5600X");
                  ("architecture", VDict [("socket", VStr "AM4")])]);
   ("motherboard", VDict [("name", VStr "B550"); ("platform", VDict [])])].

(** A RAM kit whose record has no generation, on a DDR4 motherboard. *)
Definition build_ram_sin_generacion : pydict :=
  [("ram", VDict [("name", VStr "Vengeance");
                  ("memory_specs", VDict [("ram_type", VDict [])])]);
   ("motherboard", VDict [("name", VStr "B550");
                          ("memory", VDict [("type", VStr "DDR4")])])].

(** What [PSUDataNormalizer] writes for a row whose Watt column is empty or
    cannot be parsed: [PowerWattage(None, 'W').to_dict()]. *)
Definition psu_potencia_nula : pyval :=
  VDict [("name", VStr "Generic PSU");
         ("power", VDict [("wattage", VDict [("value", VNone); ("unit", VStr "W")])]);
         ("form_factor", VStr "ATX")].

(** What [CaseDataNormalizer] writes for a row whose Supported GPU Length
    column is empty: [Dimension(raw_value='').to_dict()]. *)
Definition case_sin_largo_gpu : pyval :=
  VDict [("name", VStr "Generic Case");
         ("compatibility",
          VDict [("motherboard", VStr "ATX"); ("power_supply", VStr "ATX");
                 ("supported_gpu_length",
                  VDict [("value", VNone); ("unit", VNone); ("raw_value", VStr "")])])].

Definition gpu_300mm : pyval :=
  VDict [("name", VStr "RTX 3070");
         ("dimensions", VDict [("length", VDict [("value", VNum 300); ("unit", VStr "mm")])])].

Definition case_320mm : pyval :=
  VDict [("name", VStr "Meshify C");
         ("compatibility",
          VDict [("supported_gpu_length",
                  VDict [("value", VNum 320); ("unit", VStr "mm")])])].

Definition gpu_de_largo (g : Q) : pyval :=
  VDict [("name", VStr "GPU");
         ("dimensions", VDict [("length", VDict [("value", VNum g); ("unit", VStr "mm")])])].

(** A build whose budget is 450: a CPU of 370 W and the fixed 80. *)
Definition build_450_con_psu (w : Q) : pydict :=
  [("cpu", VDict [("name", VStr "CPU"); ("tdp", VNum 370)]);
   ("psu", VDict [("name", VStr "PSU");
                  ("power", VDict [("wattage", VDict [("value", VNum w); ("unit", VStr "W")])])])].

Definition catalogo_ejemplo : catalogo :=
  [("motherboard",
    [VDict [("name", VStr "B550"); ("platform", VDict [("socket", VStr "AM4")]);
            ("form_factor", VStr "ATX"); ("memory", VDict [("type", VStr "DDR4")])];
     VDict [("name", VStr "Z690"); ("platform", VDict [("socket", VStr "LGA1700")]);
            ("form_factor", VStr "ATX"); ("memory", VDict [("type", VStr "DDR5")])];
     VDict [("name", VStr "sin plataforma")];
     VDict [("name", VStr "A520"); ("platform", VDict [("socket", VStr "AM4")]);
            ("form_factor", VStr "Micro-ATX"); ("memory", VDict [("type", VStr "DDR4")])]]);
   ("ram",
    [VDict [("name", VStr "Vengeance");
            ("memory_specs", VDict [("ram_type", VDict [("generation", VStr "DDR4")])])];
     VDict [("name", VStr "Trident");
            ("memory_specs", VDict [("ram_type", VDict [("generation", VStr "DDR5")])])];
     VDict [("name", VStr "sin tipo")]]);
   ("psu",
    [VDict [("name", VStr "RM750"); ("form_factor", VStr "ATX");
            ("power", VDict [("wattage", VDict [("value", VNum 750); ("unit", VStr "W")])])];
     VDict [("name", VStr "sin potencia"); ("form_factor", VStr "ATX")];
     VDict [("name", VStr "CX350"); ("form_factor", VStr "ATX");
            ("power", VDict [("wattage", VDict [("value", VNum 350); ("unit", VStr "W")])])]])].

(** * The rest of the engine *)

(** ** Catalog queries ([GestorFiltros]) *)

(** One step of [sorted]: [x] goes before the first element it is smaller
    than. *)
Fixpoint insertar (x : pyval) (l : list pyval) : result (list pyval) :=
  match l with
  | [] => Ok [x]
  | y :: l' =>
      menor <- py_lt x y ;;
      if menor then Ok (x :: l) else r <- insertar x l' ;; Ok (y :: r)
  end.

(** [sorted(list(s))] on a set [s].  The members of a set are pairwise
    different, so the sorted list does not depend on the algorithm, and any
    comparison sort meets a [TypeError] exactly when two members cannot be
    compared; a stable insertion by [<] stands for Python's sort. *)
Definition py_sorted (l : list pyval) : result (list pyval) :=
  for_each l insertar [].

(** [s = set(); for x in xs: v = valor(x); if v: s.add(v)] *)
Definition recoger (valor : pyval -> result pyval) (xs : list pyval)
  : result (list pyval) :=
  for_each xs
    (fun x s => v <- valor x ;; if truthy v then set_add v s else Ok s)
    [].

(** [cpu.get('producer')] *)
Definition producer_de (cpu : pyval) : result pyval := py_get cpu "producer" VNone.

Definition obtener_arquitecturas_disponibles (datos : catalogo) : result (list pyval) :=
  arquitecturas <- recoger producer_de (datos_get datos "cpu") ;;
  py_sorted arquitecturas.

(** [cpu.get('architecture', {}).get('socket')] *)
Definition socket_cpu_de (cpu : pyval) : result pyval :=
  architecture <- py_get cpu "architecture" (VDict []) ;;
  py_get architecture "socket" VNone.

(** [cpu.get('producer') == arquitectura] *)
Definition producer_es (arquitectura : string) (cpu : pyval) : result bool :=
  producer <- producer_de cpu ;;
  Ok (py_eq producer (VStr arquitectura)).

(** The socket is read only from the CPUs of the architecture ([and]
    stops at the first false operand); [None] stands for the others. *)
Definition obtener_sockets_por_arquitectura (datos : catalogo) (arquitectura : string)
  : result (list pyval) :=
  sockets <-
    recoger
      (fun cpu =>
         es <- producer_es arquitectura cpu ;;
         if es then socket_cpu_de cpu else Ok VNone)
      (datos_get datos "cpu") ;;
  py_sorted sockets.

Definition filtrar_cpus_por_arquitectura (datos : catalogo) (arquitectura : string)
  : result (list pyval) :=
  seleccionar (producer_es arquitectura) (datos_get datos "cpu").

(** [mb.get('form_factor')] *)
Definition form_factor_de (mb : pyval) : result pyval := py_get mb "form_factor" VNone.

(** [socket is None or mb.get('platform', {}).get('socket') == socket] *)
Definition socket_libre_o_es (socket : option string) (mb : pyval) : result bool :=
  match socket with
  | None => Ok true
  | Some s => socket_es s mb
  end.

Definition obtener_form_factors_motherboard (datos : catalogo) (socket : option string)
  : result (list pyval) :=
  form_factors <-
    recoger
      (fun mb =>
         pasa <- socket_libre_o_es socket mb ;;
         if pasa then form_factor_de mb else Ok VNone)
      (datos_get datos "motherboard") ;;
  py_sorted form_factors.

(** ** Advanced filters ([FiltroAvanzado]) *)

(** [not x] for an optional number argument ([float = None]): [None] and
    0 are both falsy. *)
Definition sin_numero (o : option Q) : bool :=
  match o with
  | None => true
  | Some q => Qeq_bool q 0
  end.

(** [limite and valor < limite], [limite and valor > limite]: the
    comparison is made only when the bound is given and not 0. *)
Definition bajo_minimo (valor : pyval) (limite : option Q) : result bool :=
  match limite with
  | Some m => if sin_numero limite then Ok false else py_lt valor (VNum m)
  | None => Ok false
  end.

Definition sobre_maximo (valor : pyval) (limite : option Q) : result bool :=
  match limite with
  | Some m => if sin_numero limite then Ok false else py_gt valor (VNum m)
  | None => Ok false
  end.

(** [comp.get('price', {}).get('value', 0)] *)
Definition precio_de (comp : pyval) : result pyval :=
  price <- py_get comp "price" (VDict []) ;;
  py_get price "value" (VNum 0).

(** The loop body of [filtrar_por_precio]: [true] where the component is
    appended, [false] at each [continue]. *)
Definition precio_en_rango (precio_min precio_max : option Q) (comp : pyval)
  : result bool :=
  precio <- precio_de comp ;;
  if py_eq precio (VNum 0) then Ok true
  else
    bajo <- bajo_minimo precio precio_min ;;
    if bajo then Ok false
    else
      alto <- sobre_maximo precio precio_max ;;
      if alto then Ok false else Ok true.

Definition filtrar_por_precio (componentes : list pyval)
  (precio_min precio_max : option Q) : result (list pyval) :=
  if sin_numero precio_min && sin_numero precio_max then Ok componentes
  else seleccionar (precio_en_rango precio_min precio_max) componentes.

(** [a and then b] over tests that may raise: [b] is not run when [a]
    answers False. *)
Definition y_luego (a b : result bool) : result bool :=
  pasa <- a ;; if pasa then b else Ok false.

(** [not (categoria and metrics.get(clave) != categoria)] *)
Definition prueba_categoria (clave : string) (categoria : option string)
  (metrics : pyval) : result bool :=
  match categoria with
  | Some c =>
      if String.eqb c "" then Ok true
      else
        actual <- py_get metrics clave VNone ;;
        Ok (py_eq actual (VStr c))
  | None => Ok true
  end.

(** [not (minimo and arch.get(clave, 0) < minimo)] *)
Definition prueba_minimo (clave : string) (minimo : option Q) (arch : pyval)
  : result bool :=
  if sin_numero minimo then Ok true
  else
    valor <- py_get arch clave (VNum 0) ;;
    bajo <- bajo_minimo valor minimo ;;
    Ok (negb bajo).

(** [not (tdp_max and arch.get('tdp', {}).get('value', 999) > tdp_max)] *)
Definition prueba_tdp (tdp_max : option Q) (arch : pyval) : result bool :=
  if sin_numero tdp_max then Ok true
  else
    tdp <- py_get arch "tdp" (VDict []) ;;
    valor <- py_get tdp "value" (VNum 999) ;;
    alto <- sobre_maximo valor tdp_max ;;
    Ok (negb alto).

(** The loop body of [filtrar_cpus_por_rendimiento]. *)
Definition cpu_rinde (categoria : option string) (cores_min threads_min tdp_max : option Q)
  (cpu : pyval) : result bool :=
  arch <- py_get cpu "architecture" (VDict []) ;;
  metrics <- py_get cpu "calculated_metrics" (VDict []) ;;
  y_luego (prueba_categoria "cpu_category" categoria metrics)
    (y_luego (prueba_minimo "cores" cores_min arch)
       (y_luego (prueba_minimo "threads" threads_min arch)
          (prueba_tdp tdp_max arch))).

Definition filtrar_cpus_por_rendimiento (cpus : list pyval) (categoria : option string)
  (cores_min threads_min tdp_max : option Q) : result (list pyval) :=
  seleccionar (cpu_rinde categoria cores_min threads_min tdp_max) cpus.

(** [not (minimo and specs.get(clave, {}).get('value', 0) < minimo)] *)
Definition prueba_valor_minimo (clave : string) (minimo : option Q) (specs : pyval)
  : result bool :=
  if sin_numero minimo then Ok true
  else
    campo <- py_get specs clave (VDict []) ;;
    valor <- py_get campo "value" (VNum 0) ;;
    bajo <- bajo_minimo valor minimo ;;
    Ok (negb bajo).

(** [not (tipo and specs.get('ram_type', {}).get('generation', '') != tipo)] *)
Definition prueba_tipo (tipo_especifico : option string) (specs : pyval) : result bool :=
  match tipo_especifico with
  | Some t =>
      if String.eqb t "" then Ok true
      else
        ram_type <- py_get specs "ram_type" (VDict []) ;;
        tipo <- py_get ram_type "generation" (VStr "") ;;
        Ok (py_eq tipo (VStr t))
  | None => Ok true
  end.

(** The loop body of [filtrar_ram_por_especificaciones]. *)
Definition ram_cumple (capacidad_min frecuencia_min : option Q)
  (tipo_especifico : option string) (ram : pyval) : result bool :=
  specs <- py_get ram "memory_specs" (VDict []) ;;
  y_luego (prueba_valor_minimo "capacity" capacidad_min specs)
    (y_luego (prueba_valor_minimo "frequency" frecuencia_min specs)
       (prueba_tipo tipo_especifico specs)).

Definition filtrar_ram_por_especificaciones (rams : list pyval)
  (capacidad_min frecuencia_min : option Q) (tipo_especifico : option string)
  : result (list pyval) :=
  seleccionar (ram_cumple capacidad_min frecuencia_min tipo_especifico) rams.

(** [not (vram_min and memory.get('vram_size', {}).get('gb_equivalent', 0) < vram_min)] *)
Definition prueba_vram (vram_min : option Q) (memory : pyval) : result bool :=
  if sin_numero vram_min then Ok true
  else
    vram_size <- py_get memory "vram_size" (VDict []) ;;
    vram <- py_get vram_size "gb_equivalent" (VNum 0) ;;
    bajo <- bajo_minimo vram vram_min ;;
    Ok (negb bajo).

(** The loop body of [filtrar_gpus_por_rendimiento]. *)
Definition gpu_rinde (categoria : option string) (vram_min : option Q) (gpu : pyval)
  : result bool :=
  metrics <- py_get gpu "calculated_metrics" (VDict []) ;;
  memory <- py_get gpu "memory" (VDict []) ;;
  y_luego (prueba_categoria "gpu_category" categoria metrics)
    (prueba_vram vram_min memory).

Definition filtrar_gpus_por_rendimiento (gpus : list pyval) (categoria : option string)
  (vram_min : option Q) : result (list pyval) :=
  seleccionar (gpu_rinde categoria vram_min) gpus.

(** ** Inputs and readings for the rest of the engine *)

Definition catalogo_cpus : catalogo :=
  [("cpu",
    [VDict [("name", VStr "Ryzen 5 5600X"); ("producer", VStr "AMD");
            ("architecture", VDict [("cores", VNum 6); ("socket", VStr "AM4")])];
     VDict [("name", VStr "Core i5-12400"); ("producer", VStr "Intel");
            ("architecture", VDict [("cores", VNum 6); ("socket", VStr "LGA1700")])];
     VDict [("name", VStr "sin fabricante");
            ("architecture", VDict [("socket", VStr "AM5")])];
     VDict [("name", VStr "Ryzen 7 7700X"); ("producer", VStr "AMD");
            ("architecture", VDict [("cores", VNum 8); ("socket", VStr "AM5")])]]);
   ("case",
    [VDict [("name", VStr "Meshify C");
            ("compatibility", VDict [("motherboard", VStr "ATX")])];
     VDict [("name", VStr "NR200");
            ("compatibility", VDict [("motherboard", VStr "Mini-ITX")])];
     VDict [("name", VStr "sin soporte"); ("compatibility", VDict [("motherboard", VStr "")])]])].

(** The answer of the form-factor predicate on two normalised names. *)
Definition compatible_b (nc nm : string) : bool :=
  String.eqb nc nm ||
  match ordinal_spec nc, ordinal_spec nm with
  | Some oc, Some om => Z.geb oc om
  | _, _ => false
  end.

Definition componentes_con_precio : list pyval :=
  [VDict [("name", VStr "A"); ("price", VDict [("value", VNum 50)])];
   VDict [("name", VStr "B")];
   VDict [("name", VStr "C"); ("price", VDict [("value", VNum 500)])];
   VDict [("name", VStr "D"); ("price", VDict [("value", VNum 200)])]].

Definition cpus_rendimiento : list pyval :=
  [VDict [("name", VStr "Ryzen 5 5600X");
          ("architecture",
           VDict [("cores", VNum 6); ("threads", VNum 12);
                  ("tdp", VDict [("value", VNum 65); ("unit", VStr "W")])]);
          ("calculated_metrics", VDict [("cpu_category", VStr "mainstream")])];
   VDict [("name", VStr "Ryzen 9 5950X");
          ("architecture",
           VDict [("cores", VNum 16); ("threads", VNum 32);
                  ("tdp", VDict [("value", VNum 105); ("unit", VStr "W")])]);
          ("calculated_metrics", VDict [("cpu_category", VStr "enthusiast")])];
   VDict [("name", VStr "Athlon 3000G");
          ("architecture", VDict [("cores", VNum 2); ("threads", VNum 4)]);
          ("calculated_metrics", VDict [("cpu_category", VStr "budget")])]].

(** [arch.get('tdp', {}).get('value', 999)] on [cpu.get('architecture', {})] *)
Definition tdp_cpu_de (cpu : pyval) : result pyval :=
  arch <- py_get cpu "architecture" (VDict []) ;;
  tdp <- py_get arch "tdp" (VDict []) ;;
  py_get tdp "value" (VNum 999).

(** What [CPUDataNormalizer] writes for a row whose TDP column cannot be
    parsed: [ThermalDesignPower(raw_value=...).to_dict()]. *)
Definition cpu_tdp_nulo : pyval :=
  VDict [("name", VStr "CPU");
         ("architecture",
          VDict [("cores", VNum 4); ("threads", VNum 8);
                 ("tdp", VDict [("value", VNone); ("unit", VNone); ("raw_value", VStr "N/A")]);
                 ("socket", VStr "AM4")]);
         ("calculated_metrics", VDict [])].

(** A GPU record with the keys [GPUDataNormalizer] writes: the memory size
    is under [performance.vram], there is no [memory] key. *)
Definition registro_gpu_normalizado (gpu : pyval) : Prop :=
  exists d : pydict,
    gpu = VDict d /\ lookup "memory" d = None /\
    (lookup "calculated_metrics" d = None \/
     exists m : pydict, lookup "calculated_metrics" d = Some (VDict m)).

Definition gpus_normalizadas : list pyval :=
  [VDict [("name", VStr "RTX 3060");
          ("performance", VDict [("vram", VDict [("value", VNum 12); ("unit", VStr "GB")])]);
          ("calculated_metrics", VDict [("gpu_category", VStr "mainstream")])];
   VDict [("name", VStr "RX 6600");
          ("performance", VDict [("vram", VDict [("value", VNum 8); ("unit", VStr "GB")])]);
          ("calculated_metrics", VDict [("gpu_category", VStr "budget")])]].

(** [case_data.get('compatibility', {}).get('power_supply')] *)
Definition soporte_psu_de (case_data : pydict) : result pyval :=
  compatibility <- py_get (VDict case_data) "compatibility" (VDict []) ;;
  py_get compatibility "power_supply" VNone.

Definition case_sfx : pydict :=
  [("name", VStr "NR200"); ("compatibility", VDict [("power_supply", VStr "SFX")])].

Definition catalogo_psus : catalogo :=
  [("psu",
    [VDict [("name", VStr "SF600"); ("form_factor", VStr "SFX");
            ("power", VDict [("wattage", VDict [("value", VNum 600); ("unit", VStr "W")])])];
     VDict [("name", VStr "RM750"); ("form_factor", VStr "ATX");
            ("power", VDict [("wattage", VDict [("value", VNum 750); ("unit", VStr "W")])])];
     VDict [("name", VStr "sin formato");
            ("power", VDict [("wattage", VDict [("value", VNum 500); ("unit", VStr "W")])])];
     VDict [("name", VStr "SF450"); ("form_factor", VStr "sfx");
            ("power", VDict [("wattage", VDict [("value", VNum 450); ("unit", VStr "W")])])]])].

Definition build_sin_psu : pydict :=
  [("cpu", VDict [("architecture",
                   VDict [("socket", VStr "AM4");
                          ("tdp", VDict [("value", VNum 105)])])]);
   ("gpu", VDict [("calculated_metrics", VDict [("gpu_category", VStr "high_end")])])].

Definition catalogo_completo : catalogo := catalogo_ejemplo ++ catalogo_cpus.

(** [case.get('compatibility', {}).get('supported_cpu_cooler_height', {}).get('value', 0)] *)
Definition max_cooler_height_de (case : pyval) : result pyval :=
  compatibility <- py_get case "compatibility" (VDict []) ;;
  supported <- py_get compatibility "supported_cpu_cooler_height" (VDict []) ;;
  py_get supported "value" (VNum 0).

(** A record that has no [dimensions] key: the GPU normaliser stores the
    length under [physical], the cooler normaliser stores the height under
    [specifications]. *)
Definition sin_dimensions (v : pyval) : Prop :=
  exists d : pydict, v = VDict d /\ lookup "dimensions" d = None.

Definition build_normalizada : pydict :=
  [("case",
    VDict [("name", VStr "Meshify C");
           ("compatibility",
            VDict [("supported_gpu_length", VDict [("value", VNum 315); ("unit", VStr "mm")]);
                   ("supported_cpu_cooler_height",
                    VDict [("value", VNum 170); ("unit", VStr "mm")])])]);
   ("gpu",
    VDict [("name", VStr "RTX 4090");
           ("physical", VDict [("length", VDict [("value", VNum 336); ("unit", VStr "mm")])])]);
   ("cpu_cooler",
    VDict [("name", VStr "NH-D15");
           ("specifications",
            VDict [("height", VDict [("value", VNum 165); ("unit", VStr "mm")])])])].

(** ** Filter settings ([FiltroCompatibilidad]) *)

(** The enum [Arquitectura]. *)
Module Arquitectura.

Inductive t : Type := AMD | INTEL.

(** [a.value] *)
Definition value (a : t) : string :=
  match a with
  | AMD => "AMD"
  | INTEL => "Intel"
  end.

(** [Arquitectura(v)]: the member whose value is [v]; [None] stands for
    the [ValueError] any other value gets. *)
Definition de_valor (v : pyval) : option t :=
  match v with
  | VStr s =>
      if String.eqb s "AMD" then Some AMD
      else if String.eqb s "Intel" then Some INTEL
      else None
  | _ => None
  end.

End Arquitectura.

(** The dataclass.  The five string fields are annotated [Optional[str]];
    nothing checks it, and they hold whatever the caller passes. *)
Record FiltroCompatibilidad : Type := mkFiltro {
  arquitectura : option Arquitectura.t;
  socket_cpu : pyval;
  motherboard_form_factor : pyval;
  ram_type : pyval;
  psu_form_factor : pyval;
  case_form_factor : pyval
}.

Definition to_dict (self : FiltroCompatibilidad) : pydict :=
  [("arquitectura",
    match arquitectura self with
    | Some a => VStr (Arquitectura.value a)
    | None => VNone
    end);
   ("socket_cpu", socket_cpu self);
   ("motherboard_form_factor", motherboard_form_factor self);
   ("ram_type", ram_type self);
   ("psu_form_factor", psu_form_factor self);
   ("case_form_factor", case_form_factor self)].

(** [None] is the [ValueError] of [Arquitectura(seleccion['arquitectura'])]. *)
Definition crear_filtro_desde_seleccion (seleccion : pydict) : option FiltroCompatibilidad :=
  match
    (if truthy (dict_get seleccion "arquitectura" VNone)
     then match Arquitectura.de_valor (dict_get seleccion "arquitectura" VNone) with
          | Some a => Some (Some a)
          | None => None
          end
     else Some None)
  with
  | Some arquitectura =>
      Some {| arquitectura := arquitectura;
              socket_cpu := dict_get seleccion "socket_cpu" VNone;
              motherboard_form_factor := dict_get seleccion "motherboard_form_factor" VNone;
              ram_type := dict_get seleccion "ram_type" VNone;
              psu_form_factor := dict_get seleccion "psu_form_factor" VNone;
              case_form_factor := dict_get seleccion "case_form_factor" VNone |}
  | None => None
  end.

(** The five keys that are copied as they are. *)
Definition claves_copiadas : list string :=
  ["socket_cpu"; "motherboard_form_factor"; "ram_type"; "psu_form_factor";
   "case_form_factor"].

(** ** Cooling check ([ValidadorCompatibilidad]) *)

Module Refrigeracion.

(** The two f-string templates and the fixed recommendation. *)
Inductive mensaje : Type :=
| CoolerInsuficiente (cpu_tdp cooler_tdp : pyval)
| CoolerAjustado (cpu_tdp cooler_tdp : pyval)
| MasVentiladoresEntrada.

(** The report dict of [verificar_refrigeracion]. *)
Record reporte : Type := mkReporte {
  adecuada : bool;
  advertencias : list mensaje;
  recomendaciones : list mensaje
}.

Definition reporte_inicial : reporte :=
  {| adecuada := true; advertencias := []; recomendaciones := [] |}.

End Refrigeracion.

(** [cpu.get('architecture', {}).get('tdp', {}).get('value', 0)] *)
Definition cpu_tdp_de (cpu : pyval) : result pyval :=
  architecture <- py_get cpu "architecture" (VDict []) ;;
  tdp <- py_get architecture "tdp" (VDict []) ;;
  py_get tdp "value" (VNum 0).

(** [cpu_cooler.get('cooling', {}).get('tdp_max', {}).get('value', 0)] *)
Definition cooler_tdp_de (cpu_cooler : pyval) : result pyval :=
  cooling <- py_get cpu_cooler "cooling" (VDict []) ;;
  tdp_max <- py_get cooling "tdp_max" (VDict []) ;;
  py_get tdp_max "value" (VNum 0).

(** Verificar TDP vs capacidad del cooler *)
Definition verificar_tdp_cooler (cpu cpu_cooler : pyval)
  (resultado : Refrigeracion.reporte) : result Refrigeracion.reporte :=
  if truthy cpu && truthy cpu_cooler then
    cpu_tdp <- cpu_tdp_de cpu ;;
    cooler_tdp <- cooler_tdp_de cpu_cooler ;;
    cooler_positive <- py_gt cooler_tdp (VNum 0) ;;
    both_positive <- (if cooler_positive then py_gt cpu_tdp (VNum 0) else Ok false) ;;
    if both_positive then
      insuficiente <- py_gt cpu_tdp cooler_tdp ;;
      if insuficiente then
        Ok {| Refrigeracion.adecuada := false;
              Refrigeracion.advertencias :=
                Refrigeracion.advertencias resultado ++
                [Refrigeracion.CoolerInsuficiente cpu_tdp cooler_tdp];
              Refrigeracion.recomendaciones := Refrigeracion.recomendaciones resultado |}
      else
        limit <- py_mul cooler_tdp 0.8 ;;
        ajustado <- py_gt cpu_tdp (VNum limit) ;;
        if ajustado then
          Ok {| Refrigeracion.adecuada := Refrigeracion.adecuada resultado;
                Refrigeracion.advertencias :=
                  Refrigeracion.advertencias resultado ++
                  [Refrigeracion.CoolerAjustado cpu_tdp cooler_tdp];
                Refrigeracion.recomendaciones := Refrigeracion.recomendaciones resultado |}
        else Ok resultado
    else Ok resultado
  else Ok resultado.

(** The entries of a dict, each key once: an entry shadowed by an earlier
    one with the same key is not part of the dict. *)
Fixpoint items_desde (vistas : list string) (d : pydict) : list (string * pyval) :=
  match d with
  | [] => []
  | (k, v) :: rest =>
      if existsb (String.eqb k) vistas then items_desde vistas rest
      else (k, v) :: items_desde (k :: vistas) rest
  end.

Definition dict_items (d : pydict) : list (string * pyval) := items_desde [] d.

(** [o.items()] *)
Definition py_items (o : pyval) : result (list (string * pyval)) :=
  match o with
  | VDict d => Ok (dict_items d)
  | _ => Raise AttributeError
  end.

(** One turn of the loop over [fan_slots.items()], on the pair
    [(total_intake, total_exhaust)]. *)
Definition contar_ventiladores (entrada : string * pyval) (totales : Q * Q)
  : result (Q * Q) :=
  let (size, slots) := entrada in
  let (total_intake, total_exhaust) := totales in
  if is_dict slots then
    installed <- py_get slots "installed" (VNum 0) ;;
    if py_contains "front" (py_lower size) || py_contains "intake" (py_lower size) then
      total_intake <- py_add total_intake installed ;;
      Ok (total_intake, total_exhaust)
    else
      total_exhaust <- py_add total_exhaust installed ;;
      Ok (total_intake, total_exhaust)
  else Ok (total_intake, total_exhaust).

(** Analizar ventilación del case *)
Definition analizar_ventilacion (case : pyval) (resultado : Refrigeracion.reporte)
  : result Refrigeracion.reporte :=
  if truthy case then
    fan_slots <- py_get case "fan_support" (VDict []) ;;
    entradas <- py_items fan_slots ;;
    totales <- for_each entradas contar_ventiladores (0%Q, 0%Q) ;;
    let (total_intake, total_exhaust) := totales in
    if negb (Qle_bool total_exhaust total_intake) then
      Ok {| Refrigeracion.adecuada := Refrigeracion.adecuada resultado;
            Refrigeracion.advertencias := Refrigeracion.advertencias resultado;
            Refrigeracion.recomendaciones :=
              Refrigeracion.recomendaciones resultado ++
              [Refrigeracion.MasVentiladoresEntrada] |}
    else Ok resultado
  else Ok resultado.

Definition verificar_refrigeracion (configuracion : pydict)
  : result Refrigeracion.reporte :=
  let resultado := Refrigeracion.reporte_inicial in
  let cpu := config_get configuracion "cpu" VNone in
  let cpu_cooler := config_get configuracion "cpu_cooler" VNone in
  let case := config_get configuracion "case" VNone in
  resultado <- verificar_tdp_cooler cpu cpu_cooler resultado ;;
  resultado <- analizar_ventilacion case resultado ;;
  Ok resultado.






(** ** Formatting for the interface *)

(** [d[k] = v]: the value of an existing key is replaced where it stands, a
    new key goes to the end. *)
Fixpoint dict_set (k : string) (v : pyval) (d : pydict) : pydict :=
  match d with
  | [] => [(k, v)]
  | (k', v') :: rest =>
      if String.eqb k k' then (k, v) :: rest else (k', v') :: dict_set k v rest
  end.

(** [d.update(otros)] *)
Definition dict_update (d otros : pydict) : pydict :=
  fold_left (fun d kv => dict_set (fst kv) (snd kv) d) otros d.

(** [o.get(k1, {}).get(k2, default)] *)
Definition get2 (o : pyval) (k1 k2 : string) (default : pyval) : result pyval :=
  a <- py_get o k1 (VDict []) ;;
  py_get a k2 default.

(** [o.get(k1, {}).get(k2, {}).get(k3, default)] *)
Definition get3 (o : pyval) (k1 k2 k3 : string) (default : pyval) : result pyval :=
  a <- py_get o k1 (VDict []) ;;
  b <- py_get a k2 (VDict []) ;;
  py_get b k3 default.

(** [v if v is not None else 0] *)
Definition o_cero (v : pyval) : pyval := if is_none v then VNum 0 else v.

Definition base_info_de (componente : pydict) (tipo : string) : pydict :=
  [("id", dict_get componente "mpn" (dict_get componente "name" (VStr "Unknown")));
   ("nombre", dict_get componente "name" (VStr "Sin nombre"));
   ("fabricante", dict_get componente "producer" (VStr "Sin fabricante"));
   ("mpn", dict_get componente "mpn" (VStr ""));
   ("tipo", VStr tipo)].

Definition formatear_componente_para_ui (componente : pydict) (tipo : string)
  : result pydict :=
  let c := VDict componente in
  let base_info := base_info_de componente tipo in
  (* Información específica por tipo *)
  if String.eqb tipo "cpu" then
    socket <- get2 c "architecture" "socket" (VStr "") ;;
    cores <- get2 c "architecture" "cores" (VNum 0) ;;
    threads <- get2 c "architecture" "threads" (VNum 0) ;;
    tdp <- get3 c "architecture" "tdp" "value" (VNum 0) ;;
    base_clock <- get3 c "performance" "base_clock" "value" (VNum 0) ;;
    Ok (dict_update base_info
          [("socket", socket); ("cores", cores); ("threads", threads); ("tdp", tdp);
           ("base_clock", base_clock)])
  else if String.eqb tipo "motherboard" then
    socket <- get2 c "platform" "socket" (VStr "") ;;
    chipset <- get2 c "platform" "chipset" (VStr "") ;;
    form_factor <- py_get c "form_factor" (VStr "") ;;
    ram_type <- get2 c "memory" "type" (VStr "") ;;
    ram_slots <- get2 c "memory" "slots" (VNum 0) ;;
    Ok (dict_update base_info
          [("socket", socket); ("chipset", chipset); ("form_factor", form_factor);
           ("ram_type", ram_type); ("ram_slots", ram_slots)])
  else if String.eqb tipo "ram" then
    generation <- get3 c "memory_specs" "ram_type" "generation" (VStr "") ;;
    capacidad <- get3 c "memory_specs" "capacity" "value" (VNum 0) ;;
    capacidad_unit <- get3 c "memory_specs" "capacity" "unit" (VStr "GB") ;;
    frecuencia <- get3 c "memory_specs" "frequency" "value" (VNum 0) ;;
    sticks <- get2 c "memory_specs" "sticks" (VNum 1) ;;
    timings <- get3 c "memory_specs" "timings" "raw_value" (VStr "") ;;
    Ok (dict_update base_info
          [("tipo", generation); ("capacidad", capacidad);
           ("capacidad_unit", capacidad_unit); ("frecuencia", frecuencia);
           ("sticks", sticks); ("timings", timings)])
  else if String.eqb tipo "case" then
    motherboard_support <- get2 c "compatibility" "motherboard" (VStr "") ;;
    psu_support <- get2 c "compatibility" "power_supply" (VStr "") ;;
    max_gpu_length <- get3 c "compatibility" "supported_gpu_length" "value" (VNum 0) ;;
    Ok (dict_update base_info
          [("motherboard_support", motherboard_support); ("psu_support", psu_support);
           ("max_gpu_length", max_gpu_length)])
  else if String.eqb tipo "psu" then
    wattage <- get3 c "power" "wattage" "value" (VNum 0) ;;
    efficiency <- get3 c "power" "efficiency" "full_rating" (VStr "") ;;
    form_factor <- py_get c "form_factor" (VStr "") ;;
    Ok (dict_update base_info
          [("wattage", wattage); ("efficiency", efficiency); ("form_factor", form_factor)])
  else if String.eqb tipo "gpu" then
    vram <- get3 c "performance" "vram" "value" (VNum 0) ;;
    length <- get3 c "physical" "length" "value" (VNum 0) ;;
    slots <- get2 c "physical" "slots" (VNum 0) ;;
    tdp <- get3 c "performance" "tdp" "value" (VNum 0) ;;
    boost_clock <- get3 c "performance" "boost_clock" "value" (VNum 0) ;;
    Ok (dict_update base_info
          [("vram", vram); ("length", length); ("slots", slots); ("tdp", tdp);
           ("boost_clock", boost_clock)])
  else if String.eqb tipo "ssd" then
    capacity <- get3 c "storage_specs" "capacity" "value" (VNum 0) ;;
    capacity_unit <- get3 c "storage_specs" "capacity" "unit" (VStr "GB") ;;
    form_factor <- get2 c "storage_specs" "form_factor" (VStr "") ;;
    protocol <- get2 c "storage_specs" "protocol" (VStr "") ;;
    nand_type <- get2 c "technical_specs" "nand_type" (VStr "") ;;
    Ok (dict_update base_info
          [("capacity", capacity); ("capacity_unit", capacity_unit);
           ("form_factor", form_factor); ("protocol", protocol); ("nand_type", nand_type)])
  else if String.eqb tipo "hdd" then
    (* Manejar valores None de manera segura *)
    cache_value <- get3 c "performance_specs" "cache" "value" (VNum 0) ;;
    let cache_value := o_cero cache_value in
    capacity <- get3 c "storage_specs" "capacity" "value" (VNum 0) ;;
    capacity_unit <- get3 c "storage_specs" "capacity" "unit" (VStr "GB") ;;
    rpm <- get2 c "performance_specs" "rpm" (VNum 0) ;;
    cache_unit <- get3 c "performance_specs" "cache" "unit" (VStr "MB") ;;
    Ok (dict_update base_info
          [("capacity", capacity); ("capacity_unit", capacity_unit); ("rpm", rpm);
           ("cache", cache_value); ("cache_unit", cache_unit)])
  else if String.eqb tipo "cpu_cooler" then
    (* Manejar valores None de manera segura *)
    tdp_value <- get3 c "specifications" "tdp" "value" (VNum 0) ;;
    height_value <- get3 c "specifications" "height" "value" (VNum 0) ;;
    supported_sockets <- get3 c "specifications" "supported_sockets" "sockets" (VList []) ;;
    socket_count <- get3 c "specifications" "supported_sockets" "count" (VNum 0) ;;
    Ok (dict_update base_info
          [("tdp", o_cero tdp_value); ("height", o_cero height_value);
           ("supported_sockets", supported_sockets); ("socket_count", socket_count)])
  else Ok base_info.

Definition claves_base : list string := ["id"; "nombre"; "fabricante"; "mpn"].

Definition ram_ejemplo : pydict :=
  [("name", VStr "Vengeance LPX"); ("producer", VStr "Corsair"); ("mpn", VStr "CMK16");
   ("memory_specs",
    VDict [("ram_type", VDict [("generation", VStr "DDR4")]);
           ("capacity", VDict [("value", VNum 16); ("unit", VStr "GB")]);
           ("sticks", VNum 2)])].

(** ** Readings for the connectivity check *)







(** ** Writing a socket list back to text *)

(** [sep.join(l)] *)
Fixpoint py_join (sep : string) (l : list string) : string :=
  match l with
  | [] => ""
  | x :: rest =>
      match rest with
      | [] => x
      | _ => (x ++ sep ++ py_join sep rest)%string
      end
  end.

(** No comma in the string, character by character. *)
Fixpoint sin_coma (s : string) : bool :=
  match s with
  | EmptyString => true
  | String c rest => negb (Ascii.eqb c ",") && sin_coma rest
  end.

(** A socket name as [from_string] returns them: not empty, nothing to
    strip, no comma. *)
Definition socket_limpio (s : string) : Prop :=
  s <> "" /\ py_strip s = s /\ py_contains "," s = false.

(** ** Parsing measures ([clases.py]) *)

(** The regular expressions of the value classes, matched the way [re]
    does it: each repetition is greedy and gives characters back, one at a
    time, when what follows does not match.  Character classes are the
    ASCII ones. *)

(** [\w] *)
Definition is_word (c : ascii) : bool :=
  is_digit c || is_upper c || is_lower c || Ascii.eqb c "_".

Fixpoint all_word (s : string) : bool :=
  match s with
  | EmptyString => true
  | String c rest => is_word c && all_word rest
  end.

(** [(\w+)$]: the rest of the text, when it is one or more word
    characters. *)
Definition palabra (r : string) : option string :=
  match r with
  | EmptyString => None
  | _ => if all_word r then Some r else None
  end.

(** [\s*(\w+)$] *)
Fixpoint tras_espacios (r : string) : option string :=
  match r with
  | String c r' =>
      if is_space c then
        match tras_espacios r' with
        | Some u => Some u
        | None => palabra r
        end
      else palabra r
  | EmptyString => palabra r
  end.

(** The rest of [\d+] after the digits [tomados], then [k] on what was
    taken and what is left. *)
Fixpoint mas_digitos {R : Type} (k : string -> string -> option R)
  (tomados r : string) : option R :=
  match r with
  | String c r' =>
      if is_digit c then
        match mas_digitos k (tomados ++ String c "")%string r' with
        | Some x => Some x
        | None => k tomados r
        end
      else k tomados r
  | EmptyString => k tomados r
  end.

(** [\d+], then [k] *)
Definition digitos {R : Type} (k : string -> string -> option R) (r : string)
  : option R :=
  match r with
  | String c r' => if is_digit c then mas_digitos k (String c "") r' else None
  | EmptyString => None
  end.

Definition digit_value (c : ascii) : Z := (Z.of_nat (nat_of_ascii c) - 48)%Z.

(** [int(s)] on a text of ASCII digits, of any length ([int] raises
    [ValueError] beyond 4300 digits). *)
Fixpoint int_de (acc : Z) (s : string) : Z :=
  match s with
  | EmptyString => acc
  | String c rest => int_de (10 * acc + digit_value c)%Z rest
  end.

(** [float(s)] on digits with an optional fraction, as the exact decimal;
    the float is the nearest double to it. *)
Definition float_de (entero fraccion : string) : Q :=
  Qmake (int_de 0 (entero ++ fraccion)%string)
        (Z.to_pos (10 ^ Z.of_nat (String.length fraccion))).

(** [^(\d+(?:\.\d+)?)\s*(\w+)$]: the number, as integer and fraction
    digits, and the unit. *)
Definition patron_medida (s : string) : option (string * string * string) :=
  digitos
    (fun entero r1 =>
       match
         match r1 with
         | String c r2 =>
             if Ascii.eqb c "." then
               digitos
                 (fun fraccion r3 =>
                    match tras_espacios r3 with
                    | Some u => Some (entero, fraccion, u)
                    | None => None
                    end)
                 r2
             else None
         | EmptyString => None
         end
       with
       | Some x => Some x
       | None =>
           match tras_espacios r1 with
           | Some u => Some (entero, ""%string, u)
           | None => None
           end
       end)
    s.

Module Dimension.

Record t : Type := mk {
  value : option Q;
  unit : option string;
  raw_value : string
}.

Definition from_string (dimension_str : string) : t :=
  if String.eqb dimension_str "" || String.eqb (py_strip dimension_str) "" then
    {| value := None; unit := None; raw_value := dimension_str |}
  else
    match patron_medida (py_strip dimension_str) with
    | Some (entero, fraccion, u) =>
        {| value := Some (float_de entero fraccion); unit := Some u;
           raw_value := dimension_str |}
    | None => {| value := None; unit := None; raw_value := dimension_str |}
    end.

End Dimension.




Definition numero (d : string) : Prop := d <> "" /\ all_digits d = true.

(** The text does not start with a digit. *)
Definition sin_digito_inicial (r : string) : Prop :=
  match r with
  | String c _ => is_digit c = false
  | EmptyString => True
  end.

Module FanSlots.

Record t : Type := mk {
  installed : option Z;
  maximum : option Z;
  raw_value : string
}.

(** [^(\d+)/(\d+)$] *)
Definition patron (s : string) : option (string * string) :=
  digitos
    (fun a r1 =>
       match r1 with
       | String c r2 =>
           if Ascii.eqb c "/" then
             digitos
               (fun b r3 =>
                  match r3 with
                  | EmptyString => Some (a, b)
                  | _ => None
                  end)
               r2
           else None
       | EmptyString => None
       end)
    s.

Definition from_string (fan_str : string) : t :=
  if String.eqb fan_str "" || String.eqb (py_strip fan_str) "" then
    {| installed := None; maximum := None; raw_value := fan_str |}
  else
    match patron (py_strip fan_str) with
    | Some (a, b) =>
        {| installed := Some (int_de 0 a); maximum := Some (int_de 0 b);
           raw_value := fan_str |}
    | None => {| installed := None; maximum := None; raw_value := fan_str |}
    end.

Definition to_dict (self : t) : pydict :=
  [("installed",
    match installed self with Some n => VNum (inject_Z n) | None => VNone end);
   ("maximum",
    match maximum self with Some n => VNum (inject_Z n) | None => VNone end);
   ("raw_value", VStr (raw_value self))].

End FanSlots.

(** A case as [CaseDataNormalizer] writes its fans, from the texts of two
    fan columns. *)
Definition case_con_ventiladores (fans_120 fans_140 : string) : pyval :=
  VDict [("name", VStr "Case");
         ("fan_support",
          VDict [("120mm", VDict (FanSlots.to_dict (FanSlots.from_string fans_120)));
                 ("140mm", VDict (FanSlots.to_dict (FanSlots.from_string fans_140)))])].

(** ** Cooler type ([CPUCoolerDataNormalizer]) *)

(** The digits of [int(s)] in base 10: single underscores are allowed
    between digits. *)
Fixpoint digitos_con_guiones (tras_digito : bool) (acc : Z) (s : string) : option Z :=
  match s with
  | EmptyString => if tras_digito then Some acc else None
  | String c rest =>
      if is_digit c then digitos_con_guiones true (10 * acc + digit_value c)%Z rest
      else if Ascii.eqb c "_" then
        if tras_digito then digitos_con_guiones false acc rest else None
      else None
  end.

(** [int(s)] on a stripped text of ASCII characters; [None] is the
    [ValueError].  The digits are counted without limit ([int] raises
    [ValueError] beyond 4300 of them). *)
Definition py_int (s : string) : option Z :=
  match s with
  | String c rest =>
      if Ascii.eqb c "-" then option_map Z.opp (digitos_con_guiones false 0 rest)
      else if Ascii.eqb c "+" then digitos_con_guiones false 0 rest
      else digitos_con_guiones false 0 s
  | EmptyString => None
  end.

Definition _parse_int_or_empty (value : string) : option Z :=
  if String.eqb value "" || String.eqb (py_strip value) "" then None
  else py_int (py_strip value).

Definition fan_sizes : list string :=
  ["80mm Fans"; "92mm Fans"; "120mm Fans"; "140mm Fans"; "200mm Fans"].

Definition _calculate_total_fans (row : list (string * string)) : Z :=
  fold_left
    (fun total fan_size =>
       match _parse_int_or_empty (table_get row fan_size "") with
       | Some fan_count => (total + fan_count)%Z
       | None => total
       end)
    fan_sizes 0%Z.

(** [height and height == 0] *)
Definition altura_cero (height : option Q) : bool :=
  match height with
  | Some h => negb (Qeq_bool h 0) && Qeq_bool h 0
  | None => false
  end.

Definition _determine_cooler_type (row : list (string * string)) : string :=
  let name := py_lower (table_get row "Name" "") in
  let total_fans := _calculate_total_fans row in
  let height := Dimension.value (Dimension.from_string (table_get row "Height" "")) in
  if py_contains "liquid" name || py_contains "aio" name then "liquid"
  else if altura_cero height then "liquid"
  else if Z.eqb total_fans 0 then "passive"
  else if Z.eqb total_fans 1 then "single_fan"
  else if Z.eqb total_fans 2 then "dual_fan"
  else if Z.ltb 2 total_fans then "multi_fan"
  else "air_tower".

(** The name of a cooler says it is liquid. *)
Definition nombre_liquido (row : list (string * string)) : bool :=
  py_contains "liquid" (py_lower (table_get row "Name" "")) ||
  py_contains "aio" (py_lower (table_get row "Name" "")).

Definition fila_cooler : list (string * string) :=
  [("Name", "Noctua NH-D15"); ("Height", "0 mm"); ("120mm Fans", "0");
   ("140mm Fans", "2")].

(** ** The keys each validator reads *)

Definition claves_compatibilidad : list string :=
  ["cpu"; "motherboard"; "ram"; "case"; "psu"; "gpu"].

Definition claves_dimensiones : list string := ["case"; "gpu"; "cpu_cooler"].

Definition claves_conectividad : list string :=
  ["motherboard"; "ram_modules"; "storage_devices"].

Definition claves_refrigeracion : list string := ["cpu"; "cpu_cooler"; "case"].

(** * Theorems *)

(** ** The form-factor predicate *)

Lemma table_get_assoc {V : Type} (t : list (string * V)) (k : string) (d : V) :
  table_get t k d = match assoc t k with Some v => v | None => d end.
Proof.
  induction t as [|[k' v] t IH]; simpl; [reflexivity|].
  destruct (String.eqb k k'); [reflexivity | exact IH].
Qed.

Lemma name_variations_alias (s : string) :
  table_get name_variations s s = alias_spec s.
Proof.
  unfold name_variations, alias_spec; simpl.
  repeat (destruct (String.eqb s _); simpl; try reflexivity).
Qed.

Lemma ordinal_spec_nonneg (s : string) (z : Z) :
  ordinal_spec s = Some z -> (0 <= z)%Z.
Proof.
  unfold ordinal_spec; simpl.
  repeat (destruct (String.eqb s _); [intros [= <-]; lia|]).
  discriminate.
Qed.

Lemma form_factor_sizes_ordinal (s : string) :
  table_get form_factor_sizes s (-1)%Z =
  match ordinal_spec s with Some z => z | None => (-1)%Z end.
Proof. apply table_get_assoc. Qed.

Lemma truthy_str (s : string) : s <> "" -> truthy (VStr s) = true.
Proof.
  intros H; simpl. destruct (String.eqb_spec s ""); [contradiction | reflexivity].
Qed.

(** The predicate over any trimming and lower-casing answers as the
    specification over the same two functions says. *)
Lemma es_case_compatible_con_correcta (strip lower : string -> string) (c m : string) :
  c <> "" -> m <> "" ->
  exists b : bool,
    es_case_compatible_con strip lower (VStr c) (VStr m) = Ok b /\
    (b = true <-> form_factor_compatible_spec_con strip lower c m) /\
    (ordinal_spec (normalize_spec_con strip lower c) = None \/
     ordinal_spec (normalize_spec_con strip lower m) = None ->
     (b = true <-> normalize_spec_con strip lower c = normalize_spec_con strip lower m)).
Proof.
  intros Hc Hm.
  unfold es_case_compatible_con.
  rewrite (truthy_str c Hc), (truthy_str m Hm); cbn [negb orb].
  unfold form_factor_compatible_spec_con, clean_con.
  rewrite !name_variations_alias, !form_factor_sizes_ordinal.
  fold (normalize_spec_con strip lower c) (normalize_spec_con strip lower m).
  set (nc := normalize_spec_con strip lower c).
  set (nm := normalize_spec_con strip lower m).
  destruct (String.eqb_spec nc nm) as [E|NE].
  - exists true. split; [reflexivity|]. split; [tauto|]. tauto.
  - destruct (ordinal_spec nc) as [oc|] eqn:Eoc.
    + destruct (ordinal_spec nm) as [om|] eqn:Eom.
      * pose proof (ordinal_spec_nonneg _ _ Eoc).
        pose proof (ordinal_spec_nonneg _ _ Eom).
        destruct (Z.eqb_spec oc (-1)); [lia|].
        destruct (Z.eqb_spec om (-1)); [lia|].
        cbn [orb]. exists (Z.geb oc om).
        split; [reflexivity|]. split.
        -- rewrite Z.geb_le. split.
           ++ intros L. right. exists oc, om. repeat split; lia.
           ++ intros [E|(oc' & om' & [= <-] & [= <-] & L)]; [contradiction | lia].
        -- intros [D|D]; discriminate.
      * rewrite Z.eqb_refl, orb_true_r. exists false.
        split; [reflexivity|]. split.
        -- split; [discriminate|].
           intros [E|(oc' & om' & _ & D & _)]; [contradiction | discriminate].
        -- intros _. split; [discriminate | contradiction].
    + rewrite Z.eqb_refl; cbn [orb]. exists false.
      split; [reflexivity|]. split.
      * split; [discriminate|].
        intros [E|(oc' & om' & D & _)]; [contradiction | discriminate].
      * intros _. split; [discriminate | contradiction].
Qed.

(** C1: on two non-empty strings the form-factor predicate returns, and
    its answer is true exactly when the normalised names are equal or both
    have an ordinal and the case's is at least the motherboard's; when a
    name has no ordinal only equality of the normalised names counts.
    This holds of the predicate whatever [str.strip] and [str.lower] do to
    a text, hence on every text; and it holds of
    [_es_case_compatible_con_motherboard], which is that predicate with
    the trimming and lower-casing of ASCII, on the strings of ASCII
    characters and micro signs, where these are Python's.  A case for
    'ATX' takes a 'Micro-ATX' board, a case for 'Micro-ATX' does not take
    an 'ATX' board. *)
Theorem es_case_compatible_spec :
  (forall (strip lower : string -> string) (c m : string),
     c <> "" -> m <> "" ->
     exists b : bool,
       es_case_compatible_con strip lower (VStr c) (VStr m) = Ok b /\
       (b = true <-> form_factor_compatible_spec_con strip lower c m) /\
       (ordinal_spec (normalize_spec_con strip lower c) = None \/
        ordinal_spec (normalize_spec_con strip lower m) = None ->
        (b = true <->
         normalize_spec_con strip lower c = normalize_spec_con strip lower m))) /\
  (forall case_support mb_form_factor : pyval,
     _es_case_compatible_con_motherboard case_support mb_form_factor =
     es_case_compatible_con py_strip py_lower case_support mb_form_factor) /\
  (forall c m : string,
     ascii_o_micro c = true -> ascii_o_micro m = true ->
     c <> "" -> m <> "" ->
     exists b : bool,
       _es_case_compatible_con_motherboard (VStr c) (VStr m) = Ok b /\
       (b = true <-> form_factor_compatible_spec c m) /\
       (ordinal_spec (normalize_spec c) = None \/
        ordinal_spec (normalize_spec m) = None ->
        (b = true <-> normalize_spec c = normalize_spec m))) /\
  _es_case_compatible_con_motherboard (VStr "ATX") (VStr "Micro-ATX") = Ok true /\
  _es_case_compatible_con_motherboard (VStr "Micro-ATX") (VStr "ATX") = Ok false.
Proof.
  split; [exact es_case_compatible_con_correcta|].
  split; [intros cs mf; reflexivity|].
  split; [|split; reflexivity].
  intros c m _ _ Hc Hm.
  exact (es_case_compatible_con_correcta py_strip py_lower c m Hc Hm).
Qed.

Lemma es_case_compatible_spec_witness :
  exists b : bool,
    _es_case_compatible_con_motherboard (VStr "E-ATX") (VStr " µATX") = Ok b /\
    (b = true <-> form_factor_compatible_spec "E-ATX" " µATX") /\
    (ordinal_spec (normalize_spec "E-ATX") = None \/
     ordinal_spec (normalize_spec " µATX") = None ->
     (b = true <-> normalize_spec "E-ATX" = normalize_spec " µATX")).
Proof.
  apply (proj1 (proj2 (proj2 es_case_compatible_spec)) "E-ATX" " µATX");
    first [reflexivity | discriminate].
Defined.

(** ** Running a computation backwards *)

Lemma bind_ok {A B : Type} (c : result A) (k : A -> result B) (b : B) :
  bind c k = Ok b -> exists a, c = Ok a /\ k a = Ok b.
Proof.
  destruct c as [a|e]; simpl; [|discriminate].
  intros H; exists a; split; [reflexivity | exact H].
Qed.

(** Takes a hypothesis [c = Ok r] apart along the binds and tests of [c]. *)
Ltac run_ok H :=
  match type of H with
  | bind _ _ = Ok _ =>
      let a := fresh "v" in
      let Ha := fresh "E" in
      apply bind_ok in H; destruct H as (a & Ha & H); run_ok H
  | (if ?b then _ else _) = Ok _ =>
      let Hb := fresh "T" in
      destruct b eqn:Hb; run_ok H
  | Ok _ = Ok _ => injection H as H; try subst
  | Raise _ = Ok _ => discriminate H
  | _ => idtac
  end.

(** ** The report invariant *)

Lemma coherente_inicial : coherente reporte_inicial.
Proof. unfold coherente; simpl. split; [discriminate | intros H; contradiction H; reflexivity]. Qed.

Lemma coherente_error (m : mensaje) (r : reporte) :
  coherente (set_incompatible (append_error m r)).
Proof.
  unfold coherente; simpl. split; [|reflexivity].
  intros _ H. apply app_eq_nil in H. destruct H as [_ H]. discriminate.
Qed.

Lemma coherente_advertencia (m : mensaje) (r : reporte) :
  coherente r -> coherente (append_advertencia m r).
Proof. unfold coherente; simpl. tauto. Qed.

Create HintDb reporte.
#[local] Hint Resolve coherente_inicial coherente_error coherente_advertencia : reporte.

Ltac paso H := run_ok H; subst; auto with reporte.

Lemma verificar_cpu_motherboard_coherente cfg r r' :
  coherente r -> verificar_cpu_motherboard cfg r = Ok r' -> coherente r'.
Proof. intros I H. unfold verificar_cpu_motherboard in H. paso H. Qed.

Lemma verificar_ram_motherboard_coherente cfg r r' :
  coherente r -> verificar_ram_motherboard cfg r = Ok r' -> coherente r'.
Proof. intros I H. unfold verificar_ram_motherboard in H. paso H. Qed.

Lemma verificar_case_motherboard_coherente cfg r r' :
  coherente r -> verificar_case_motherboard cfg r = Ok r' -> coherente r'.
Proof. intros I H. unfold verificar_case_motherboard in H. paso H. Qed.

Lemma verificar_potencia_psu_coherente cfg r r' :
  coherente r -> verificar_potencia_psu cfg r = Ok r' -> coherente r'.
Proof.
  intros I H. unfold verificar_potencia_psu in H.
  destruct (has_key "psu" cfg); [|paso H].
  apply bind_ok in H; destruct H as (pot & _ & H).
  apply bind_ok in H; destruct H as (psu & _ & H).
  apply bind_ok in H; destruct H as (hp & _ & H).
  apply bind_ok in H; destruct H as (w0 & _ & H).
  apply bind_ok in H; destruct H as (w & _ & H).
  paso H.
Qed.

Lemma validar_gpu_case_coherente case gpu r r' :
  coherente r -> validar_gpu_case case gpu r = Ok r' -> coherente r'.
Proof. intros I H. unfold validar_gpu_case in H. paso H. Qed.

Lemma validar_cooler_case_coherente case cooler r r' :
  coherente r -> validar_cooler_case case cooler r = Ok r' -> coherente r'.
Proof. intros I H. unfold validar_cooler_case in H. paso H. Qed.

Lemma validar_slots_ram_coherente mb ram r r' :
  coherente r -> validar_slots_ram mb ram r = Ok r' -> coherente r'.
Proof.
  intros I H. unfold validar_slots_ram in H.
  destruct (truthy mb && truthy ram); [|paso H].
  apply bind_ok in H; destruct H as (mem & _ & H).
  apply bind_ok in H; destruct H as (slots & _ & H).
  apply bind_ok in H; destruct H as (mods & _ & H).
  apply bind_ok in H; destruct H as (n & _ & H).
  paso H.
Qed.

Lemma validar_puertos_sata_coherente mb st r r' :
  coherente r -> validar_puertos_sata mb st r = Ok r' -> coherente r'.
Proof.
  intros I H. unfold validar_puertos_sata in H.
  destruct (truthy mb && truthy st); [|paso H].
  apply bind_ok in H; destruct H as (con & _ & H).
  apply bind_ok in H; destruct H as (ports & _ & H).
  apply bind_ok in H; destruct H as (devs & _ & H).
  apply bind_ok in H; destruct H as (sata & _ & H).
  paso H.
Qed.

(** C3: whatever report the full-build validator, the dimension validator
    or the connectivity validator returns, its [compatible] flag is false
    exactly when its error list is not empty; appending a warning leaves the
    flag and the errors as they were. *)
Theorem reportes_coherentes :
  (forall (configuracion : pydict) (r : reporte),
     verificar_compatibilidad_completa configuracion = Ok r \/
     validar_dimensiones_fisicas configuracion = Ok r \/
     validar_conectividad configuracion = Ok r ->
     (compatible r = false <-> errores r <> [])) /\
  (forall (m : mensaje) (r : reporte),
     compatible (append_advertencia m r) = compatible r /\
     errores (append_advertencia m r) = errores r).
Proof.
  split; [|intros m r; split; reflexivity].
  intros cfg r [H|[H|H]].
  - unfold verificar_compatibilidad_completa in H.
    apply bind_ok in H; destruct H as (r1 & H1 & H).
    apply bind_ok in H; destruct H as (r2 & H2 & H).
    apply bind_ok in H; destruct H as (r3 & H3 & H).
    apply bind_ok in H; destruct H as (r4 & H4 & H).
    injection H as <-.
    eapply verificar_potencia_psu_coherente; [|exact H4].
    eapply verificar_case_motherboard_coherente; [|exact H3].
    eapply verificar_ram_motherboard_coherente; [|exact H2].
    eapply verificar_cpu_motherboard_coherente; [|exact H1].
    exact coherente_inicial.
  - unfold validar_dimensiones_fisicas in H.
    apply bind_ok in H; destruct H as (r1 & H1 & H).
    apply bind_ok in H; destruct H as (r2 & H2 & H).
    injection H as <-.
    eapply validar_cooler_case_coherente; [|exact H2].
    eapply validar_gpu_case_coherente; [|exact H1].
    exact coherente_inicial.
  - unfold validar_conectividad in H.
    apply bind_ok in H; destruct H as (r1 & H1 & H).
    apply bind_ok in H; destruct H as (r2 & H2 & H).
    injection H as <-.
    eapply validar_puertos_sata_coherente; [|exact H2].
    eapply validar_slots_ram_coherente; [|exact H1].
    exact coherente_inicial.
Qed.

Lemma reportes_coherentes_witness :
  compatible
    {| compatible := false; advertencias := [];
       errores := [IncompatibilidadSocket (VStr "AM4") (VStr "LGA1700")];
       recomendaciones := [] |} = false <->
  errores
    {| compatible := false; advertencias := [];
       errores := [IncompatibilidadSocket (VStr "AM4") (VStr "LGA1700")];
       recomendaciones := [] |} <> [].
Proof.
  apply (proj1 reportes_coherentes
           [("cpu", VDict [("architecture", VDict [("socket", VStr "AM4")])]);
            ("motherboard", VDict [("platform", VDict [("socket", VStr "LGA1700")])])]).
  left. reflexivity.
Defined.

(** ** Selections *)

Section Seleccion.

Variable cond : pyval -> result bool.

Lemma seleccionar_acc (xs acc : list pyval) :
  for_each xs (fun x acc => b <- cond x ;; Ok (if b then acc ++ [x] else acc)) acc =
  (l <- seleccionar cond xs ;; Ok (acc ++ l)).
Proof.
  unfold seleccionar. revert acc.
  induction xs as [|x xs IH]; intros acc; simpl.
  - rewrite app_nil_r. reflexivity.
  - destruct (cond x) as [b|e]; simpl; [|reflexivity].
    rewrite IH, (IH (if b then [x] else [])).
    destruct (for_each xs _ []) as [l|e]; simpl; [|reflexivity].
    destruct b; simpl; [rewrite <- app_assoc|]; reflexivity.
Qed.

Lemma seleccionar_cons (x : pyval) (xs : list pyval) :
  seleccionar cond (x :: xs) =
  (b <- cond x ;; l <- seleccionar cond xs ;; Ok (if b then x :: l else l)).
Proof.
  unfold seleccionar at 1. simpl.
  destruct (cond x) as [b|e]; simpl; [|reflexivity].
  rewrite seleccionar_acc.
  destruct (seleccionar cond xs) as [l|e]; simpl; [|reflexivity].
  destruct b; reflexivity.
Qed.

(** A selection whose test never raises is a [filter]. *)
Lemma seleccionar_filter (p : pyval -> bool) (xs : list pyval) :
  Forall (fun x => cond x = Ok (p x)) xs ->
  seleccionar cond xs = Ok (filter p xs).
Proof.
  induction 1 as [|x xs Hx _ IH]; [reflexivity|].
  rewrite seleccionar_cons, Hx, IH; simpl.
  destruct (p x); reflexivity.
Qed.

(** A selection that returns is the [filter] by what its test answers. *)
Lemma seleccionar_ok_filter (p : pyval -> bool) (xs l : list pyval) :
  (forall x b, cond x = Ok b -> b = p x) ->
  seleccionar cond xs = Ok l -> l = filter p xs.
Proof.
  intros Hp. revert l. induction xs as [|x xs IH]; intros l H.
  - injection H as <-. reflexivity.
  - rewrite seleccionar_cons in H.
    apply bind_ok in H; destruct H as (b & Hb & H).
    apply bind_ok in H; destruct H as (l' & Hl' & H).
    injection H as <-. simpl.
    rewrite <- (Hp x b Hb), <- (IH l' Hl'). reflexivity.
Qed.

(** What a selection returns comes from the list and passes the test. *)
Lemma seleccionar_In (xs l : list pyval) :
  seleccionar cond xs = Ok l ->
  forall x, In x l -> In x xs /\ cond x = Ok true.
Proof.
  revert l. induction xs as [|x xs IH]; intros l H y Hin.
  - injection H as <-. contradiction.
  - rewrite seleccionar_cons in H.
    apply bind_ok in H; destruct H as (b & Hb & H).
    apply bind_ok in H; destruct H as (l' & Hl' & H).
    injection H as <-.
    destruct b.
    + destruct Hin as [<-|Hin]; [split; [left; reflexivity | exact Hb]|].
      destruct (IH l' Hl' y Hin) as [H1 H2]. split; [right; exact H1 | exact H2].
    + destruct (IH l' Hl' y Hin) as [H1 H2]. split; [right; exact H1 | exact H2].
Qed.

(** Selecting again from what a selection returned changes nothing. *)
Lemma seleccionar_idempotente (xs l : list pyval) :
  seleccionar cond xs = Ok l -> seleccionar cond l = Ok l.
Proof.
  intros H. pose proof (seleccionar_In xs l H) as HIn. clear H.
  induction l as [|x l IH]; [reflexivity|].
  rewrite seleccionar_cons.
  rewrite (proj2 (HIn x (or_introl eq_refl))). cbn [bind].
  rewrite IH; [reflexivity|].
  intros y Hy. apply HIn. right. exact Hy.
Qed.

End Seleccion.

Lemma seleccionar_si_In (arg : option string) (cond : string -> pyval -> result bool)
  (xs l : list pyval) :
  seleccionar_si arg cond xs = Ok l ->
  forall x, In x l ->
    In x xs /\ (forall s : string, arg = Some s -> s <> "" -> cond s x = Ok true).
Proof.
  unfold seleccionar_si. intros H x Hin.
  destruct arg as [s|].
  - destruct (String.eqb_spec s "") as [E|NE].
    + injection H as <-. split; [exact Hin|]. intros s' [= <-] Hne. contradiction.
    + destruct (seleccionar_In _ _ _ H x Hin) as [H1 H2].
      split; [exact H1|]. intros s' [= <-] _. exact H2.
  - injection H as <-. split; [exact Hin|]. discriminate.
Qed.

Lemma socket_es_tiene_socket (s : string) (mb : pyval) :
  registro_motherboard mb -> socket_es s mb = Ok (tiene_socket s mb).
Proof.
  intros (d & -> & [Hp|(p & Hp)]); unfold socket_es, tiene_socket; simpl;
    unfold dict_get; rewrite Hp; simpl; [reflexivity|].
  unfold dict_get. destruct (lookup "socket" p) as [[| | |s'| |]|]; reflexivity.
Qed.

Lemma socket_es_ok (s : string) (mb : pyval) (b : bool) :
  socket_es s mb = Ok b -> b = tiene_socket s mb.
Proof.
  unfold socket_es, tiene_socket. intros H.
  apply bind_ok in H; destruct H as (platform & Hp & H).
  apply bind_ok in H; destruct H as (mb_socket & Hs & H).
  injection H as <-.
  destruct mb as [| | | | |d]; try discriminate.
  injection Hp as <-. unfold dict_get in Hs.
  destruct (lookup "platform" d) as [[| | | | |p]|]; try discriminate.
  - injection Hs as <-. unfold dict_get.
    destruct (lookup "socket" p) as [[| | |s'| |]|]; reflexivity.
  - injection Hs as <-. reflexivity.
Qed.

(** C8: whenever the filter by socket returns, it returns exactly the
    catalog's motherboards whose socket field is the string asked for, in
    the catalog's order, and on a catalog of motherboard records it does
    return; the comparison is case-sensitive, so 'am4' finds no 'AM4'
    board. *)
Theorem filtrar_motherboards_por_socket_exacto :
  (forall (datos : catalogo) (s : string) (l : list pyval),
     filtrar_motherboards_por_socket datos s = Ok l ->
     l = filter (tiene_socket s) (datos_get datos "motherboard")) /\
  (forall (datos : catalogo) (s : string),
     Forall registro_motherboard (datos_get datos "motherboard") ->
     filtrar_motherboards_por_socket datos s =
     Ok (filter (tiene_socket s) (datos_get datos "motherboard"))) /\
  (forall mb : pyval,
     tiene_socket "AM4" mb = true ->
     tiene_socket "am4" mb = false /\
     filtrar_motherboards_por_socket [("motherboard", [mb])] "am4" = Ok []).
Proof.
  split; [|split].
  - intros datos s l H. unfold filtrar_motherboards_por_socket in H.
    apply seleccionar_ok_filter with (cond := socket_es s); [|exact H].
    intros x b. apply socket_es_ok.
  - intros datos s H. unfold filtrar_motherboards_por_socket.
    apply seleccionar_filter.
    apply Forall_impl with (2 := H). intros mb. apply socket_es_tiene_socket.
  - intros mb H.
    destruct mb as [| | | | |d]; try discriminate.
    simpl in H.
    destruct (lookup "platform" d) as [[| | | | |p]|] eqn:Hp; try discriminate.
    destruct (lookup "socket" p) as [[| | |s'| |]|] eqn:Hs; try discriminate.
    apply String.eqb_eq in H; subst s'.
    split.
    + simpl. rewrite Hp, Hs. reflexivity.
    + unfold filtrar_motherboards_por_socket, seleccionar, socket_es; simpl.
      unfold dict_get. rewrite Hp; simpl. unfold dict_get. rewrite Hs. reflexivity.
Qed.

Lemma filtrar_motherboards_por_socket_exacto_witness :
  filtrar_motherboards_por_socket catalogo_ejemplo "AM4" =
  Ok (filter (tiene_socket "AM4") (datos_get catalogo_ejemplo "motherboard")).
Proof.
  apply (proj1 (proj2 filtrar_motherboards_por_socket_exacto) catalogo_ejemplo "AM4").
  repeat constructor; eexists; (split; [reflexivity|]); simpl;
    solve [left; reflexivity | right; eexists; reflexivity].
Defined.

(** ** RAM narrowing *)

Lemma tipos_ram_soportados_motherboards (datos datos' : catalogo)
  (socket form_factor : option string) :
  datos_get datos' "motherboard" = datos_get datos "motherboard" ->
  tipos_ram_soportados datos' socket form_factor =
  tipos_ram_soportados datos socket form_factor.
Proof. intros H. unfold tipos_ram_soportados. rewrite H. reflexivity. Qed.

(** Every member of the set built by the loop was there before or is the
    memory type of a motherboard the loop went through. *)
Lemma tipos_acc (mbs acc tipos : list pyval) :
  for_each mbs
    (fun mb tipos =>
       tipo <- memory_type mb ;;
       if truthy tipo then set_add tipo tipos else Ok tipos)
    acc = Ok tipos ->
  forall t, In t tipos ->
    In t acc \/ exists mb, In mb mbs /\ memory_type mb = Ok t.
Proof.
  revert acc. induction mbs as [|mb mbs IH]; intros acc H t Hin.
  - injection H as <-. left. exact Hin.
  - cbn [for_each] in H.
    apply bind_ok in H; destruct H as (acc' & Hstep & H).
    apply bind_ok in Hstep; destruct Hstep as (tipo & Htipo & Hstep).
    destruct (IH acc' H t Hin) as [Hacc|(mb' & Hmb' & Ht)].
    + destruct (truthy tipo).
      * unfold set_add in Hstep. destruct (hashable tipo); [|discriminate].
        injection Hstep as <-.
        destruct (set_mem tipo acc); [left; exact Hacc|].
        apply in_app_or in Hacc. destruct Hacc as [Hacc|[<-|[]]].
        -- left. exact Hacc.
        -- right. exists mb. split; [left; reflexivity | exact Htipo].
      * injection Hstep as <-. left. exact Hacc.
    + right. exists mb'. split; [right; exact Hmb' | exact Ht].
Qed.

(** C9: when the RAM filter returns, every member of its set of supported
    types is the memory type of a catalog motherboard matching the socket
    and form factor asked for, every RAM entry returned has a generation in
    that set, and running the filter again with the same socket and form
    factor over a catalog that holds the returned RAM list and the same
    motherboards returns the same list and the same set. *)
Theorem filtrar_ram_por_motherboard_idempotente :
  forall (datos datos' : catalogo) (socket form_factor : option string)
         (rams tipos : list pyval),
    filtrar_ram_por_motherboard datos socket form_factor = Ok (rams, tipos) ->
    datos_get datos' "motherboard" = datos_get datos "motherboard" ->
    datos_get datos' "ram" = rams ->
    (forall t : pyval, In t tipos ->
       exists mb : pyval,
         In mb (datos_get datos "motherboard") /\
         coincide socket form_factor mb /\ memory_type mb = Ok t) /\
    (forall ram : pyval, In ram rams ->
       In ram (datos_get datos "ram") /\
       exists g : pyval, ram_generation ram = Ok g /\ set_mem g tipos = true) /\
    filtrar_ram_por_motherboard datos' socket form_factor = Ok (rams, tipos).
Proof.
  intros datos datos' socket form_factor rams tipos H Hmb Hram.
  unfold filtrar_ram_por_motherboard in H.
  apply bind_ok in H; destruct H as (tipos0 & Ht & H).
  apply bind_ok in H; destruct H as (rams0 & Hr & H).
  injection H as <- <-.
  split; [|split].
  - intros t Hin. unfold tipos_ram_soportados in Ht.
    apply bind_ok in Ht; destruct Ht as (mbs1 & H1 & Ht).
    apply bind_ok in Ht; destruct Ht as (mbs2 & H2 & Ht).
    destruct (tipos_acc _ _ _ Ht t Hin) as [[]|(mb & Hmb2 & Hty)].
    destruct (seleccionar_si_In _ _ _ _ H2 mb Hmb2) as [Hmb1 Hff].
    destruct (seleccionar_si_In _ _ _ _ H1 mb Hmb1) as [Hmb0 Hso].
    exists mb. split; [exact Hmb0|]. split; [split; assumption | exact Hty].
  - intros ram Hin.
    destruct (seleccionar_In _ _ _ Hr ram Hin) as [Hcat HF].
    split; [exact Hcat|].
    apply bind_ok in HF; destruct HF as (g & Hg & HF).
    exists g. split; [exact Hg|].
    unfold set_in in HF. destruct (hashable g); [|discriminate].
    injection HF as HF. exact HF.
  - unfold filtrar_ram_por_motherboard.
    rewrite (tipos_ram_soportados_motherboards datos datos' _ _ Hmb), Ht; simpl.
    rewrite Hram, (seleccionar_idempotente _ _ _ Hr). reflexivity.
Qed.

Lemma filtrar_ram_por_motherboard_idempotente_witness :
  let rams :=
    [VDict [("name", VStr "Vengeance");
            ("memory_specs", VDict [("ram_type", VDict [("generation", VStr "DDR4")])])]] in
  let tipos := [VStr "DDR4"] in
  (forall t : pyval, In t tipos ->
     exists mb : pyval,
       In mb (datos_get catalogo_ejemplo "motherboard") /\
       coincide (Some "AM4") (Some "ATX") mb /\ memory_type mb = Ok t) /\
  (forall ram : pyval, In ram rams ->
     In ram (datos_get catalogo_ejemplo "ram") /\
     exists g : pyval, ram_generation ram = Ok g /\ set_mem g tipos = true) /\
  filtrar_ram_por_motherboard (("ram", rams) :: catalogo_ejemplo)
    (Some "AM4") (Some "ATX") = Ok (rams, tipos).
Proof.
  intros rams tipos.
  apply (filtrar_ram_por_motherboard_idempotente catalogo_ejemplo
           (("ram", rams) :: catalogo_ejemplo) (Some "AM4") (Some "ATX") rams tipos);
    reflexivity.
Defined.

(** ** Power budget *)

Lemma py_max_ge_r (a b : Q) : (b <= py_max a b)%Q.
Proof.
  unfold py_max. destruct (Qle_bool b a) eqn:E.
  - apply Qle_bool_iff. exact E.
  - apply Qle_refl.
Qed.

Lemma potencia_minima (componentes : option pydict) (potencia : Q) :
  _calcular_potencia_requerida componentes = Ok potencia -> (300 <= potencia)%Q.
Proof.
  unfold _calcular_potencia_requerida.
  destruct componentes as [c|]; [|intros [= <-]; apply Qle_refl].
  destruct (falsy_dict (Some c)); [intros [= <-]; apply Qle_refl|].
  intros H.
  apply bind_ok in H; destruct H as (p1 & _ & H).
  apply bind_ok in H; destruct H as (p2 & _ & H).
  injection H as <-. apply py_max_ge_r.
Qed.

Lemma potencia_cpu_contribucion (build : pydict) (t : Q) :
  (forall v : pyval, lookup "cpu" build = Some v -> is_dict v = true) ->
  exists p : Q, potencia_cpu build t = Ok p /\ (p == t + contribucion_cpu build)%Q.
Proof.
  intros Hv. unfold potencia_cpu, contribucion_cpu, has_key, item, py_item.
  destruct (lookup "cpu" build) as [v|] eqn:Hl.
  - specialize (Hv v eq_refl). destruct v as [| | | | |cpu]; try discriminate.
    eexists. split; [|reflexivity].
    unfold tdp_directo. simpl. unfold dict_get.
    destruct (lookup "architecture" cpu) as [[| | | | |a]|]; simpl; try reflexivity.
    unfold dict_get.
    destruct (lookup "tdp" a) as [[| | | | |tdp]|]; simpl; try reflexivity.
    unfold dict_get.
    destruct (lookup "value" tdp) as [[| | | | |]|]; reflexivity.
  - exists t. split; [reflexivity | ring].
Qed.

Lemma gpu_power_map_get_categoria (c : pyval) :
  hashable c = true -> gpu_power_map_get c 180 = Ok (potencia_por_categoria c).
Proof.
  destruct c as [| | |s| |];
    cbn [hashable gpu_power_map_get potencia_por_categoria];
    try reflexivity; try discriminate.
  intros _. rewrite table_get_assoc. reflexivity.
Qed.

Lemma potencia_gpu_contribucion (build : pydict) (t : Q) :
  (forall v : pyval, lookup "gpu" build = Some v ->
     exists gpu : pydict, v = VDict gpu /\ hashable (categoria_gpu gpu) = true) ->
  exists p : Q,
    potencia_gpu build t = Ok p /\ (p == t + contribucion_gpu_categoria build)%Q.
Proof.
  intros Hv. unfold potencia_gpu, contribucion_gpu_categoria, has_key, item, py_item.
  destruct (lookup "gpu" build) as [v|] eqn:Hl.
  - destruct (Hv v eq_refl) as (gpu & -> & Hh).
    exists (t + potencia_por_categoria (categoria_gpu gpu))%Q.
    split; [|reflexivity].
    apply gpu_power_map_get_categoria in Hh. revert Hh.
    unfold categoria_gpu. cbn [bind py_get]. unfold dict_get.
    destruct (lookup "calculated_metrics" gpu) as [[| | | | |m]|];
      cbn [bind py_get is_dict]; unfold dict_get; intros ->; reflexivity.
  - exists t. split; [reflexivity | ring].
Qed.

Lemma py_max_300 (x y : Q) :
  (x == y)%Q -> (py_max x 300 == Qmax 300 y)%Q /\ (300 <= py_max x 300)%Q.
Proof.
  intros E. split; [|apply py_max_ge_r].
  unfold py_max. destruct (Qle_bool 300 x) eqn:L.
  - apply Qle_bool_iff in L.
    destruct (Q.max_spec 300 y) as [[H1 H2]|[H1 H2]]; rewrite H2; lra.
  - assert (x < 300)%Q.
    { destruct (Qlt_le_dec x 300) as [H|H]; [exact H|].
      apply Qle_bool_iff in H. congruence. }
    destruct (Q.max_spec 300 y) as [[H1 H2]|[H1 H2]]; rewrite H2; lra.
Qed.

(** C2, as the code has it: for a build whose selected CPU and GPU are
    records, the budget is max(300, cpu + gpu + 50 + 30), where cpu is the
    CPU's direct TDP when numeric and 65 otherwise (0 without a CPU) and
    gpu is the wattage of the GPU's category, 180 for an unknown or missing
    category (0 without a GPU); the GPU's own TDP is not read.  The budget
    is never below 300, and the function returns on every such build, on
    the empty build and on no build at all. *)
Theorem potencia_requerida_por_categoria :
  _calcular_potencia_requerida None = Ok 300%Q /\
  _calcular_potencia_requerida (Some []) = Ok 300%Q /\
  forall build : pydict, componentes_validos build ->
    exists p : Q,
      _calcular_potencia_requerida (Some build) = Ok p /\
      (p == Qmax 300 (contribucion_cpu build + contribucion_gpu_categoria build
                      + 50 + 30))%Q /\
      (300 <= p)%Q.
Proof.
  split; [reflexivity|]. split; [reflexivity|].
  intros build [Hc Hg]. unfold _calcular_potencia_requerida.
  destruct build as [|kv build'] eqn:Hb.
  - exists 300%Q. split; [reflexivity|]. split; [|apply Qle_refl].
    vm_compute. reflexivity.
  - rewrite <- Hb in *. replace (falsy_dict (Some build)) with false by (subst; reflexivity).
    destruct (potencia_cpu_contribucion build 0 Hc) as (p1 & -> & E1).
    destruct (potencia_gpu_contribucion build p1 Hg) as (p2 & H2 & E2).
    cbn [bind]. rewrite H2. cbn [bind].
    eexists. split; [reflexivity|].
    apply py_max_300. rewrite E2, E1. ring.
Qed.

(** A CPU of 105 W and a high-end GPU: 105 + 250 + 50 + 30. *)
Lemma potencia_build_ejemplo :
  _calcular_potencia_requerida (Some build_ejemplo) = Ok 435%Q.
Proof. vm_compute. reflexivity. Qed.

Lemma potencia_requerida_por_categoria_witness :
  exists p : Q,
    _calcular_potencia_requerida (Some build_ejemplo) = Ok p /\
    (p == Qmax 300 (contribucion_cpu build_ejemplo
                    + contribucion_gpu_categoria build_ejemplo + 50 + 30))%Q /\
    (300 <= p)%Q.
Proof.
  apply (proj2 (proj2 potencia_requerida_por_categoria) build_ejemplo).
  split; intros v H; vm_compute in H; injection H as <-;
    [reflexivity | eexists; split; reflexivity].
Defined.

(** C2 as stated fails on a GPU that stores its own TDP: a flagship card of
    450 W gives a budget of 480 (400 for the category, plus 80), where the
    stated formula gives 530. *)
Lemma potencia_gpu_tdp_counterexample :
  tdp_gpu_almacenado
    [("name", VStr "RTX 4090"); ("tdp", VNum 450);
     ("performance", VDict [("tdp", VDict [("value", VNum 450); ("unit", VStr "W")])]);
     ("calculated_metrics", VDict [("gpu_category", VStr "flagship")])] = Some 450%Q /\
  _calcular_potencia_requerida (Some build_gpu_con_tdp) = Ok 480%Q /\
  (presupuesto_spec build_gpu_con_tdp == 530)%Q /\
  ~ (480 == presupuesto_spec build_gpu_con_tdp)%Q.
Proof.
  split; [reflexivity|]. split; [vm_compute; reflexivity|].
  split; [vm_compute; reflexivity|].
  intros H. vm_compute in H. discriminate H.
Qed.

(** ** The PSU filter *)

Lemma py_ge_num (v : pyval) (x : Q) :
  py_ge v (VNum x) = Ok true ->
  (exists w : Q, v = VNum w /\ (x <= w)%Q) \/
  (exists b : bool, v = VBool b /\ (x <= 1)%Q).
Proof.
  destruct v as [|b|w| | |]; simpl; try discriminate.
  - intros H. right. exists b. split; [reflexivity|].
    destruct b; injection H as H; apply Qle_bool_iff in H; [exact H|].
    apply Qle_trans with (1 := H). discriminate.
  - intros [= H]. left. exists w. split; [reflexivity|].
    apply Qle_bool_iff. exact H.
Qed.

Lemma psu_wattage_value_sin_potencia (psu : pydict) :
  sin_potencia psu -> psu_wattage_value (VDict psu) = Ok (VNum 0).
Proof.
  intros [_ [Hp|(power & Hp & [Hw|(wattage & Hw & Hv)])]];
    unfold psu_wattage_value; simpl; unfold dict_get; rewrite Hp; simpl;
    [reflexivity | |]; unfold dict_get; rewrite Hw; simpl; [reflexivity|].
  unfold dict_get; rewrite Hv. reflexivity.
Qed.

Lemma lookup_has_key (k : string) (d : pydict) (v : pyval) :
  lookup k d = Some v -> has_key k d = true /\ item d k = Ok v.
Proof.
  intros H. unfold has_key, item, py_item. rewrite H. split; reflexivity.
Qed.

Lemma sin_error_psu_otro (m : mensaje) (r : reporte) :
  (forall w p, m <> PSUInsuficiente w p) ->
  sin_error_psu r -> sin_error_psu (set_incompatible (append_error m r)).
Proof.
  intros Hm H w p Hin. simpl in Hin. apply in_app_or in Hin.
  destruct Hin as [Hin|[Hin|[]]]; [exact (H w p Hin) | exact (Hm w p Hin)].
Qed.

Lemma sin_error_psu_advertencia (m : mensaje) (r : reporte) :
  sin_error_psu r -> sin_error_psu (append_advertencia m r).
Proof. intros H w p. exact (H w p). Qed.

Ltac paso_psu H :=
  run_ok H; subst;
  try assumption;
  try (apply sin_error_psu_otro; [discriminate | assumption]);
  try (apply sin_error_psu_advertencia; assumption).

Lemma verificar_cpu_motherboard_sin_error_psu cfg r r' :
  sin_error_psu r -> verificar_cpu_motherboard cfg r = Ok r' -> sin_error_psu r'.
Proof. intros I H. unfold verificar_cpu_motherboard in H. paso_psu H. Qed.

Lemma verificar_ram_motherboard_sin_error_psu cfg r r' :
  sin_error_psu r -> verificar_ram_motherboard cfg r = Ok r' -> sin_error_psu r'.
Proof. intros I H. unfold verificar_ram_motherboard in H. paso_psu H. Qed.

Lemma verificar_case_motherboard_sin_error_psu cfg r r' :
  sin_error_psu r -> verificar_case_motherboard cfg r = Ok r' -> sin_error_psu r'.
Proof. intros I H. unfold verificar_case_motherboard in H. paso_psu H. Qed.

(** On a PSU without a stored wattage the PSU step only warns. *)
Lemma verificar_potencia_psu_sin_potencia cfg psu r r' :
  lookup "psu" cfg = Some (VDict psu) -> sin_potencia psu ->
  verificar_potencia_psu cfg r = Ok r' ->
  r' = append_advertencia PSUSinPotencia r.
Proof.
  intros Hl [Hw Hp] H. unfold verificar_potencia_psu in H.
  destruct (lookup_has_key _ _ _ Hl) as [Hk Hi]. rewrite Hk, Hi in H.
  apply bind_ok in H; destruct H as (pot & _ & H).
  cbn [bind py_in py_item] in H. unfold has_key in H.
  destruct Hp as [Hp|(power & Hp & [Hpw|(wattage & Hpw & Hv)])];
    rewrite Hp in H; cbn [bind is_dict py_in py_item] in H.
  - cbn [py_eq] in H. change (Qeq_bool 0 0) with true in H.
    cbn [bind py_get] in H. unfold dict_get in H. rewrite Hw in H.
    cbn in H. injection H as <-. reflexivity.
  - unfold has_key in H. rewrite Hpw in H.
    cbn [py_eq bind] in H. change (Qeq_bool 0 0) with true in H.
    cbn [bind py_get] in H. unfold dict_get in H. rewrite Hw in H.
    cbn in H. injection H as <-. reflexivity.
  - unfold has_key in H. rewrite Hpw in H.
    cbn [bind is_dict py_get] in H. unfold dict_get in H. rewrite Hv in H.
    cbn [py_eq bind] in H. change (Qeq_bool 0 0) with true in H.
    cbn [bind py_get] in H. unfold dict_get in H. rewrite Hw in H.
    cbn in H. injection H as <-. reflexivity.
Qed.

(** C10: when the PSU filter returns, the budget it computed is at least
    300 and every PSU it returns stores a numeric wattage of at least 1.2
    times that budget, hence at least 360; a PSU without a stored wattage is
    never among them, although the full-build validation of a build holding
    such a PSU, when it returns, carries the missing-wattage warning and no
    PSU error. *)
Theorem filtrar_psu_margen :
  (forall (datos : catalogo) (case_data componentes : option pydict)
          (psus : list pyval),
     filtrar_psu_por_case_y_componentes datos case_data componentes = Ok psus ->
     exists potencia : Q,
       _calcular_potencia_requerida componentes = Ok potencia /\
       (300 <= potencia)%Q /\
       (forall psu : pyval, In psu psus ->
          In psu (datos_get datos "psu") /\
          exists w : Q,
            psu_wattage_value psu = Ok (VNum w) /\
            (potencia * 1.2 <= w)%Q /\ (360 <= w)%Q) /\
       (forall psu : pydict, sin_potencia psu -> ~ In (VDict psu) psus)) /\
  (forall (configuracion psu : pydict) (r : reporte),
     lookup "psu" configuracion = Some (VDict psu) -> sin_potencia psu ->
     verificar_compatibilidad_completa configuracion = Ok r ->
     In PSUSinPotencia (advertencias r) /\
     forall (w : pyval) (p : Q), ~ In (PSUInsuficiente w p) (errores r)).
Proof.
  split.
  - intros datos case_data componentes psus H.
    unfold filtrar_psu_por_case_y_componentes in H.
    apply bind_ok in H; destruct H as (support & _ & H).
    apply bind_ok in H; destruct H as (potencia & Hpot & H).
    exists potencia. split; [exact Hpot|].
    pose proof (potencia_minima _ _ Hpot) as Hmin.
    split; [exact Hmin|].
    assert (Hall : forall psu, In psu psus ->
              In psu (datos_get datos "psu") /\
              exists w, psu_wattage_value psu = Ok (VNum w) /\
                        (potencia * 1.2 <= w)%Q /\ (360 <= w)%Q).
    { intros psu Hin.
      destruct (seleccionar_In _ _ _ H psu Hin) as [Hcat HF].
      split; [exact Hcat|].
      apply bind_ok in HF; destruct HF as (ff & _ & HF).
      apply bind_ok in HF; destruct HF as (wv & Hwv & HF).
      apply bind_ok in HF; destruct HF as (suf & Hsuf & HF).
      injection HF as HF. apply andb_prop in HF. destruct HF as [_ ->].
      apply py_ge_num in Hsuf.
      destruct Hsuf as [(w & -> & Hle)|(b & _ & Hle)]; [|exfalso; lra].
      exists w. split; [exact Hwv|]. split; [exact Hle | lra]. }
    split; [exact Hall|].
    intros psu Hs Hin.
    destruct (Hall _ Hin) as (_ & w & Hw & _ & H360).
    rewrite (psu_wattage_value_sin_potencia psu Hs) in Hw.
    injection Hw as <-. lra.
  - intros cfg psu r Hl Hs H.
    unfold verificar_compatibilidad_completa in H.
    apply bind_ok in H; destruct H as (r1 & H1 & H).
    apply bind_ok in H; destruct H as (r2 & H2 & H).
    apply bind_ok in H; destruct H as (r3 & H3 & H).
    apply bind_ok in H; destruct H as (r4 & H4 & H).
    injection H as <-.
    rewrite (verificar_potencia_psu_sin_potencia _ _ _ _ Hl Hs H4).
    split; [simpl; apply in_or_app; right; left; reflexivity|].
    apply sin_error_psu_advertencia.
    eapply verificar_case_motherboard_sin_error_psu; [|exact H3].
    eapply verificar_ram_motherboard_sin_error_psu; [|exact H2].
    eapply verificar_cpu_motherboard_sin_error_psu; [|exact H1].
    intros w p [].
Qed.

Lemma filtrar_psu_margen_witness :
  (exists potencia : Q,
     _calcular_potencia_requerida (Some build_ejemplo) = Ok potencia /\
     (300 <= potencia)%Q /\
     (forall psu : pyval,
        In psu [VDict [("name", VStr "RM750"); ("form_factor", VStr "ATX");
                       ("power", VDict [("wattage",
                          VDict [("value", VNum 750); ("unit", VStr "W")])])]] ->
        In psu (datos_get catalogo_ejemplo "psu") /\
        exists w : Q,
          psu_wattage_value psu = Ok (VNum w) /\
          (potencia * 1.2 <= w)%Q /\ (360 <= w)%Q) /\
     (forall psu : pydict, sin_potencia psu ->
        ~ In (VDict psu)
            [VDict [("name", VStr "RM750"); ("form_factor", VStr "ATX");
                    ("power", VDict [("wattage",
                       VDict [("value", VNum 750); ("unit", VStr "W")])])]])) /\
  (In PSUSinPotencia
     (advertencias
        {| compatible := true; advertencias := [PSUSinPotencia];
           errores := []; recomendaciones := [] |}) /\
   forall (w : pyval) (p : Q),
     ~ In (PSUInsuficiente w p)
         (errores
            {| compatible := true; advertencias := [PSUSinPotencia];
               errores := []; recomendaciones := [] |})).
Proof.
  split.
  - apply (proj1 filtrar_psu_margen catalogo_ejemplo
             (Some [("compatibility", VDict [("power_supply", VStr "ATX")])])
             (Some build_ejemplo)).
    vm_compute. reflexivity.
  - apply (proj2 filtrar_psu_margen
             [("psu", VDict [("name", VStr "sin potencia"); ("form_factor", VStr "ATX")])]
             [("name", VStr "sin potencia"); ("form_factor", VStr "ATX")]).
    + reflexivity.
    + split; [reflexivity | left; reflexivity].
    + reflexivity.
Defined.

(** ** Where the code leaves the specification *)

(** A string socket on the CPU against a motherboard record without one is
    reported as a socket error, whatever the rest of the build. *)
Lemma verificar_cpu_motherboard_socket_ausente
  (cfg cpu architecture motherboard platform : pydict) (s : string) (r : reporte) :
  lookup "cpu" cfg = Some (VDict cpu) ->
  lookup "architecture" cpu = Some (VDict architecture) ->
  lookup "socket" architecture = Some (VStr s) ->
  lookup "motherboard" cfg = Some (VDict motherboard) ->
  lookup "platform" motherboard = Some (VDict platform) ->
  lookup "socket" platform = None ->
  verificar_cpu_motherboard cfg r =
  Ok (set_incompatible (append_error (IncompatibilidadSocket (VStr s) VNone) r)).
Proof.
  intros Hcpu Harch Hs Hmb Hplat Hnone. unfold verificar_cpu_motherboard.
  destruct (lookup_has_key _ _ _ Hcpu) as [-> ->].
  destruct (lookup_has_key _ _ _ Hmb) as [-> ->].
  cbn [andb bind py_get]. unfold dict_get.
  rewrite Harch, Hplat. cbn [bind py_get]. unfold dict_get.
  rewrite Hs, Hnone. reflexivity.
Qed.

(** C4 (the code differs): with a CPU on socket AM4 and a motherboard whose
    record has no socket, the validator reports a socket error and marks
    the build incompatible, with no warning; a RAM kit without a generation
    on a DDR4 motherboard is reported as a RAM error in the same way. *)
Theorem campo_ausente_es_error :
  verificar_compatibilidad_completa build_motherboard_sin_socket =
  Ok {| compatible := false; advertencias := [];
        errores := [IncompatibilidadSocket (VStr "AM4") VNone];
        recomendaciones := [] |} /\
  verificar_compatibilidad_completa build_ram_sin_generacion =
  Ok {| compatible := false; advertencias := [];
        errores := [IncompatibilidadRAM VNone (VStr "DDR4")];
        recomendaciones := [] |}.
Proof. split; reflexivity. Qed.

Lemma py_gt_num_true (a b : Q) : (b < a)%Q -> py_gt (VNum a) (VNum b) = Ok true.
Proof.
  intros H. simpl. destruct (Qle_bool a b) eqn:E; [|reflexivity].
  apply Qle_bool_iff in E. lra.
Qed.

Lemma py_gt_num_false (a b : Q) : (a <= b)%Q -> py_gt (VNum a) (VNum b) = Ok false.
Proof.
  intros H. simpl. apply Qle_bool_iff in H. rewrite H. reflexivity.
Qed.

(** The PSU step on a stored positive wattage [w], against the budget:
    error below it, warning below 1.2 times it, silence from there on. *)
Lemma verificar_potencia_psu_umbrales
  (cfg psu power wattage : pydict) (w potencia : Q) (r : reporte) :
  lookup "psu" cfg = Some (VDict psu) ->
  lookup "power" psu = Some (VDict power) ->
  lookup "wattage" power = Some (VDict wattage) ->
  lookup "value" wattage = Some (VNum w) ->
  (0 < w)%Q ->
  _calcular_potencia_requerida (Some cfg) = Ok potencia ->
  ((w < potencia)%Q ->
   verificar_potencia_psu cfg r =
   Ok (set_incompatible (append_error (PSUInsuficiente (VNum w) potencia) r))) /\
  ((potencia <= w)%Q -> (w < potencia * 1.2)%Q ->
   verificar_potencia_psu cfg r =
   Ok (append_advertencia (PSUMargenAjustado (VNum w) potencia) r)) /\
  ((potencia * 1.2 <= w)%Q -> verificar_potencia_psu cfg r = Ok r).
Proof.
  intros Hpsu Hpower Hwatt Hval Hpos Hpot.
  pose proof (potencia_minima _ _ Hpot) as Hmin.
  assert (Hrun : verificar_potencia_psu cfg r =
            (insuficiente <- py_lt (VNum w) (VNum potencia) ;;
             if insuficiente then
               Ok (set_incompatible
                     (append_error (PSUInsuficiente (VNum w) potencia) r))
             else
               ajustado <- py_lt (VNum w) (VNum (potencia * 1.2)) ;;
               if ajustado then
                 Ok (append_advertencia (PSUMargenAjustado (VNum w) potencia) r)
               else Ok r)).
  { unfold verificar_potencia_psu.
    destruct (lookup_has_key _ _ _ Hpsu) as [-> ->]. rewrite Hpot.
    cbn [bind py_in py_item]. unfold has_key. rewrite Hpower.
    cbn [bind is_dict py_in py_item]. unfold has_key. rewrite Hwatt.
    cbn [bind is_dict py_get].
    replace (dict_get wattage "value" (VNum 0)) with (VNum w)
      by (unfold dict_get; rewrite Hval; reflexivity).
    cbn [py_eq]. replace (Qeq_bool w 0) with false.
    2:{ symmetry. apply not_true_is_false. intros E.
        apply Qeq_bool_iff in E. lra. }
    cbn [bind]. rewrite (py_gt_num_true w 0 Hpos). reflexivity. }
  rewrite Hrun. unfold py_lt. repeat split.
  - intros H. rewrite (py_gt_num_true _ _ H). reflexivity.
  - intros H1 H2. rewrite (py_gt_num_false _ _ H1). cbn [bind].
    rewrite (py_gt_num_true _ _ H2). reflexivity.
  - intros H. assert (potencia <= w)%Q by lra.
    rewrite (py_gt_num_false potencia w) by assumption. cbn [bind].
    rewrite (py_gt_num_false _ _ H). reflexivity.
Qed.

(** The margin example: with a budget of 450, a PSU of 400 W is an error,
    one of 500 W a warning, one of 600 W passes in silence. *)
Lemma verificar_psu_450 :
  _calcular_potencia_requerida (Some (build_450_con_psu 400)) = Ok 450%Q /\
  verificar_compatibilidad_completa (build_450_con_psu 400) =
  Ok {| compatible := false; advertencias := [];
        errores := [PSUInsuficiente (VNum 400) 450]; recomendaciones := [] |} /\
  verificar_compatibilidad_completa (build_450_con_psu 500) =
  Ok {| compatible := true; advertencias := [PSUMargenAjustado (VNum 500) 450];
        errores := []; recomendaciones := [] |} /\
  verificar_compatibilidad_completa (build_450_con_psu 600) =
  Ok {| compatible := true; advertencias := []; errores := [];
        recomendaciones := [] |}.
Proof. repeat split; vm_compute; reflexivity. Qed.

(** A PSU record without the wattage keys (not null: missing) gets the
    warning. *)
Lemma verificar_psu_sin_clave :
  verificar_compatibilidad_completa [("psu", VDict [("name", VStr "PSU")])] =
  Ok {| compatible := true; advertencias := [PSUSinPotencia]; errores := [];
        recomendaciones := [] |}.
Proof. reflexivity. Qed.

(** A null wattage value makes the PSU step raise, whatever the rest of
    the build, as soon as the budget itself is computed. *)
Lemma verificar_potencia_psu_nula
  (cfg psu power wattage : pydict) (potencia : Q) (r : reporte) :
  lookup "psu" cfg = Some (VDict psu) ->
  lookup "power" psu = Some (VDict power) ->
  lookup "wattage" power = Some (VDict wattage) ->
  lookup "value" wattage = Some VNone ->
  _calcular_potencia_requerida (Some cfg) = Ok potencia ->
  verificar_potencia_psu cfg r = Raise TypeError.
Proof.
  intros Hpsu Hpower Hwatt Hval Hpot. unfold verificar_potencia_psu.
  destruct (lookup_has_key _ _ _ Hpsu) as [-> ->]. rewrite Hpot.
  cbn [bind py_in py_item]. unfold has_key. rewrite Hpower.
  cbn [bind is_dict py_in py_item]. unfold has_key. rewrite Hwatt.
  cbn [bind is_dict py_get].
  replace (dict_get wattage "value" (VNum 0)) with VNone
    by (unfold dict_get; rewrite Hval; reflexivity).
  reflexivity.
Qed.

(** C5 (the code differs): on a PSU record whose wattage value is null, as
    the normaliser writes it for an unparsable Watt column, the validator
    raises [TypeError] at [psu_wattage > 0] and returns no report, where a
    warning is expected. *)
Theorem psu_potencia_nula_lanza :
  verificar_compatibilidad_completa [("psu", psu_potencia_nula)] = Raise TypeError /\
  verificar_potencia_psu [("psu", psu_potencia_nula)] reporte_inicial = Raise TypeError.
Proof. split; reflexivity. Qed.

(** The GPU check on two numeric lengths: error above the limit, warning
    above nine tenths of it, silence otherwise; no message when one of them
    is not positive (a missing key reads as 0). *)
Lemma validar_gpu_case_umbrales (case gpu : pyval) (L g : Q) (r : reporte) :
  truthy case = true -> truthy gpu = true ->
  max_gpu_length_de case = Ok (VNum L) ->
  gpu_length_de gpu = Ok (VNum g) ->
  ((0 < L)%Q -> (0 < g)%Q ->
   ((L < g)%Q ->
    validar_gpu_case case gpu r =
    Ok (set_incompatible (append_error (GPUMuyLarga (VNum g) (VNum L)) r))) /\
   ((g <= L)%Q -> (L * 0.9 < g)%Q ->
    validar_gpu_case case gpu r =
    Ok (append_advertencia (GPUAjustada (VNum g) (VNum L)) r)) /\
   ((g <= L * 0.9)%Q -> validar_gpu_case case gpu r = Ok r)) /\
  ((L <= 0)%Q \/ (g <= 0)%Q -> validar_gpu_case case gpu r = Ok r).
Proof.
  intros Tc Tg HL Hg. unfold validar_gpu_case.
  rewrite Tc, Tg, HL, Hg. cbn [andb bind py_mul num_value]. split.
  - intros PL Pg.
    rewrite (py_gt_num_true L 0 PL). cbn [bind].
    rewrite (py_gt_num_true g 0 Pg). cbn [bind]. repeat split.
    + intros H. rewrite (py_gt_num_true _ _ H). reflexivity.
    + intros H1 H2. rewrite (py_gt_num_false _ _ H1). cbn [bind].
      rewrite (py_gt_num_true _ _ H2). reflexivity.
    + intros H. assert (g <= L)%Q by lra.
      rewrite (py_gt_num_false g L) by assumption. cbn [bind].
      rewrite (py_gt_num_false _ _ H). reflexivity.
  - intros [H|H].
    + rewrite (py_gt_num_false L 0 H). reflexivity.
    + destruct (Qlt_le_dec 0 L) as [PL|NL].
      * rewrite (py_gt_num_true L 0 PL). cbn [bind].
        rewrite (py_gt_num_false g 0 H). reflexivity.
      * rewrite (py_gt_num_false L 0 NL). reflexivity.
Qed.

(** The fit example: with a limit of 320 mm, 330 mm is an error, 305 mm
    and 300 mm are above 288 and get the warning, 288 mm passes. *)
Lemma validar_gpu_320 :
  validar_dimensiones_fisicas [("case", case_320mm); ("gpu", gpu_de_largo 330)] =
  Ok {| compatible := false; advertencias := [];
        errores := [GPUMuyLarga (VNum 330) (VNum 320)]; recomendaciones := [] |} /\
  validar_dimensiones_fisicas [("case", case_320mm); ("gpu", gpu_de_largo 305)] =
  Ok {| compatible := true; advertencias := [GPUAjustada (VNum 305) (VNum 320)];
        errores := []; recomendaciones := [] |} /\
  validar_dimensiones_fisicas [("case", case_320mm); ("gpu", gpu_de_largo 300)] =
  Ok {| compatible := true; advertencias := [GPUAjustada (VNum 300) (VNum 320)];
        errores := []; recomendaciones := [] |} /\
  validar_dimensiones_fisicas [("case", case_320mm); ("gpu", gpu_de_largo 288)] =
  Ok {| compatible := true; advertencias := []; errores := [];
        recomendaciones := [] |}.
Proof. repeat split; vm_compute; reflexivity. Qed.

(** A null maximum length makes the GPU check raise for any selected GPU
    whose own length can be read. *)
Lemma validar_gpu_case_nulo (case gpu v : pyval) (r : reporte) :
  truthy case = true -> truthy gpu = true ->
  max_gpu_length_de case = Ok VNone ->
  gpu_length_de gpu = Ok v ->
  validar_gpu_case case gpu r = Raise TypeError.
Proof.
  intros Tc Tg HL Hg. unfold validar_gpu_case.
  rewrite Tc, Tg, HL, Hg. reflexivity.
Qed.

(** C6 (the code differs): on a case record whose maximum GPU length is
    null, as the normaliser writes it for an empty column, the dimension
    validator raises [TypeError] at [max_gpu_length > 0] as soon as a GPU is
    selected, where no message is expected. *)
Theorem largo_gpu_nulo_lanza :
  max_gpu_length_de case_sin_largo_gpu = Ok VNone /\
  validar_dimensiones_fisicas [("case", case_sin_largo_gpu); ("gpu", gpu_300mm)] =
  Raise TypeError /\
  (forall g : Q,
     validar_dimensiones_fisicas
       [("case", case_sin_largo_gpu); ("gpu", gpu_de_largo g)] = Raise TypeError) /\
  validar_dimensiones_fisicas
    [("case", case_sin_largo_gpu); ("gpu", VDict [("name", VStr "RTX 3070")])] =
  Raise TypeError.
Proof.
  split; [reflexivity|]. split; [reflexivity|].
  split; [intros g|]; reflexivity.
Qed.

Lemma upper_char_no_es_s (c : ascii) : upper_char c <> "s"%char.
Proof.
  destruct c as [b0 b1 b2 b3 b4 b5 b6 b7].
  destruct b0, b1, b2, b3, b4, b5, b6, b7; discriminate.
Qed.

(** No upper-cased name contains the marker 'sTRX4'. *)
Lemma strx4_nunca_en_mayusculas (socket : string) :
  py_contains "sTRX4" (py_upper socket) = false.
Proof.
  induction socket as [|c rest IH]; [reflexivity|].
  unfold py_upper in *. cbn [map_string py_contains]. rewrite IH, orb_false_r.
  cbn [String.prefix].
  destruct (ascii_dec "s" (upper_char c)) as [E|_]; [|reflexivity].
  symmetry in E. contradiction (upper_char_no_es_s c).
Qed.

(** The loop of [get_socket_families] is two filters by its own test. *)
Lemma socket_families_acc (sockets i a : list string) :
  fold_left
    (fun fam socket =>
       if py_isdigit socket || py_startswith socket "LGA" then
         {| intel := intel fam ++ [socket]; amd := amd fam |}
       else if existsb (fun x => py_contains x (py_upper socket)) amd_markers then
         {| intel := intel fam; amd := amd fam ++ [socket] |}
       else
         {| intel := intel fam ++ [socket]; amd := amd fam ++ [socket] |})
    sockets {| intel := i; amd := a |} =
  {| intel := i ++ filter (fun s => en_intel (familia_codigo s)) sockets;
     amd := a ++ filter (fun s => en_amd (familia_codigo s)) sockets |}.
Proof.
  revert i a. induction sockets as [|s sockets IH]; intros i a;
    cbn [fold_left filter].
  - rewrite !app_nil_r. reflexivity.
  - assert (F : familia_codigo s =
                if py_isdigit s || py_startswith s "LGA" then Intel
                else if existsb (fun x => py_contains x (py_upper s)) amd_markers
                     then AMD else Ambas) by reflexivity.
    destruct (py_isdigit s || py_startswith s "LGA");
      [|destruct (existsb (fun x => py_contains x (py_upper s)) amd_markers)];
      rewrite F; cbn [intel amd en_intel en_amd]; rewrite IH;
      rewrite <- ?app_assoc; reflexivity.
Qed.

Lemma get_socket_families_filter (sockets : list string) :
  get_socket_families sockets =
  {| intel := filter (fun s => en_intel (familia_codigo s)) sockets;
     amd := filter (fun s => en_amd (familia_codigo s)) sockets |}.
Proof. unfold get_socket_families. rewrite socket_families_acc. reflexivity. Qed.

(** Away from names containing 'strx4' the code's test is the
    specification's. *)
Lemma familia_codigo_spec (socket : string) :
  contiene_sin_distinguir "sTRX4" socket = false ->
  familia_codigo socket = familia_spec socket.
Proof.
  intros H. unfold familia_codigo, familia_spec, amd_markers.
  cbn [existsb]. rewrite H, strx4_nunca_en_mayusculas.
  reflexivity.
Qed.

Lemma familias_salvo_strx4 (sockets : list string) :
  Forall (fun s => contiene_sin_distinguir "sTRX4" s = false) sockets ->
  get_socket_families sockets = familias_spec sockets.
Proof.
  intros H. rewrite get_socket_families_filter. unfold familias_spec.
  f_equal; apply filter_ext_in; intros s Hin;
    rewrite Forall_forall in H; rewrite (familia_codigo_spec s (H s Hin));
    reflexivity.
Qed.

(** Universal means both partitions are non-empty. *)
Lemma is_universal_iff (row : list (string * string)) :
  is_universal (_analyze_compatibility row) = true <->
  intel (families (_analyze_compatibility row)) <> [] /\
  amd (families (_analyze_compatibility row)) <> [].
Proof.
  unfold _analyze_compatibility; cbn [is_universal families].
  destruct (get_socket_families _) as [[|x i] [|y a]]; cbn; split;
    try discriminate;
    try (intros [H1 H2]; solve [contradiction H1; reflexivity
                               | contradiction H2; reflexivity]).
  - intros _. split; discriminate.
  - reflexivity.
Qed.

(** C7 (the code differs): the marker 'sTRX4' is looked for in the
    upper-cased socket name and so never matches; the socket 'sTRX4', which
    the specification classifies as AMD, lands in both families and a cooler
    supporting only it is reported universal. *)
Theorem strx4_en_ambas_familias :
  get_socket_families ["sTRX4"] = {| intel := ["sTRX4"]; amd := ["sTRX4"] |} /\
  is_universal (_analyze_compatibility [("Supported Sockets", "sTRX4")]) = true /\
  familia_spec "sTRX4" = AMD /\
  familias_spec ["sTRX4"] = {| intel := []; amd := ["sTRX4"] |} /\
  (forall socket : string, py_contains "sTRX4" (py_upper socket) = false).
Proof.
  repeat (split; [reflexivity|]).
  exact strx4_nunca_en_mayusculas.
Qed.

(** * Theorems on the rest of the engine *)

(** ** Sets and sorting *)

Lemma insertar_In (x : pyval) (l l' : list pyval) :
  insertar x l = Ok l' -> forall y, In y l' <-> y = x \/ In y l.
Proof.
  revert l'. induction l as [|z l IH]; intros l' H y; cbn [insertar] in H.
  - injection H as <-. simpl. intuition congruence.
  - apply bind_ok in H; destruct H as (menor & _ & H).
    destruct menor.
    + injection H as <-. simpl. intuition congruence.
    + apply bind_ok in H; destruct H as (r & Hr & H). injection H as <-.
      specialize (IH r Hr y). simpl. intuition congruence.
Qed.

Lemma py_sorted_acc_In (l acc l' : list pyval) :
  for_each l insertar acc = Ok l' -> forall y, In y l' <-> In y l \/ In y acc.
Proof.
  revert acc. induction l as [|x l IH]; intros acc H y; cbn [for_each] in H.
  - injection H as <-. simpl. tauto.
  - apply bind_ok in H; destruct H as (acc' & Hi & H).
    rewrite (IH acc' H y), (insertar_In x acc acc' Hi y). simpl.
    intuition congruence.
Qed.

(** Sorting keeps the members. *)
Lemma py_sorted_In (l l' : list pyval) :
  py_sorted l = Ok l' -> forall y, In y l' <-> In y l.
Proof.
  intros H y. rewrite (py_sorted_acc_In l [] l' H y). simpl. tauto.
Qed.

Section Recoger.

Variable valor : pyval -> result pyval.

Lemma recoger_acc (xs acc s : list pyval) :
  for_each xs
    (fun x s => v <- valor x ;; if truthy v then set_add v s else Ok s) acc = Ok s ->
  (forall t, In t s ->
     In t acc \/ exists x, In x xs /\ valor x = Ok t /\ truthy t = true) /\
  (forall x, In x xs -> exists v, valor x = Ok v) /\
  (forall t, In t acc -> In t s).
Proof.
  revert acc. induction xs as [|x xs IH]; intros acc H; cbn [for_each] in H.
  - injection H as <-. repeat split.
    + intros t Ht. left. exact Ht.
    + intros x [].
    + intros t Ht. exact Ht.
  - apply bind_ok in H; destruct H as (acc' & Hstep & H).
    apply bind_ok in Hstep; destruct Hstep as (v & Hv & Hstep).
    destruct (IH acc' H) as (IH1 & IH2 & IH3).
    assert (Hacc' : (forall t, In t acc' -> In t acc \/ (t = v /\ truthy v = true)) /\
                    (forall t, In t acc -> In t acc')).
    { destruct (truthy v) eqn:Tv.
      - unfold set_add in Hstep. destruct (hashable v); [|discriminate].
        injection Hstep as <-. destruct (set_mem v acc).
        + split; intros t Ht; [left|]; exact Ht.
        + split; intros t Ht.
          * apply in_app_or in Ht. destruct Ht as [Ht|[<-|[]]];
              [left; exact Ht | right; split; reflexivity].
          * apply in_or_app. left. exact Ht.
      - injection Hstep as <-. split; intros t Ht; [left|]; exact Ht. }
    destruct Hacc' as [Ha1 Ha2]. repeat split.
    + intros t Ht. destruct (IH1 t Ht) as [Hin|(y & Hy & Hty & Tt)].
      * destruct (Ha1 t Hin) as [Hin'|[-> Tv]]; [left; exact Hin'|].
        right. exists x. repeat split; [left; reflexivity | exact Hv | exact Tv].
      * right. exists y. repeat split; [right; exact Hy | exact Hty | exact Tt].
    + intros y [<-|Hy]; [exists v; exact Hv | exact (IH2 y Hy)].
    + intros t Ht. apply IH3, Ha2, Ht.
Qed.

(** Every member of the collected set is the truthy value of some entry,
    and the value of every entry could be read. *)
Lemma recoger_In (xs s : list pyval) :
  recoger valor xs = Ok s ->
  (forall t, In t s -> exists x, In x xs /\ valor x = Ok t /\ truthy t = true) /\
  (forall x, In x xs -> exists v, valor x = Ok v).
Proof.
  intros H. destruct (recoger_acc xs [] s H) as (H1 & H2 & _). split; [|exact H2].
  intros t Ht. destruct (H1 t Ht) as [[]|Hx]. exact Hx.
Qed.

End Recoger.

Section SeleccionCompleta.

Variable cond : pyval -> result bool.

(** A selection that returns holds every entry that passes the test. *)
Lemma seleccionar_completa (xs l : list pyval) :
  seleccionar cond xs = Ok l ->
  forall x, In x xs -> cond x = Ok true -> In x l.
Proof.
  revert l. induction xs as [|y xs IH]; intros l H x Hin Hx; [contradiction|].
  rewrite seleccionar_cons in H.
  apply bind_ok in H; destruct H as (b & Hb & H).
  apply bind_ok in H; destruct H as (l' & Hl' & H).
  injection H as <-.
  destruct Hin as [->|Hin].
  - rewrite Hx in Hb. injection Hb as <-. left. reflexivity.
  - specialize (IH l' Hl' x Hin Hx). destruct b; [right|]; exact IH.
Qed.

(** A selection returns as soon as its test returns on every entry. *)
Lemma seleccionar_total (xs : list pyval) :
  (forall x, In x xs -> exists b, cond x = Ok b) ->
  exists l, seleccionar cond xs = Ok l.
Proof.
  induction xs as [|y xs IH]; intros H; [exists []; reflexivity|].
  destruct (H y (or_introl eq_refl)) as (b & Hb).
  destruct IH as (l & Hl); [intros x Hx; apply H; right; exact Hx|].
  rewrite seleccionar_cons, Hb, Hl. cbn [bind]. eexists. reflexivity.
Qed.

End SeleccionCompleta.

Lemma py_eq_str_r (v : pyval) (s : string) : py_eq v (VStr s) = true -> v = VStr s.
Proof.
  destruct v as [| | |t| |]; simpl; try discriminate.
  intros H. apply String.eqb_eq in H. subst. reflexivity.
Qed.

Lemma py_eq_str_l (v : pyval) (s : string) : py_eq (VStr s) v = true -> v = VStr s.
Proof.
  destruct v as [| | |t| |]; simpl; try discriminate.
  intros H. apply String.eqb_eq in H. subst. reflexivity.
Qed.

Lemma py_eq_str_refl (s : string) : py_eq (VStr s) (VStr s) = true.
Proof. simpl. apply String.eqb_refl. Qed.

Lemma set_mem_str (s : string) (l : list pyval) :
  set_mem (VStr s) l = true -> In (VStr s) l.
Proof.
  unfold set_mem. intros H. apply existsb_exists in H.
  destruct H as (u & Hu & E). apply py_eq_str_l in E. subst. exact Hu.
Qed.

Section RecogerCompleta.

Variable valor : pyval -> result pyval.

Lemma recoger_acc_completa (xs acc s : list pyval) :
  for_each xs
    (fun x s => v <- valor x ;; if truthy v then set_add v s else Ok s) acc = Ok s ->
  (forall t, set_mem t acc = true -> set_mem t s = true) /\
  (forall x v, In x xs -> valor x = Ok v -> truthy v = true -> set_mem v s = true).
Proof.
  revert acc. induction xs as [|x xs IH]; intros acc H; cbn [for_each] in H.
  - injection H as <-. split; [intros t Ht; exact Ht | intros x v []].
  - apply bind_ok in H; destruct H as (acc' & Hstep & H).
    apply bind_ok in Hstep; destruct Hstep as (v & Hv & Hstep).
    destruct (IH acc' H) as (IH1 & IH2).
    assert (Hacc' : (forall t, set_mem t acc = true -> set_mem t acc' = true) /\
                    (truthy v = true -> set_mem v acc' = true)).
    { destruct (truthy v) eqn:Tv.
      - unfold set_add in Hstep. destruct (hashable v) eqn:Hh; [|discriminate].
        injection Hstep as <-. destruct (set_mem v acc) eqn:Hm.
        + split; [intros t Ht; exact Ht | intros _; exact Hm].
        + split.
          * intros t Ht. unfold set_mem in *. rewrite existsb_app, Ht. reflexivity.
          * intros _. unfold set_mem. rewrite existsb_app. simpl.
            assert (py_eq v v = true) as ->; [|rewrite orb_true_r; reflexivity].
            destruct v as [|b|q|t| |]; simpl in *; try discriminate.
            -- destruct b; reflexivity.
            -- apply Qeq_bool_iff. reflexivity.
            -- apply String.eqb_refl.
      - injection Hstep as <-. split; [intros t Ht; exact Ht | discriminate]. }
    destruct Hacc' as [Ha1 Ha2]. split.
    + intros t Ht. apply IH1, Ha1, Ht.
    + intros y w [<-|Hy] Hw Tw.
      * rewrite Hv in Hw. injection Hw as <-. apply IH1, Ha2, Tw.
      * exact (IH2 y w Hy Hw Tw).
Qed.

(** Every truthy value of an entry is in the collected set. *)
Lemma recoger_completa (xs s : list pyval) :
  recoger valor xs = Ok s ->
  forall x v, In x xs -> valor x = Ok v -> truthy v = true -> set_mem v s = true.
Proof. intros H. exact (proj2 (recoger_acc_completa xs [] s H)). Qed.

End RecogerCompleta.

(** ** The catalog queries against the filters *)

Lemma producer_es_ok (a : string) (cpu : pyval) (b : bool) :
  producer_es a cpu = Ok b ->
  exists p, producer_de cpu = Ok p /\ b = py_eq p (VStr a).
Proof.
  unfold producer_es. intros H.
  apply bind_ok in H; destruct H as (p & Hp & H). injection H as <-.
  exists p. split; [exact Hp | reflexivity].
Qed.

(** X1: the architectures offered are exactly the non-empty producer names
    of the CPU catalog, and choosing any of them gives a CPU list that is
    not empty and holds only CPUs of that producer. *)
Theorem arquitecturas_seleccionan_cpus :
  forall (datos : catalogo) (arquitecturas : list pyval),
    obtener_arquitecturas_disponibles datos = Ok arquitecturas ->
    forall a : string,
      (In (VStr a) arquitecturas <->
       a <> "" /\
       exists cpu, In cpu (datos_get datos "cpu") /\ producer_de cpu = Ok (VStr a)) /\
      (In (VStr a) arquitecturas ->
       exists cpus : list pyval,
         filtrar_cpus_por_arquitectura datos a = Ok cpus /\
         cpus <> [] /\
         forall cpu, In cpu cpus -> producer_de cpu = Ok (VStr a)).
Proof.
  intros datos arqs H a.
  unfold obtener_arquitecturas_disponibles in H.
  apply bind_ok in H; destruct H as (s & Hs & H).
  pose proof (py_sorted_In _ _ H) as Hperm.
  destruct (recoger_In _ _ _ Hs) as [Hsound Hread].
  pose proof (recoger_completa _ _ _ Hs) as Hcompl.
  assert (Hiff : In (VStr a) arqs <->
            a <> "" /\
            exists cpu, In cpu (datos_get datos "cpu") /\ producer_de cpu = Ok (VStr a)).
  { split.
    - intros Hin. apply Hperm in Hin.
      destruct (Hsound _ Hin) as (cpu & Hcpu & Hp & T).
      split; [|exists cpu; split; assumption].
      intros ->. discriminate T.
    - intros (Hne & cpu & Hcpu & Hp). apply Hperm. apply set_mem_str.
      apply (Hcompl cpu _ Hcpu Hp). apply truthy_str. exact Hne. }
  split; [exact Hiff|].
  intros Hin. apply Hiff in Hin. destruct Hin as (Hne & cpu & Hcpu & Hp).
  destruct (seleccionar_total (producer_es a) (datos_get datos "cpu")) as (cpus & Hc).
  { intros x Hx. destruct (Hread x Hx) as (v & Hv).
    unfold producer_es. rewrite Hv. eexists. reflexivity. }
  exists cpus. split; [exact Hc|]. split.
  - intros ->.
    apply (seleccionar_completa _ _ _ Hc cpu Hcpu).
    unfold producer_es. rewrite Hp. cbn [bind]. rewrite py_eq_str_refl. reflexivity.
  - intros x Hx. destruct (seleccionar_In _ _ _ Hc x Hx) as [_ Hb].
    apply producer_es_ok in Hb. destruct Hb as (p & Hpx & E).
    symmetry in E. apply py_eq_str_r in E. subst p. exact Hpx.
Qed.

Lemma arquitecturas_seleccionan_cpus_witness :
  (In (VStr "AMD") [VStr "AMD"; VStr "Intel"] <->
   "AMD" <> "" /\
   exists cpu, In cpu (datos_get catalogo_cpus "cpu") /\ producer_de cpu = Ok (VStr "AMD")) /\
  (In (VStr "AMD") [VStr "AMD"; VStr "Intel"] ->
   exists cpus : list pyval,
     filtrar_cpus_por_arquitectura catalogo_cpus "AMD" = Ok cpus /\
     cpus <> [] /\
     forall cpu, In cpu cpus -> producer_de cpu = Ok (VStr "AMD")).
Proof.
  apply (arquitecturas_seleccionan_cpus catalogo_cpus [VStr "AMD"; VStr "Intel"]).
  reflexivity.
Defined.

Section RecogerDeSeleccion.

Variable cond : pyval -> result bool.
Variable valor : pyval -> result pyval.

(** Collecting a value over the entries that pass a test is collecting it
    over the selection by that test. *)
Lemma recoger_de_seleccion (xs s : list pyval) :
  recoger (fun x => b <- cond x ;; if b then valor x else Ok VNone) xs = Ok s ->
  exists l : list pyval,
    seleccionar cond xs = Ok l /\
    forall t : string,
      In (VStr t) s <->
      t <> "" /\ exists x, In x l /\ valor x = Ok (VStr t).
Proof.
  intros H.
  destruct (recoger_In _ _ _ H) as [Hsound Hread].
  pose proof (recoger_completa _ _ _ H) as Hcompl.
  destruct (seleccionar_total cond xs) as (l & Hl).
  { intros x Hx. destruct (Hread x Hx) as (v & Hv).
    apply bind_ok in Hv. destruct Hv as (b & Hb & _). exists b. exact Hb. }
  exists l. split; [exact Hl|]. intros t. split.
  - intros Hin. destruct (Hsound _ Hin) as (x & Hx & Hv & T).
    split; [intros ->; discriminate T|].
    apply bind_ok in Hv. destruct Hv as (b & Hb & Hv).
    destruct b; [|discriminate Hv].
    exists x. split; [|exact Hv].
    exact (seleccionar_completa _ _ _ Hl x Hx Hb).
  - intros (Hne & x & Hx & Hv).
    destruct (seleccionar_In _ _ _ Hl x Hx) as [Hxs Hb].
    apply set_mem_str. apply (Hcompl x _ Hxs).
    + rewrite Hb. cbn [bind]. exact Hv.
    + apply truthy_str. exact Hne.
Qed.

End RecogerDeSeleccion.

(** X2: the sockets offered for an architecture are exactly the non-empty
    socket names of the CPUs that the architecture filter returns. *)
Theorem sockets_de_la_arquitectura :
  forall (datos : catalogo) (a : string) (sockets : list pyval),
    obtener_sockets_por_arquitectura datos a = Ok sockets ->
    exists cpus : list pyval,
      filtrar_cpus_por_arquitectura datos a = Ok cpus /\
      forall s : string,
        In (VStr s) sockets <->
        s <> "" /\ exists cpu, In cpu cpus /\ socket_cpu_de cpu = Ok (VStr s).
Proof.
  intros datos a sockets H. unfold obtener_sockets_por_arquitectura in H.
  apply bind_ok in H; destruct H as (s0 & Hs & H).
  destruct (recoger_de_seleccion _ _ _ _ Hs) as (cpus & Hc & Hiff).
  exists cpus. split; [exact Hc|].
  intros s. rewrite (py_sorted_In _ _ H). apply Hiff.
Qed.

Lemma sockets_de_la_arquitectura_witness :
  exists cpus : list pyval,
    filtrar_cpus_por_arquitectura catalogo_cpus "AMD" = Ok cpus /\
    forall s : string,
      In (VStr s) [VStr "AM4"; VStr "AM5"] <->
      s <> "" /\ exists cpu, In cpu cpus /\ socket_cpu_de cpu = Ok (VStr s).
Proof.
  apply (sockets_de_la_arquitectura catalogo_cpus "AMD" [VStr "AM4"; VStr "AM5"]).
  reflexivity.
Defined.

(** X3: the form factors offered for a socket are exactly the non-empty
    form factors of the motherboards that the socket filter returns, and
    each of them is among the form factors offered when no socket is
    given. *)
Theorem form_factors_del_socket :
  forall (datos : catalogo) (s : string) (ffs : list pyval),
    obtener_form_factors_motherboard datos (Some s) = Ok ffs ->
    exists mbs : list pyval,
      filtrar_motherboards_por_socket datos s = Ok mbs /\
      (forall f : string,
         In (VStr f) ffs <->
         f <> "" /\ exists mb, In mb mbs /\ form_factor_de mb = Ok (VStr f)) /\
      (forall todos : list pyval,
         obtener_form_factors_motherboard datos None = Ok todos ->
         forall f : string, In (VStr f) ffs -> In (VStr f) todos).
Proof.
  intros datos s ffs H. unfold obtener_form_factors_motherboard in H.
  apply bind_ok in H; destruct H as (s0 & Hs & H).
  destruct (recoger_de_seleccion _ _ _ _ Hs) as (mbs & Hm & Hiff).
  exists mbs. split; [exact Hm|]. split.
  - intros f. rewrite (py_sorted_In _ _ H). apply Hiff.
  - intros todos Ht f Hin.
    unfold obtener_form_factors_motherboard in Ht.
    apply bind_ok in Ht; destruct Ht as (t0 & Ht0 & Ht).
    destruct (recoger_de_seleccion _ _ _ _ Ht0) as (all & Hall & Hiff').
    apply (py_sorted_In _ _ Ht). apply Hiff'.
    apply (py_sorted_In _ _ H) in Hin. apply Hiff in Hin.
    destruct Hin as (Hne & mb & Hmb & Hf).
    split; [exact Hne|]. exists mb. split; [|exact Hf].
    destruct (seleccionar_In _ _ _ Hm mb Hmb) as [Hcat _].
    exact (seleccionar_completa _ _ _ Hall mb Hcat eq_refl).
Qed.

Lemma form_factors_del_socket_witness :
  exists mbs : list pyval,
    filtrar_motherboards_por_socket catalogo_ejemplo "AM4" = Ok mbs /\
    (forall f : string,
       In (VStr f) [VStr "ATX"; VStr "Micro-ATX"] <->
       f <> "" /\ exists mb, In mb mbs /\ form_factor_de mb = Ok (VStr f)) /\
    (forall todos : list pyval,
       obtener_form_factors_motherboard catalogo_ejemplo None = Ok todos ->
       forall f : string, In (VStr f) [VStr "ATX"; VStr "Micro-ATX"] -> In (VStr f) todos).
Proof.
  apply (form_factors_del_socket catalogo_ejemplo "AM4" [VStr "ATX"; VStr "Micro-ATX"]).
  reflexivity.
Defined.

(** ** The form-factor hierarchy and the case filter *)

Lemma es_case_compatible_b (c m : string) :
  c <> "" -> m <> "" ->
  _es_case_compatible_con_motherboard (VStr c) (VStr m) =
  Ok (compatible_b (normalize_spec c) (normalize_spec m)).
Proof.
  intros Hc Hm. unfold _es_case_compatible_con_motherboard, compatible_b.
  rewrite (truthy_str c Hc), (truthy_str m Hm); cbn [negb orb].
  unfold clean. rewrite !name_variations_alias, !form_factor_sizes_ordinal.
  fold (normalize_spec c) (normalize_spec m).
  destruct (String.eqb (normalize_spec c) (normalize_spec m)); [reflexivity|].
  cbn [orb].
  destruct (ordinal_spec (normalize_spec c)) as [oc|] eqn:Eoc;
    [|rewrite Z.eqb_refl; reflexivity].
  destruct (ordinal_spec (normalize_spec m)) as [om|] eqn:Eom;
    [|rewrite Z.eqb_refl, orb_true_r; reflexivity].
  pose proof (ordinal_spec_nonneg _ _ Eoc). pose proof (ordinal_spec_nonneg _ _ Eom).
  destruct (Z.eqb_spec oc (-1)); [lia|]. destruct (Z.eqb_spec om (-1)); [lia|].
  reflexivity.
Qed.

Lemma compatible_b_refl (n : string) : compatible_b n n = true.
Proof. unfold compatible_b. rewrite String.eqb_refl. reflexivity. Qed.

Lemma compatible_b_trans (a b c : string) :
  compatible_b a b = true -> compatible_b b c = true -> compatible_b a c = true.
Proof.
  unfold compatible_b. intros H1 H2.
  destruct (String.eqb_spec a b) as [->|N1]; [exact H2|].
  destruct (String.eqb_spec b c) as [<-|N2].
  { rewrite (proj2 (String.eqb_neq a b) N1). exact H1. }
  cbn [orb] in H1, H2.
  destruct (ordinal_spec a) as [oa|]; [|discriminate].
  destruct (ordinal_spec b) as [ob|]; [|discriminate].
  destruct (ordinal_spec c) as [oc|]; [|discriminate].
  apply Z.geb_le in H1. apply Z.geb_le in H2.
  replace (Z.geb oa oc) with true; [apply orb_true_r|].
  symmetry. apply Z.geb_le. lia.
Qed.

(** X4: on non-empty names the form-factor predicate is a preorder: every
    name accepts itself, and if [a] accepts [b] and [b] accepts [c] then
    [a] accepts [c]; it is not symmetric. *)
Theorem es_case_compatible_preorden :
  (forall a : string, a <> "" ->
     _es_case_compatible_con_motherboard (VStr a) (VStr a) = Ok true) /\
  (forall a b c : string, a <> "" -> b <> "" -> c <> "" ->
     _es_case_compatible_con_motherboard (VStr a) (VStr b) = Ok true ->
     _es_case_compatible_con_motherboard (VStr b) (VStr c) = Ok true ->
     _es_case_compatible_con_motherboard (VStr a) (VStr c) = Ok true) /\
  (_es_case_compatible_con_motherboard (VStr "E-ATX") (VStr "mini_itx") = Ok true /\
   _es_case_compatible_con_motherboard (VStr "mini_itx") (VStr "E-ATX") = Ok false).
Proof.
  split; [|split; [|split; reflexivity]].
  - intros a Ha. rewrite (es_case_compatible_b a a Ha Ha), compatible_b_refl.
    reflexivity.
  - intros a b c Ha Hb Hc.
    rewrite (es_case_compatible_b a b Ha Hb), (es_case_compatible_b b c Hb Hc),
      (es_case_compatible_b a c Ha Hc).
    intros [= H1] [= H2]. rewrite (compatible_b_trans _ _ _ H1 H2). reflexivity.
Qed.

Lemma es_case_compatible_preorden_witness :
  _es_case_compatible_con_motherboard (VStr "XL-ATX") (VStr "itx") = Ok true.
Proof.
  apply (proj1 (proj2 es_case_compatible_preorden) "XL-ATX" "uATX" "itx");
    solve [discriminate | reflexivity].
Defined.

Section SeleccionMonotona.

Variables cond1 cond2 : pyval -> result bool.

Hypothesis cond_mono :
  forall x b1, cond1 x = Ok b1 ->
    exists b2, cond2 x = Ok b2 /\ (b1 = true -> b2 = true).

(** A weaker test that returns wherever the stronger one does selects at
    least as much. *)
Lemma seleccionar_monotona (xs l1 : list pyval) :
  seleccionar cond1 xs = Ok l1 ->
  exists l2, seleccionar cond2 xs = Ok l2 /\ incl l1 l2.
Proof.
  revert l1. induction xs as [|x xs IH]; intros l1 H.
  - injection H as <-. exists []. split; [reflexivity | intros y []].
  - rewrite seleccionar_cons in H.
    apply bind_ok in H; destruct H as (b1 & Hb1 & H).
    apply bind_ok in H; destruct H as (l1' & Hl1' & H). injection H as <-.
    destruct (IH l1' Hl1') as (l2' & Hl2' & Hincl).
    destruct (cond_mono x b1 Hb1) as (b2 & Hb2 & Himp).
    rewrite seleccionar_cons, Hb2, Hl2'. cbn [bind].
    eexists. split; [reflexivity|].
    destruct b1.
    + rewrite (Himp eq_refl). intros y [<-|Hy]; [left; reflexivity|].
      right. apply Hincl, Hy.
    + destruct b2; intros y Hy; [right|]; apply Hincl, Hy.
Qed.

End SeleccionMonotona.

(** A falsy operand answers False before anything else is looked at. *)
Lemma es_case_falsy (soporte ff : pyval) :
  truthy soporte = false \/ truthy ff = false ->
  _es_case_compatible_con_motherboard soporte ff = Ok false.
Proof.
  intros [H|H]; unfold _es_case_compatible_con_motherboard; rewrite H;
    [|rewrite orb_true_r]; reflexivity.
Qed.

(** X5: a case offered for a board is offered for every board that board's
    form factor accepts: if the name [m1] accepts [m2] (as 'ATX' accepts
    'Micro-ATX'), the case list for [m1] is contained in the case list for
    [m2], which is returned whenever the one for [m1] is. *)
Theorem filtrar_cases_jerarquia :
  forall (datos : catalogo) (m1 m2 : string) (l1 : list pyval),
    m1 <> "" -> m2 <> "" ->
    _es_case_compatible_con_motherboard (VStr m1) (VStr m2) = Ok true ->
    filtrar_cases_por_motherboard_form_factor datos (VStr m1) = Ok l1 ->
    exists l2 : list pyval,
      filtrar_cases_por_motherboard_form_factor datos (VStr m2) = Ok l2 /\
      incl l1 l2.
Proof.
  intros datos m1 m2 l1 H1 H2 Hacc H.
  unfold filtrar_cases_por_motherboard_form_factor in *.
  apply seleccionar_monotona with (2 := H).
  intros x b1 Hb1.
  apply bind_ok in Hb1; destruct Hb1 as (compat & Hc & Hb1).
  apply bind_ok in Hb1; destruct Hb1 as (sup & Hsup & Hb1).
  rewrite Hc. cbn [bind]. rewrite Hsup. cbn [bind].
  destruct (truthy sup) eqn:T.
  - destruct sup as [| | |c| |]; try (unfold _es_case_compatible_con_motherboard in Hb1;
      rewrite T, (truthy_str m1 H1) in Hb1; discriminate Hb1).
    assert (Hcne : c <> "") by (intros ->; discriminate T).
    rewrite (es_case_compatible_b c m2 Hcne H2). eexists. split; [reflexivity|].
    intros ->. rewrite (es_case_compatible_b c m1 Hcne H1) in Hb1.
    rewrite (es_case_compatible_b m1 m2 H1 H2) in Hacc.
    injection Hb1 as Hb1. injection Hacc as Hacc.
    exact (compatible_b_trans _ _ _ Hb1 Hacc).
  - rewrite es_case_falsy in Hb1 by (left; exact T). injection Hb1 as <-.
    rewrite es_case_falsy by (left; exact T). exists false. split; [reflexivity|].
    discriminate.
Qed.

Lemma filtrar_cases_jerarquia_witness :
  exists l2 : list pyval,
    filtrar_cases_por_motherboard_form_factor catalogo_cpus (VStr "Mini-ITX") = Ok l2 /\
    incl [VDict [("name", VStr "Meshify C");
                 ("compatibility", VDict [("motherboard", VStr "ATX")])]] l2.
Proof.
  apply (filtrar_cases_jerarquia catalogo_cpus "ATX" "Mini-ITX");
    solve [discriminate | reflexivity].
Defined.

(** X6: the case filter never returns a case whose record has no non-empty
    support string, and with a form factor that is [None] or empty it
    returns no case at all. *)
Theorem filtrar_cases_sin_datos :
  forall (datos : catalogo) (ff : pyval) (l : list pyval),
    filtrar_cases_por_motherboard_form_factor datos ff = Ok l ->
    (truthy ff = false -> l = []) /\
    (forall case : pyval, In case l ->
       exists (compat : pydict) (s : string),
         py_get case "compatibility" (VDict []) = Ok (VDict compat) /\
         lookup "motherboard" compat = Some (VStr s) /\ s <> "").
Proof.
  intros datos ff l H. unfold filtrar_cases_por_motherboard_form_factor in H.
  assert (Hall : forall case, In case l ->
            truthy ff = true /\
            exists (compat : pydict) (s : string),
              py_get case "compatibility" (VDict []) = Ok (VDict compat) /\
              lookup "motherboard" compat = Some (VStr s) /\ s <> "").
  { intros case Hin. destruct (seleccionar_In _ _ _ H case Hin) as [_ Hb].
    apply bind_ok in Hb; destruct Hb as (compat & Hc & Hb).
    apply bind_ok in Hb; destruct Hb as (sup & Hsup & Hb).
    destruct (truthy ff) eqn:Tf;
      [|rewrite es_case_falsy in Hb by (right; exact Tf); discriminate Hb].
    destruct (truthy sup) eqn:Ts;
      [|rewrite es_case_falsy in Hb by (left; exact Ts); discriminate Hb].
    split; [reflexivity|].
    destruct compat as [| | | | |d]; try discriminate Hsup.
    injection Hsup as Hsup. unfold dict_get in Hsup.
    destruct (lookup "motherboard" d) as [v|] eqn:Hl; [|subst sup; discriminate Ts].
    subst v.
    destruct sup as [| | |s| |];
      try (unfold _es_case_compatible_con_motherboard in Hb; rewrite Ts, Tf in Hb;
           cbn [negb orb] in Hb; destruct ff; discriminate Hb).
    exists d, s. split; [exact Hc|]. split; [exact Hl|].
    intros ->. discriminate Ts. }
  split.
  - intros Tf. destruct l as [|x l]; [reflexivity|].
    destruct (Hall x (or_introl eq_refl)) as [T _]. congruence.
  - intros case Hin. exact (proj2 (Hall case Hin)).
Qed.

Lemma filtrar_cases_sin_datos_witness :
  (truthy (VStr "ATX") = false ->
   [VDict [("name", VStr "Meshify C");
           ("compatibility", VDict [("motherboard", VStr "ATX")])]] = []) /\
  (forall case : pyval,
     In case [VDict [("name", VStr "Meshify C");
                     ("compatibility", VDict [("motherboard", VStr "ATX")])]] ->
     exists (compat : pydict) (s : string),
       py_get case "compatibility" (VDict []) = Ok (VDict compat) /\
       lookup "motherboard" compat = Some (VStr s) /\ s <> "").
Proof.
  apply (filtrar_cases_sin_datos catalogo_cpus (VStr "ATX")). reflexivity.
Defined.

(** ** Advanced filters *)

Lemma filter_todos {A : Type} (l : list A) : filter (fun _ => true) l = l.
Proof. induction l as [|x l IH]; [reflexivity|]. simpl. rewrite IH. reflexivity. Qed.

(** X7: on components whose records carry no price, which is how every
    normaliser of the repository writes them, the price filter returns the
    list as it is, whatever the bounds. *)
Theorem filtrar_por_precio_sin_precio :
  forall (componentes : list pyval) (precio_min precio_max : option Q),
    Forall (fun comp => exists d : pydict, comp = VDict d /\ lookup "price" d = None)
      componentes ->
    filtrar_por_precio componentes precio_min precio_max = Ok componentes.
Proof.
  intros comps pmin pmax H. unfold filtrar_por_precio.
  destruct (sin_numero pmin && sin_numero pmax); [reflexivity|].
  rewrite seleccionar_filter with (p := fun _ => true); [rewrite filter_todos; reflexivity|].
  apply Forall_impl with (2 := H).
  intros comp (d & -> & Hl). unfold precio_en_rango, precio_de. simpl.
  unfold dict_get. rewrite Hl. reflexivity.
Qed.

Lemma filtrar_por_precio_sin_precio_witness :
  filtrar_por_precio (datos_get catalogo_cpus "cpu") (Some 100%Q) (Some 300%Q) =
  Ok (datos_get catalogo_cpus "cpu").
Proof.
  apply (filtrar_por_precio_sin_precio (datos_get catalogo_cpus "cpu")).
  repeat constructor; eexists; split; reflexivity.
Defined.

Lemma bajo_minimo_false (v : pyval) (limite : option Q) :
  bajo_minimo v limite = Ok false ->
  forall m : Q, limite = Some m -> ~ (m == 0)%Q ->
    exists p : Q, num_value v = Some p /\ (m <= p)%Q.
Proof.
  intros H m -> Hm. unfold bajo_minimo, sin_numero in H.
  destruct (Qeq_bool m 0) eqn:E; [apply Qeq_bool_iff in E; contradiction|].
  unfold py_lt, py_gt in H. cbn [num_value] in H.
  destruct (num_value v) as [p|]; [|discriminate].
  injection H as H. exists p. split; [reflexivity|].
  apply negb_false_iff in H. apply Qle_bool_iff in H. exact H.
Qed.

Lemma sobre_maximo_false (v : pyval) (limite : option Q) :
  sobre_maximo v limite = Ok false ->
  forall m : Q, limite = Some m -> ~ (m == 0)%Q ->
    exists p : Q, num_value v = Some p /\ (p <= m)%Q.
Proof.
  intros H m -> Hm. unfold sobre_maximo, sin_numero in H.
  destruct (Qeq_bool m 0) eqn:E; [apply Qeq_bool_iff in E; contradiction|].
  unfold py_gt in H.
  destruct v as [|b|q|t| |]; cbn in H; try discriminate.
  - destruct b; injection H as H; apply negb_false_iff in H;
      apply Qle_bool_iff in H; eexists; split; try reflexivity; exact H.
  - injection H as H. apply negb_false_iff in H. apply Qle_bool_iff in H.
    exists q. split; [reflexivity | exact H].
Qed.

(** X8: when a bound is given, every component the price filter returns
    either has no price (a price of 0 or a missing price is always kept) or
    has a numeric price within the bounds given; a bound of 0 is read as not
    given. *)
Theorem filtrar_por_precio_rango :
  forall (componentes l : list pyval) (precio_min precio_max : option Q),
    sin_numero precio_min && sin_numero precio_max = false ->
    filtrar_por_precio componentes precio_min precio_max = Ok l ->
    forall comp : pyval, In comp l ->
      In comp componentes /\
      exists precio : pyval,
        precio_de comp = Ok precio /\
        (py_eq precio (VNum 0) = true \/
         exists p : Q,
           num_value precio = Some p /\
           (forall m : Q, precio_min = Some m -> ~ (m == 0)%Q -> (m <= p)%Q) /\
           (forall m : Q, precio_max = Some m -> ~ (m == 0)%Q -> (p <= m)%Q)).
Proof.
  intros comps l pmin pmax Hb H comp Hin. unfold filtrar_por_precio in H.
  rewrite Hb in H.
  destruct (seleccionar_In _ _ _ H comp Hin) as [Hc Hr].
  split; [exact Hc|].
  unfold precio_en_rango in Hr.
  apply bind_ok in Hr; destruct Hr as (precio & Hp & Hr).
  exists precio. split; [exact Hp|].
  destruct (py_eq precio (VNum 0)) eqn:E0; [left; reflexivity|]. right.
  apply bind_ok in Hr; destruct Hr as (bajo & Hbajo & Hr).
  destruct bajo; [discriminate|].
  apply bind_ok in Hr; destruct Hr as (alto & Halto & Hr).
  destruct alto; [discriminate|].
  pose proof (bajo_minimo_false _ _ Hbajo) as Hmin.
  pose proof (sobre_maximo_false _ _ Halto) as Hmax.
  assert (Hnum : exists p, num_value precio = Some p).
  { destruct pmin as [m|]; [destruct (Qeq_bool m 0) eqn:Em|].
    - destruct pmax as [M|]; [destruct (Qeq_bool M 0) eqn:EM|].
      + simpl in Hb. rewrite Em, EM in Hb. discriminate.
      + destruct (Hmax M eq_refl) as (p & Hp' & _);
          [intros E; apply Qeq_bool_iff in E; congruence | exists p; exact Hp'].
      + simpl in Hb. rewrite Em in Hb. discriminate.
    - destruct (Hmin m eq_refl) as (p & Hp' & _);
        [intros E; apply Qeq_bool_iff in E; congruence | exists p; exact Hp'].
    - destruct pmax as [M|]; [destruct (Qeq_bool M 0) eqn:EM|].
      + simpl in Hb. rewrite EM in Hb. discriminate.
      + destruct (Hmax M eq_refl) as (p & Hp' & _);
          [intros E; apply Qeq_bool_iff in E; congruence | exists p; exact Hp'].
      + discriminate Hb. }
  destruct Hnum as (p & Hnum). exists p. split; [exact Hnum|]. split.
  - intros m Em Hm. destruct (Hmin m Em Hm) as (p' & Hp' & Hle).
    rewrite Hnum in Hp'. injection Hp' as <-. exact Hle.
  - intros m Em Hm. destruct (Hmax m Em Hm) as (p' & Hp' & Hle).
    rewrite Hnum in Hp'. injection Hp' as <-. exact Hle.
Qed.

Lemma filtrar_por_precio_rango_witness :
  In (VDict [("name", VStr "D"); ("price", VDict [("value", VNum 200)])])
     componentes_con_precio /\
  exists precio : pyval,
    precio_de (VDict [("name", VStr "D"); ("price", VDict [("value", VNum 200)])]) =
    Ok precio /\
    (py_eq precio (VNum 0) = true \/
     exists p : Q,
       num_value precio = Some p /\
       (forall m : Q, Some 100%Q = Some m -> ~ (m == 0)%Q -> (m <= p)%Q) /\
       (forall m : Q, Some 300%Q = Some m -> ~ (m == 0)%Q -> (p <= m)%Q)).
Proof.
  apply (filtrar_por_precio_rango componentes_con_precio
           [VDict [("name", VStr "B")];
            VDict [("name", VStr "D"); ("price", VDict [("value", VNum 200)])]]
           (Some 100%Q) (Some 300%Q)).
  - reflexivity.
  - reflexivity.
  - right. left. reflexivity.
Defined.

Section SeleccionEnCadena.

Variables cond1 cond2 : pyval -> result bool.

(** Selecting by two tests in a row, the second only where the first
    passes, is selecting by the first and then by the second. *)
Lemma seleccionar_y_luego (xs l : list pyval) :
  seleccionar (fun x => y_luego (cond1 x) (cond2 x)) xs = Ok l <->
  exists l1, seleccionar cond1 xs = Ok l1 /\ seleccionar cond2 l1 = Ok l.
Proof.
  revert l. induction xs as [|x xs IH]; intros l.
  - split.
    + intros H. injection H as <-. exists []. split; reflexivity.
    + intros (l1 & H1 & H2). injection H1 as <-. exact H2.
  - rewrite !seleccionar_cons. split.
    + intros H.
      apply bind_ok in H; destruct H as (b & Hb & H).
      apply bind_ok in H; destruct H as (l' & Hl' & H). injection H as <-.
      apply IH in Hl'. destruct Hl' as (l1' & H1' & H2').
      unfold y_luego in Hb.
      apply bind_ok in Hb; destruct Hb as (b1 & Hb1 & Hb).
      rewrite Hb1, H1'. cbn [bind].
      destruct b1.
      * exists (x :: l1'). split; [reflexivity|].
        rewrite seleccionar_cons, Hb, H2'. reflexivity.
      * injection Hb as <-. exists l1'. split; [reflexivity | exact H2'].
    + intros (l1 & H1 & H2).
      apply bind_ok in H1; destruct H1 as (b1 & Hb1 & H1).
      apply bind_ok in H1; destruct H1 as (l1' & H1' & H1). injection H1 as <-.
      rewrite Hb1.
      change (y_luego (Ok b1) (cond2 x)) with (if b1 then cond2 x else Ok false).
      destruct b1.
      * rewrite seleccionar_cons in H2.
        apply bind_ok in H2; destruct H2 as (b2 & Hb2 & H2).
        apply bind_ok in H2; destruct H2 as (l' & Hl' & H2). injection H2 as <-.
        rewrite Hb2. cbn [bind].
        rewrite (proj2 (IH l') (ex_intro _ l1' (conj H1' Hl'))). reflexivity.
      * rewrite (proj2 (IH l) (ex_intro _ l1' (conj H1' H2))). reflexivity.
Qed.

End SeleccionEnCadena.

Lemma seleccionar_ext (cond1 cond2 : pyval -> result bool) (xs : list pyval) :
  (forall x, cond1 x = cond2 x) -> seleccionar cond1 xs = seleccionar cond2 xs.
Proof.
  intros H. induction xs as [|x xs IH]; [reflexivity|].
  rewrite !seleccionar_cons, H, IH. reflexivity.
Qed.

Lemma y_luego_true_r (a : result bool) : y_luego a (Ok true) = a.
Proof. destruct a as [[|]|e]; reflexivity. Qed.

Lemma cpu_rinde_cadena (categoria : option string) (n t m : option Q) (cpu : pyval) :
  cpu_rinde categoria n t m cpu =
  y_luego (cpu_rinde categoria None None None cpu)
    (y_luego (cpu_rinde None n None None cpu)
       (y_luego (cpu_rinde None None t None cpu)
          (cpu_rinde None None None m cpu))).
Proof.
  unfold cpu_rinde.
  destruct (py_get cpu "architecture" (VDict [])) as [arch|e]; [|reflexivity].
  destruct (py_get cpu "calculated_metrics" (VDict [])) as [metrics|e]; [|reflexivity].
  cbn [bind].
  change (prueba_categoria "cpu_category" None metrics) with (@Ok bool true).
  change (prueba_minimo "cores" None arch) with (@Ok bool true).
  change (prueba_minimo "threads" None arch) with (@Ok bool true).
  change (prueba_tdp None arch) with (@Ok bool true).
  destruct (prueba_categoria "cpu_category" categoria metrics) as [[|]|e1];
    destruct (prueba_minimo "cores" n arch) as [[|]|e2];
    destruct (prueba_minimo "threads" t arch) as [[|]|e3];
    destruct (prueba_tdp m arch) as [[|]|e4]; reflexivity.
Qed.

(** X9: one call of the CPU performance filter with several criteria
    returns exactly what four calls in a row return, one criterion each, in
    the order category, cores, threads, TDP; and it returns whenever they
    all do. *)
Theorem filtrar_cpus_por_rendimiento_en_cadena :
  forall (cpus l : list pyval) (categoria : option string)
         (cores_min threads_min tdp_max : option Q),
    filtrar_cpus_por_rendimiento cpus categoria cores_min threads_min tdp_max = Ok l <->
    exists l1 l2 l3 : list pyval,
      filtrar_cpus_por_rendimiento cpus categoria None None None = Ok l1 /\
      filtrar_cpus_por_rendimiento l1 None cores_min None None = Ok l2 /\
      filtrar_cpus_por_rendimiento l2 None None threads_min None = Ok l3 /\
      filtrar_cpus_por_rendimiento l3 None None None tdp_max = Ok l.
Proof.
  intros cpus l categoria n t m. unfold filtrar_cpus_por_rendimiento.
  rewrite (seleccionar_ext _ _ cpus (cpu_rinde_cadena categoria n t m)).
  rewrite seleccionar_y_luego. split.
  - intros (l1 & H1 & H). apply seleccionar_y_luego in H.
    destruct H as (l2 & H2 & H). apply seleccionar_y_luego in H.
    destruct H as (l3 & H3 & H). exists l1, l2, l3. repeat split; assumption.
  - intros (l1 & l2 & l3 & H1 & H2 & H3 & H4).
    exists l1. split; [exact H1|]. apply seleccionar_y_luego.
    exists l2. split; [exact H2|]. apply seleccionar_y_luego.
    exists l3. split; assumption.
Qed.

Lemma filtrar_cpus_por_rendimiento_en_cadena_witness :
  exists l1 l2 l3 : list pyval,
    filtrar_cpus_por_rendimiento cpus_rendimiento None None None None = Ok l1 /\
    filtrar_cpus_por_rendimiento l1 None (Some 6%Q) None None = Ok l2 /\
    filtrar_cpus_por_rendimiento l2 None None (Some 12%Q) None = Ok l3 /\
    filtrar_cpus_por_rendimiento l3 None None None (Some 150%Q) =
    Ok [nth 0 cpus_rendimiento VNone; nth 1 cpus_rendimiento VNone].
Proof.
  apply (proj1 (filtrar_cpus_por_rendimiento_en_cadena cpus_rendimiento
                  [nth 0 cpus_rendimiento VNone; nth 1 cpus_rendimiento VNone]
                  None (Some 6%Q) (Some 12%Q) (Some 150%Q))).
  reflexivity.
Defined.

Lemma cpu_rinde_tdp (m : Q) (cpu : pyval) :
  ~ (m == 0)%Q ->
  cpu_rinde None None None (Some m) cpu =
  (metrics <- py_get cpu "calculated_metrics" (VDict []) ;;
   valor <- tdp_cpu_de cpu ;;
   alto <- py_gt valor (VNum m) ;;
   Ok (negb alto)).
Proof.
  intros Hm. unfold cpu_rinde, tdp_cpu_de, prueba_tdp, sobre_maximo, sin_numero.
  assert (Qeq_bool m 0 = false) as ->.
  { apply not_true_is_false. intros E. apply Qeq_bool_iff in E. contradiction. }
  destruct cpu as [|c|q|t|xs|d]; try reflexivity.
  cbn [py_get bind prueba_categoria prueba_minimo sin_numero y_luego].
  destruct (py_get (dict_get d "architecture" (VDict [])) "tdp" (VDict [])) as [tdp|e];
    [|reflexivity].
  cbn [bind]. destruct (py_get tdp "value" (VNum 999)) as [v|e]; reflexivity.
Qed.

(** X10: with a maximum TDP given, the CPU filter compares the stored TDP
    value of every CPU, reading a missing one as 999: every CPU it returns
    has a numeric TDP value within the maximum, and a single CPU whose TDP
    value is null, as the normaliser writes an unparsable TDP, keeps the
    whole call from returning. *)
Theorem filtrar_cpus_por_tdp :
  forall (cpus : list pyval) (m : Q),
    ~ (m == 0)%Q ->
    (forall l : list pyval,
       filtrar_cpus_por_rendimiento cpus None None None (Some m) = Ok l ->
       (forall cpu, In cpu cpus ->
          exists (v : pyval) (q : Q), tdp_cpu_de cpu = Ok v /\ num_value v = Some q) /\
       (forall cpu, In cpu l ->
          exists (v : pyval) (q : Q),
            tdp_cpu_de cpu = Ok v /\ num_value v = Some q /\ (q <= m)%Q)) /\
    (forall cpu, In cpu cpus -> tdp_cpu_de cpu = Ok VNone ->
       forall l, filtrar_cpus_por_rendimiento cpus None None None (Some m) <> Ok l).
Proof.
  intros cpus m Hm.
  assert (Hnum : forall cpu b, cpu_rinde None None None (Some m) cpu = Ok b ->
            exists v q, tdp_cpu_de cpu = Ok v /\ num_value v = Some q /\
                        (b = true -> (q <= m)%Q)).
  { intros cpu b Hb. rewrite (cpu_rinde_tdp m cpu Hm) in Hb.
    apply bind_ok in Hb; destruct Hb as (metrics & _ & Hb).
    apply bind_ok in Hb; destruct Hb as (v & Hv & Hb).
    apply bind_ok in Hb; destruct Hb as (alto & Halto & Hb). injection Hb as <-.
    exists v.
    assert (Hq : exists q, num_value v = Some q /\ alto = negb (Qle_bool q m)).
    { destruct v as [|c|q|t|xs|d]; cbn in Halto; try discriminate.
      - destruct c; cbn in Halto; injection Halto as <-; eexists; split; reflexivity.
      - injection Halto as <-. eexists; split; reflexivity. }
    destruct Hq as (q & Hq & ->).
    exists q. split; [exact Hv|]. split; [exact Hq|].
    intros H. apply negb_true_iff in H.
    apply negb_false_iff in H. apply Qle_bool_iff in H. exact H. }
  assert (Hall : forall l,
            filtrar_cpus_por_rendimiento cpus None None None (Some m) = Ok l ->
            forall cpu, In cpu cpus ->
              exists b, cpu_rinde None None None (Some m) cpu = Ok b).
  { unfold filtrar_cpus_por_rendimiento. generalize cpus.
    induction cpus0 as [|x xs IH]; intros l H cpu Hin; [contradiction|].
    rewrite seleccionar_cons in H.
    apply bind_ok in H; destruct H as (b & Hb & H).
    apply bind_ok in H; destruct H as (l' & Hl' & H).
    destruct Hin as [<-|Hin]; [exists b; exact Hb | exact (IH l' Hl' cpu Hin)]. }
  split.
  - intros l H. split.
    + intros cpu Hin. destruct (Hall l H cpu Hin) as (b & Hb).
      destruct (Hnum cpu b Hb) as (v & q & Hv & Hq & _). exists v, q. split; assumption.
    + intros cpu Hin. unfold filtrar_cpus_por_rendimiento in H.
      destruct (seleccionar_In _ _ _ H cpu Hin) as [_ Hb].
      destruct (Hnum cpu true Hb) as (v & q & Hv & Hq & Hle).
      exists v, q. repeat split; [exact Hv | exact Hq | exact (Hle eq_refl)].
  - intros cpu Hin Hnull l H.
    destruct (Hall l H cpu Hin) as (b & Hb).
    destruct (Hnum cpu b Hb) as (v & q & Hv & Hq & _).
    rewrite Hnull in Hv. injection Hv as <-. discriminate Hq.
Qed.

Lemma filtrar_cpus_por_tdp_witness :
  exists (v : pyval) (q : Q),
    tdp_cpu_de (nth 1 cpus_rendimiento VNone) = Ok v /\
    num_value v = Some q /\ (q <= 150)%Q.
Proof.
  apply (proj2 (proj1 (filtrar_cpus_por_tdp cpus_rendimiento 150%Q ltac:(discriminate))
                  [nth 0 cpus_rendimiento VNone; nth 1 cpus_rendimiento VNone]
                  eq_refl)).
  simpl. right. left. reflexivity.
Defined.

Lemma py_get_registro (d : pydict) (k : string) (default : pyval) :
  py_get (VDict d) k default = Ok (dict_get d k default).
Proof. reflexivity. Qed.

(** X11: the GPU filter reads the memory size from a top-level [memory]
    key that the GPU normaliser never writes (it stores it under
    [performance.vram]), so on normalised GPU records every positive
    minimum VRAM empties the list. *)
Theorem filtrar_gpus_por_vram_vacio :
  forall (gpus : list pyval) (categoria : option string) (vram_min : Q),
    (0 < vram_min)%Q ->
    Forall registro_gpu_normalizado gpus ->
    filtrar_gpus_por_rendimiento gpus categoria (Some vram_min) = Ok [].
Proof.
  intros gpus categoria v Hv H. unfold filtrar_gpus_por_rendimiento.
  assert (Hcond : Forall (fun gpu => gpu_rinde categoria (Some v) gpu = Ok false) gpus).
  { apply Forall_impl with (2 := H).
    intros gpu (d & -> & Hmem & Hmet). unfold gpu_rinde.
    rewrite !py_get_registro. cbn [bind]. unfold dict_get. rewrite Hmem.
    assert (Hvram : prueba_vram (Some v) (VDict []) = Ok false).
    { unfold prueba_vram, bajo_minimo, sin_numero.
      assert (Qeq_bool v 0 = false) as ->.
      { apply not_true_is_false. intros E. apply Qeq_bool_iff in E. lra. }
      cbn. assert (Qle_bool v 0 = false) as ->; [|reflexivity].
      apply not_true_is_false. intros E. apply Qle_bool_iff in E. lra. }
    rewrite Hvram. unfold y_luego.
    destruct Hmet as [Hm|(m & Hm)]; rewrite Hm;
      (destruct categoria as [c|]; [|reflexivity]);
      cbn [prueba_categoria]; (destruct (String.eqb c ""); [reflexivity|]);
      cbn [py_get bind];
      match goal with |- context [py_eq ?a ?b] => destruct (py_eq a b) end;
      reflexivity. }
  rewrite (seleccionar_filter _ (fun _ => false) gpus Hcond).
  clear. induction gpus as [|x xs IH]; [reflexivity | exact IH].
Qed.

Lemma filtrar_gpus_por_vram_vacio_witness :
  filtrar_gpus_por_rendimiento gpus_normalizadas (Some "budget") (Some 4%Q) = Ok [].
Proof.
  apply (filtrar_gpus_por_vram_vacio gpus_normalizadas (Some "budget") 4%Q).
  - reflexivity.
  - repeat constructor; eexists; (split; [reflexivity|]); (split; [reflexivity|]);
      right; eexists; reflexivity.
Defined.

(** The null-TDP record of the normaliser stops the TDP filter. *)
Example filtrar_cpus_tdp_nulo_lanza :
  filtrar_cpus_por_rendimiento (cpus_rendimiento ++ [cpu_tdp_nulo])
    None None None (Some 150%Q) = Raise TypeError.
Proof. reflexivity. Qed.

(** On a RAM entry whose generation can be read, the type test of
    [filtrar_ram_por_especificaciones] is the comparison of that generation
    with the type asked for. *)
Lemma ram_cumple_tipo (t : string) (ram g : pyval) :
  t <> "" ->
  ram_generation ram = Ok g ->
  ram_cumple None None (Some t) ram = Ok (py_eq g (VStr t)).
Proof.
  intros Ht Hg. unfold ram_cumple, ram_generation in *.
  destruct (py_get ram "memory_specs" (VDict [])) as [specs|e]; [|discriminate].
  cbn [bind] in *.
  change (prueba_valor_minimo "capacity" None specs) with (@Ok bool true).
  change (prueba_valor_minimo "frequency" None specs) with (@Ok bool true).
  cbn [y_luego bind]. unfold prueba_tipo.
  apply String.eqb_neq in Ht. rewrite Ht.
  destruct (py_get specs "ram_type" (VDict [])) as [ram_type|e]; [|discriminate].
  cbn [bind] in *.
  destruct ram_type as [|c|q|u|xs|r]; try discriminate.
  cbn [py_get] in *. injection Hg as <-. unfold dict_get.
  destruct (lookup "generation" r) as [v|]; [reflexivity|].
  cbn [bind py_eq]. rewrite String.eqb_sym, Ht. reflexivity.
Qed.

(** X12: refining the RAM list returned by the motherboard filter by a
    memory type never raises and keeps exactly the entries of that
    generation; asked for a type that is not among the supported types the
    same call returned, it gives the empty list. *)
Theorem filtrar_ram_por_tipo_tras_motherboard :
  forall (datos : catalogo) (socket form_factor : option string)
         (rams tipos : list pyval) (t : string),
    filtrar_ram_por_motherboard datos socket form_factor = Ok (rams, tipos) ->
    t <> "" ->
    exists l : list pyval,
      filtrar_ram_por_especificaciones rams None None (Some t) = Ok l /\
      (forall ram, In ram l <-> In ram rams /\ ram_generation ram = Ok (VStr t)) /\
      (~ In (VStr t) tipos -> l = []).
Proof.
  intros datos socket form_factor rams tipos t H Ht.
  unfold filtrar_ram_por_motherboard in H.
  apply bind_ok in H; destruct H as (tipos' & _ & H).
  apply bind_ok in H; destruct H as (rams' & Hsel & H).
  injection H as <- <-.
  assert (Hgen : forall ram, In ram rams' ->
            exists g, ram_generation ram = Ok g /\ set_mem g tipos' = true).
  { intros ram Hin. destruct (seleccionar_In _ _ _ Hsel ram Hin) as [_ Hc].
    apply bind_ok in Hc; destruct Hc as (g & Hg & Hc).
    exists g. split; [exact Hg|]. unfold set_in in Hc.
    destruct (hashable g); [|discriminate]. injection Hc as ->. reflexivity. }
  set (p := fun ram => match ram_generation ram with
                       | Ok g => py_eq g (VStr t)
                       | Raise _ => false
                       end).
  exists (filter p rams'). split; [|split].
  - unfold filtrar_ram_por_especificaciones. apply seleccionar_filter.
    apply Forall_forall. intros ram Hin.
    destruct (Hgen ram Hin) as (g & Hg & _).
    rewrite (ram_cumple_tipo t ram g Ht Hg). unfold p. rewrite Hg. reflexivity.
  - intros ram. rewrite filter_In. unfold p. split.
    + intros [Hin Hp]. split; [exact Hin|].
      destruct (ram_generation ram) as [g|e]; [|discriminate].
      apply py_eq_str_r in Hp. subst. reflexivity.
    + intros [Hin Hg]. split; [exact Hin|]. rewrite Hg. apply py_eq_str_refl.
  - intros Hno. destruct (filter p rams') as [|ram l] eqn:E; [reflexivity|].
    exfalso. assert (Hin : In ram (filter p rams')) by (rewrite E; left; reflexivity).
    apply filter_In in Hin. destruct Hin as [Hin Hp]. unfold p in Hp.
    destruct (Hgen ram Hin) as (g & Hg & Hmem). rewrite Hg in Hp.
    apply py_eq_str_r in Hp. subst. apply Hno. apply set_mem_str. exact Hmem.
Qed.

Lemma filtrar_ram_por_tipo_tras_motherboard_witness :
  exists l : list pyval,
    filtrar_ram_por_especificaciones [nth 0 (datos_get catalogo_ejemplo "ram") VNone]
      None None (Some "DDR5") = Ok l /\
    (forall ram, In ram l <->
       In ram [nth 0 (datos_get catalogo_ejemplo "ram") VNone] /\
       ram_generation ram = Ok (VStr "DDR5")) /\
    (~ In (VStr "DDR5") [VStr "DDR4"] -> l = []).
Proof.
  apply (filtrar_ram_por_tipo_tras_motherboard catalogo_ejemplo (Some "AM4") (Some "ATX")
           [nth 0 (datos_get catalogo_ejemplo "ram") VNone] [VStr "DDR4"] "DDR5").
  - reflexivity.
  - discriminate.
Defined.

(** ** PSU filter and case *)

(** X13: choosing a case only narrows the PSU list. Whenever the PSU
    filter returns with a case given, it also returns without one for the
    same components, and every PSU returned with the case is returned
    without it; and when the case declares a power-supply form factor, each
    PSU returned either declares none or declares one equal to it as
    written (no trimming, no case folding). *)
Theorem filtrar_psu_case_restringe :
  forall (datos : catalogo) (case_data : pydict) (componentes : option pydict)
         (psus : list pyval),
    filtrar_psu_por_case_y_componentes datos (Some case_data) componentes = Ok psus ->
    (exists todas : list pyval,
       filtrar_psu_por_case_y_componentes datos None componentes = Ok todas /\
       incl psus todas) /\
    (forall soporte : pyval,
       case_data <> [] -> soporte_psu_de case_data = Ok soporte ->
       truthy soporte = true ->
       forall psu, In psu psus ->
         exists formato : pyval,
           py_get psu "form_factor" VNone = Ok formato /\
           (truthy formato = false \/ py_eq soporte formato = true)).
Proof.
  intros datos case_data componentes psus H.
  unfold filtrar_psu_por_case_y_componentes in H.
  apply bind_ok in H; destruct H as (support & Hsup & H).
  apply bind_ok in H; destruct H as (potencia & Hpot & H).
  split.
  - unfold filtrar_psu_por_case_y_componentes. cbn [bind]. rewrite Hpot. cbn [bind].
    refine (seleccionar_monotona _ _ _ _ _ H).
    intros psu b1 Hb1.
    apply bind_ok in Hb1; destruct Hb1 as (ff & Hff & Hb1).
    apply bind_ok in Hb1; destruct Hb1 as (w & Hw & Hb1).
    apply bind_ok in Hb1; destruct Hb1 as (suf & Hsuf & Hb1).
    injection Hb1 as <-.
    rewrite Hff. cbn [bind]. rewrite Hw. cbn [bind]. rewrite Hsuf. cbn [bind truthy andb].
    exists suf. split; [reflexivity|]. intros Hb. apply andb_true_iff in Hb. apply Hb.
  - intros soporte Hne Hs Ht psu Hin.
    assert (support = soporte) as ->.
    { destruct case_data as [|kv rest]; [contradiction|].
      cbn [falsy_dict] in Hsup. unfold soporte_psu_de in Hs.
      rewrite Hs in Hsup. injection Hsup as <-. reflexivity. }
    destruct (seleccionar_In _ _ _ H psu Hin) as [_ Hb].
    apply bind_ok in Hb; destruct Hb as (ff & Hff & Hb).
    apply bind_ok in Hb; destruct Hb as (w & Hw & Hb).
    apply bind_ok in Hb; destruct Hb as (suf & Hsuf & Hb).
    injection Hb as Hb. apply andb_true_iff in Hb. destruct Hb as [Hb _].
    exists ff. split; [exact Hff|]. rewrite Ht in Hb. cbn [andb] in Hb.
    destruct (truthy ff); [right; exact Hb | left; reflexivity].
Qed.

Lemma filtrar_psu_case_restringe_witness :
  (exists todas : list pyval,
     filtrar_psu_por_case_y_componentes catalogo_psus None None = Ok todas /\
     incl [nth 0 (datos_get catalogo_psus "psu") VNone;
           nth 2 (datos_get catalogo_psus "psu") VNone] todas) /\
  (forall soporte : pyval,
     case_sfx <> [] -> soporte_psu_de case_sfx = Ok soporte ->
     truthy soporte = true ->
     forall psu,
       In psu [nth 0 (datos_get catalogo_psus "psu") VNone;
               nth 2 (datos_get catalogo_psus "psu") VNone] ->
       exists formato : pyval,
         py_get psu "form_factor" VNone = Ok formato /\
         (truthy formato = false \/ py_eq soporte formato = true)).
Proof.
  apply (filtrar_psu_case_restringe catalogo_psus case_sfx None).
  reflexivity.
Defined.

(** ** PSU filter and full-build validation *)

(** The PSU entry of a build plays no part in the power budget. *)
Lemma potencia_requerida_sin_psu (psu : pyval) (configuracion : pydict) :
  _calcular_potencia_requerida (Some (("psu", psu) :: configuracion)) =
  _calcular_potencia_requerida (Some configuracion).
Proof. destruct configuracion as [|kv rest]; reflexivity. Qed.

Lemma verificar_cpu_motherboard_sin_psu (psu : pyval) (c : pydict) (r : reporte) :
  verificar_cpu_motherboard (("psu", psu) :: c) r = verificar_cpu_motherboard c r.
Proof. reflexivity. Qed.

Lemma verificar_ram_motherboard_sin_psu (psu : pyval) (c : pydict) (r : reporte) :
  verificar_ram_motherboard (("psu", psu) :: c) r = verificar_ram_motherboard c r.
Proof. reflexivity. Qed.

Lemma verificar_case_motherboard_sin_psu (psu : pyval) (c : pydict) (r : reporte) :
  verificar_case_motherboard (("psu", psu) :: c) r = verificar_case_motherboard c r.
Proof. reflexivity. Qed.

(** A stored wattage that is not 0 sits at [power.wattage.value]. *)
Lemma psu_wattage_value_almacenado (psu : pyval) (w : Q) :
  psu_wattage_value psu = Ok (VNum w) -> (0 < w)%Q ->
  exists d power wattage : pydict,
    psu = VDict d /\ lookup "power" d = Some (VDict power) /\
    lookup "wattage" power = Some (VDict wattage) /\
    lookup "value" wattage = Some (VNum w).
Proof.
  intros H Hw. unfold psu_wattage_value in H.
  destruct psu as [|b|q|t|xs|d]; try discriminate.
  cbn [py_get bind] in H. unfold dict_get in H.
  destruct (lookup "power" d) as [pw|] eqn:Hp.
  - destruct pw as [|b|q|t|xs|power]; try discriminate.
    cbn [py_get bind] in H. unfold dict_get in H.
    destruct (lookup "wattage" power) as [wt|] eqn:Hwt.
    + destruct wt as [|b|q|t|xs|wattage]; try discriminate.
      cbn [py_get] in H. unfold dict_get in H.
      destruct (lookup "value" wattage) as [v|] eqn:Hv.
      * injection H as ->. exists d, power, wattage. repeat split; assumption.
      * injection H as <-. exfalso. revert Hw. apply Qlt_irrefl.
    + cbn in H. injection H as <-. exfalso. revert Hw. apply Qlt_irrefl.
  - cbn in H. injection H as <-. exfalso. revert Hw. apply Qlt_irrefl.
Qed.

(** X14: the PSU filter and the full-build validation agree. Adding to a
    build without a PSU one of the PSUs the filter returned for that build
    leaves the validation as it was without the PSU: the same report, with
    no PSU error and no PSU warning added, or the same exception. *)
Theorem psu_filtrada_no_cambia_reporte :
  forall (datos : catalogo) (case_data : option pydict) (configuracion : pydict)
         (psus : list pyval) (psu : pyval),
    filtrar_psu_por_case_y_componentes datos case_data (Some configuracion) = Ok psus ->
    In psu psus ->
    has_key "psu" configuracion = false ->
    verificar_compatibilidad_completa (("psu", psu) :: configuracion) =
    verificar_compatibilidad_completa configuracion.
Proof.
  intros datos case_data c psus psu H Hin Hno.
  unfold filtrar_psu_por_case_y_componentes in H.
  apply bind_ok in H; destruct H as (support & _ & H).
  apply bind_ok in H; destruct H as (potencia & Hpot & H).
  pose proof (potencia_minima _ _ Hpot) as Hmin.
  destruct (seleccionar_In _ _ _ H psu Hin) as [_ Hb].
  apply bind_ok in Hb; destruct Hb as (ff & _ & Hb).
  apply bind_ok in Hb; destruct Hb as (v & Hv & Hb).
  apply bind_ok in Hb; destruct Hb as (suf & Hsuf & Hb).
  injection Hb as Hb. apply andb_true_iff in Hb. destruct Hb as [_ ->].
  apply py_ge_num in Hsuf.
  destruct Hsuf as [(w & -> & Hw)|(b & _ & Hw)]; [|exfalso; lra].
  destruct (psu_wattage_value_almacenado psu w Hv ltac:(lra))
    as (d & power & wattage & -> & Hp & Hwt & Hval).
  assert (Hcon : forall r, verificar_potencia_psu (("psu", VDict d) :: c) r = Ok r).
  { intros r.
    refine (proj2 (proj2 (verificar_potencia_psu_umbrales
              (("psu", VDict d) :: c) d power wattage w potencia r
              eq_refl Hp Hwt Hval ltac:(lra) _)) Hw).
    rewrite potencia_requerida_sin_psu. exact Hpot. }
  assert (Hsin : forall r, verificar_potencia_psu c r = Ok r).
  { intros r. unfold verificar_potencia_psu. rewrite Hno. reflexivity. }
  unfold verificar_compatibilidad_completa.
  rewrite verificar_cpu_motherboard_sin_psu.
  destruct (verificar_cpu_motherboard c reporte_inicial) as [r1|e]; [|reflexivity].
  cbn [bind]. rewrite verificar_ram_motherboard_sin_psu.
  destruct (verificar_ram_motherboard c r1) as [r2|e]; [|reflexivity].
  cbn [bind]. rewrite verificar_case_motherboard_sin_psu.
  destruct (verificar_case_motherboard c r2) as [r3|e]; [|reflexivity].
  cbn [bind]. rewrite Hcon, Hsin. reflexivity.
Qed.

Lemma psu_filtrada_no_cambia_reporte_witness :
  verificar_compatibilidad_completa
    (("psu", nth 1 (datos_get catalogo_psus "psu") VNone) :: build_sin_psu) =
  verificar_compatibilidad_completa build_sin_psu.
Proof.
  apply (psu_filtrada_no_cambia_reporte catalogo_psus None build_sin_psu
           [nth 0 (datos_get catalogo_psus "psu") VNone;
            nth 1 (datos_get catalogo_psus "psu") VNone]).
  - reflexivity.
  - right. left. reflexivity.
  - reflexivity.
Defined.

(** ** Filters and full-build validation *)

Lemma verificar_cpu_motherboard_filtrada
  (cfg : pydict) (s : string) (cpu mb : pyval) (r : reporte) :
  lookup "cpu" cfg = Some cpu -> lookup "motherboard" cfg = Some mb ->
  socket_cpu_de cpu = Ok (VStr s) -> socket_es s mb = Ok true ->
  verificar_cpu_motherboard cfg r = Ok r.
Proof.
  intros Hc Hm Hs Hmb. unfold verificar_cpu_motherboard.
  destruct (lookup_has_key _ _ _ Hc) as [-> ->].
  destruct (lookup_has_key _ _ _ Hm) as [-> ->].
  cbn [andb bind]. unfold socket_cpu_de in Hs.
  destruct (py_get cpu "architecture" (VDict [])) as [arch|e]; [|discriminate].
  cbn [bind] in *. rewrite Hs. cbn [bind].
  unfold socket_es in Hmb.
  destruct (py_get mb "platform" (VDict [])) as [platform|e]; [|discriminate].
  cbn [bind] in *.
  destruct (py_get platform "socket" VNone) as [mb_socket|e]; [|discriminate].
  cbn [bind] in *. injection Hmb as Hmb. apply py_eq_str_r in Hmb. subst mb_socket.
  rewrite py_eq_str_refl. reflexivity.
Qed.

Lemma verificar_case_motherboard_filtrada
  (cfg : pydict) (case mb ff : pyval) (r : reporte) :
  lookup "case" cfg = Some case -> lookup "motherboard" cfg = Some mb ->
  form_factor_de mb = Ok ff ->
  (compatibility <- py_get case "compatibility" (VDict []) ;;
   motherboard_support <- py_get compatibility "motherboard" (VStr "") ;;
   _es_case_compatible_con_motherboard motherboard_support ff) = Ok true ->
  verificar_case_motherboard cfg r = Ok r.
Proof.
  intros Hc Hm Hff Hcase. unfold verificar_case_motherboard.
  destruct (lookup_has_key _ _ _ Hc) as [-> ->].
  destruct (lookup_has_key _ _ _ Hm) as [-> ->].
  cbn [andb bind]. unfold form_factor_de in Hff.
  destruct (py_get case "compatibility" (VDict [])) as [compat|e]; [|discriminate].
  cbn [bind] in *.
  destruct compat as [|b|q|t|xs|d]; try discriminate.
  cbn [py_get bind] in *. rewrite Hff. cbn [bind].
  unfold dict_get in *.
  destruct (truthy ff) eqn:Tf;
    [|rewrite (es_case_falsy _ ff (or_intror Tf)) in Hcase; discriminate].
  destruct (lookup "motherboard" d) as [soporte|];
    [|rewrite (es_case_falsy (VStr "") ff (or_introl eq_refl)) in Hcase; discriminate].
  destruct (truthy soporte) eqn:Ts;
    [|rewrite (es_case_falsy soporte ff (or_introl Ts)) in Hcase; discriminate].
  cbn [andb]. rewrite Hcase. reflexivity.
Qed.

(** X15: the filters and the full-build validation agree. A build made of
    a CPU, a motherboard the socket filter returned for that CPU's socket
    and a case the case filter returned for that motherboard's form factor
    (no RAM, no PSU yet) validates with the clean report: compatible, no
    error, no warning. *)
Theorem build_filtrada_es_compatible :
  forall (datos : catalogo) (configuracion : pydict) (s : string)
         (cpu mb case ff : pyval) (mbs cases : list pyval),
    lookup "cpu" configuracion = Some cpu ->
    lookup "motherboard" configuracion = Some mb ->
    lookup "case" configuracion = Some case ->
    has_key "ram" configuracion = false ->
    has_key "psu" configuracion = false ->
    socket_cpu_de cpu = Ok (VStr s) ->
    filtrar_motherboards_por_socket datos s = Ok mbs -> In mb mbs ->
    form_factor_de mb = Ok ff ->
    filtrar_cases_por_motherboard_form_factor datos ff = Ok cases -> In case cases ->
    verificar_compatibilidad_completa configuracion = Ok reporte_inicial.
Proof.
  intros datos cfg s cpu mb case ff mbs cases Hc Hm Hk Hram Hpsu Hs Hmbs Hmb Hff
    Hcases Hcase.
  destruct (seleccionar_In _ _ _ Hmbs mb Hmb) as [_ Hsock].
  destruct (seleccionar_In _ _ _ Hcases case Hcase) as [_ Hsup].
  unfold verificar_compatibilidad_completa.
  rewrite (verificar_cpu_motherboard_filtrada cfg s cpu mb _ Hc Hm Hs Hsock).
  cbn [bind]. unfold verificar_ram_motherboard at 1. rewrite Hram. cbn [andb bind].
  rewrite (verificar_case_motherboard_filtrada cfg case mb ff _ Hk Hm Hff Hsup).
  cbn [bind]. unfold verificar_potencia_psu. rewrite Hpsu. reflexivity.
Qed.

Lemma build_filtrada_es_compatible_witness :
  verificar_compatibilidad_completa
    [("cpu", nth 0 (datos_get catalogo_completo "cpu") VNone);
     ("motherboard", nth 0 (datos_get catalogo_completo "motherboard") VNone);
     ("case", nth 0 (datos_get catalogo_completo "case") VNone)] = Ok reporte_inicial.
Proof.
  apply (build_filtrada_es_compatible catalogo_completo _ "AM4"
           (nth 0 (datos_get catalogo_completo "cpu") VNone)
           (nth 0 (datos_get catalogo_completo "motherboard") VNone)
           (nth 0 (datos_get catalogo_completo "case") VNone)
           (VStr "ATX")
           [nth 0 (datos_get catalogo_completo "motherboard") VNone;
            nth 3 (datos_get catalogo_completo "motherboard") VNone]
           [nth 0 (datos_get catalogo_completo "case") VNone]);
    try reflexivity; left; reflexivity.
Defined.

(** ** Physical validation on normalised records *)

Lemma py_gt_cero_cero (b : bool) :
  (if b then py_gt (VNum 0) (VNum 0) else Ok false) = Ok false.
Proof. destruct b; reflexivity. Qed.

Lemma sin_dimensions_valor (v : pyval) (k : string) :
  sin_dimensions v ->
  (dimensions <- py_get v "dimensions" (VDict []) ;;
   campo <- py_get dimensions k (VDict []) ;;
   py_get campo "value" (VNum 0)) = Ok (VNum 0).
Proof.
  intros (d & -> & H). cbn [py_get bind]. unfold dict_get. rewrite H. reflexivity.
Qed.

Lemma config_get_truthy (cfg : pydict) (k : string) :
  truthy (config_get cfg k VNone) = true ->
  lookup k cfg = Some (config_get cfg k VNone).
Proof.
  unfold config_get, dict_get. destruct (lookup k cfg) as [v|]; [reflexivity|discriminate].
Qed.

Lemma validar_gpu_case_sin_largo (case gpu : pyval) (r r' : reporte) :
  (truthy gpu = true -> sin_dimensions gpu) ->
  validar_gpu_case case gpu r = Ok r' -> r' = r.
Proof.
  intros Hg H. unfold validar_gpu_case in H.
  destruct (truthy case && truthy gpu) eqn:T; [|injection H as <-; reflexivity].
  apply andb_true_iff in T. destruct T as [_ Tg].
  apply bind_ok in H; destruct H as (L & _ & H).
  apply bind_ok in H; destruct H as (g & Hgl & H).
  unfold gpu_length_de in Hgl. rewrite (sin_dimensions_valor gpu "length" (Hg Tg)) in Hgl.
  injection Hgl as <-.
  apply bind_ok in H; destruct H as (b & _ & H).
  rewrite py_gt_cero_cero in H. cbn [bind] in H. injection H as <-. reflexivity.
Qed.

Lemma validar_cooler_case_sin_alto (case cooler : pyval) (r r' : reporte) :
  (truthy cooler = true -> sin_dimensions cooler) ->
  validar_cooler_case case cooler r = Ok r' -> r' = r.
Proof.
  intros Hc H. unfold validar_cooler_case in H.
  destruct (truthy case && truthy cooler) eqn:T; [|injection H as <-; reflexivity].
  apply andb_true_iff in T. destruct T as [_ Tc].
  destruct (Hc Tc) as (d & -> & Hd).
  apply bind_ok in H; destruct H as (compat & _ & H).
  apply bind_ok in H; destruct H as (sup & _ & H).
  apply bind_ok in H; destruct H as (maxh & _ & H).
  cbn [py_get bind] in H. unfold dict_get at 1 in H. rewrite Hd in H.
  cbn [py_get bind dict_get lookup] in H.
  apply bind_ok in H; destruct H as (b & _ & H).
  rewrite py_gt_cero_cero in H. cbn [bind] in H. injection H as <-. reflexivity.
Qed.

(** X16: the physical validation reads the GPU length and the cooler height
    under a [dimensions] key. On records without that key, which is the
    layout the GPU and cooler normalisers write, it never flags anything:
    whenever it returns, the report is the clean one, and it does return it
    when the case's two limits are numbers, however long the GPU or tall
    the cooler is recorded elsewhere in the record. *)
Theorem validar_dimensiones_sin_dimensions :
  forall configuracion : pydict,
    (forall gpu, lookup "gpu" configuracion = Some gpu -> sin_dimensions gpu) ->
    (forall cooler, lookup "cpu_cooler" configuracion = Some cooler ->
       sin_dimensions cooler) ->
    (forall r, validar_dimensiones_fisicas configuracion = Ok r -> r = reporte_inicial) /\
    (forall (case : pyval) (L H : Q),
       lookup "case" configuracion = Some case ->
       max_gpu_length_de case = Ok (VNum L) ->
       max_cooler_height_de case = Ok (VNum H) ->
       validar_dimensiones_fisicas configuracion = Ok reporte_inicial).
Proof.
  intros cfg Hgpu Hcooler.
  assert (Hg : truthy (config_get cfg "gpu" VNone) = true ->
               sin_dimensions (config_get cfg "gpu" VNone)).
  { intros T. apply Hgpu. apply config_get_truthy. exact T. }
  assert (Hc : truthy (config_get cfg "cpu_cooler" VNone) = true ->
               sin_dimensions (config_get cfg "cpu_cooler" VNone)).
  { intros T. apply Hcooler. apply config_get_truthy. exact T. }
  assert (Hlimpio : forall r, validar_dimensiones_fisicas cfg = Ok r -> r = reporte_inicial).
  { intros r H. unfold validar_dimensiones_fisicas in H.
    apply bind_ok in H; destruct H as (r1 & H1 & H).
    apply bind_ok in H; destruct H as (r2 & H2 & H). injection H as <-.
    apply (validar_gpu_case_sin_largo _ _ _ _ Hg) in H1. subst r1.
    apply (validar_cooler_case_sin_alto _ _ _ _ Hc) in H2. exact H2. }
  split; [exact Hlimpio|].
  intros case L H Hcase HL HH.
  assert (exists r, validar_dimensiones_fisicas cfg = Ok r) as (r & Hr).
  { unfold validar_dimensiones_fisicas.
    assert (Ecase : config_get cfg "case" VNone = case).
    { unfold config_get, dict_get. rewrite Hcase. reflexivity. }
    rewrite Ecase.
    assert (H1 : validar_gpu_case case (config_get cfg "gpu" VNone) reporte_inicial =
                 Ok reporte_inicial).
    { unfold validar_gpu_case.
      destruct (truthy case && truthy (config_get cfg "gpu" VNone)) eqn:T; [|reflexivity].
      apply andb_true_iff in T. destruct T as [_ Tg].
      rewrite HL. unfold gpu_length_de.
      rewrite (sin_dimensions_valor _ "length" (Hg Tg)). cbn [bind].
      destruct (py_gt (VNum L) (VNum 0)) as [b|e] eqn:E; [|discriminate E].
      cbn [bind]. rewrite py_gt_cero_cero. reflexivity. }
    rewrite H1. cbn [bind].
    assert (H2 : validar_cooler_case case (config_get cfg "cpu_cooler" VNone)
                   reporte_inicial = Ok reporte_inicial).
    { unfold validar_cooler_case.
      destruct (truthy case && truthy (config_get cfg "cpu_cooler" VNone)) eqn:T;
        [|reflexivity].
      apply andb_true_iff in T. destruct T as [_ Tc].
      unfold max_cooler_height_de in HH.
      destruct (py_get case "compatibility" (VDict [])) as [compat|e]; [|discriminate].
      cbn [bind] in *.
      destruct (py_get compat "supported_cpu_cooler_height" (VDict [])) as [sup|e];
        [|discriminate].
      cbn [bind] in *. rewrite HH. cbn [bind].
      destruct (Hc Tc) as (d & -> & Hd).
      cbn [py_get bind]. unfold dict_get at 1. rewrite Hd.
      cbn [py_get bind dict_get lookup].
      destruct (py_gt (VNum H) (VNum 0)) as [b|e] eqn:E; [|discriminate E].
      cbn [bind]. rewrite py_gt_cero_cero. reflexivity. }
    rewrite H2. eexists. reflexivity. }
  rewrite Hr. f_equal. exact (Hlimpio r Hr).
Qed.

Lemma validar_dimensiones_sin_dimensions_witness :
  validar_dimensiones_fisicas build_normalizada = Ok reporte_inicial.
Proof.
  apply (proj2 (validar_dimensiones_sin_dimensions build_normalizada
                  ltac:(intros gpu [= <-]; eexists; split; reflexivity)
                  ltac:(intros cooler [= <-]; eexists; split; reflexivity))
           (dict_get build_normalizada "case" VNone) 315%Q 170%Q);
    reflexivity.
Defined.

(** ** Filter settings *)

Lemma Arquitectura_de_valor_Some (v : pyval) (a : Arquitectura.t) :
  Arquitectura.de_valor v = Some a -> v = VStr (Arquitectura.value a).
Proof.
  destruct v as [|b|q|t|xs|d]; try discriminate. cbn [Arquitectura.de_valor].
  destruct (String.eqb_spec t "AMD") as [->|_]; [intros [= <-]; reflexivity|].
  destruct (String.eqb_spec t "Intel") as [->|_]; [intros [= <-]; reflexivity|].
  discriminate.
Qed.

(** X17: a filter setting survives the trip through its dict: building a
    filter from [to_dict] of a filter gives that filter back. In the other
    direction, a selection is turned into a filter unless its architecture
    is a truthy value other than 'AMD' and 'Intel'; the filter's dict then
    repeats the selection on the five copied keys (a missing key as None)
    and holds the architecture, or None where the selection's was falsy. *)
Theorem filtro_ida_y_vuelta :
  (forall f : FiltroCompatibilidad, crear_filtro_desde_seleccion (to_dict f) = Some f) /\
  (forall seleccion : pydict,
     crear_filtro_desde_seleccion seleccion = None <->
     truthy (dict_get seleccion "arquitectura" VNone) = true /\
     dict_get seleccion "arquitectura" VNone <> VStr "AMD" /\
     dict_get seleccion "arquitectura" VNone <> VStr "Intel") /\
  (forall (seleccion : pydict) (f : FiltroCompatibilidad),
     crear_filtro_desde_seleccion seleccion = Some f ->
     (forall k, In k claves_copiadas ->
        lookup k (to_dict f) = Some (dict_get seleccion k VNone)) /\
     lookup "arquitectura" (to_dict f) =
     Some (if truthy (dict_get seleccion "arquitectura" VNone)
           then dict_get seleccion "arquitectura" VNone else VNone)).
Proof.
  split; [|split].
  - intros [[[|]|] s m r p c]; reflexivity.
  - intros sel. unfold crear_filtro_desde_seleccion.
    destruct (truthy (dict_get sel "arquitectura" VNone)) eqn:T.
    + destruct (Arquitectura.de_valor (dict_get sel "arquitectura" VNone)) as [a|] eqn:E.
      * apply Arquitectura_de_valor_Some in E.
        split; [discriminate|]. intros (_ & HA & HI). exfalso.
        destruct a; [exact (HA E) | exact (HI E)].
      * split; [|reflexivity]. intros _.
        split; [reflexivity|].
        split; intros E'; rewrite E' in E; discriminate E.
    + split; [discriminate | intros [H _]; discriminate H].
  - intros sel f H. unfold crear_filtro_desde_seleccion in H.
    destruct (truthy (dict_get sel "arquitectura" VNone)) eqn:T.
    + destruct (Arquitectura.de_valor (dict_get sel "arquitectura" VNone)) as [a|] eqn:E;
        [|discriminate H].
      apply Arquitectura_de_valor_Some in E. injection H as <-.
      split; [|cbn [to_dict lookup String.eqb Ascii.eqb Bool.eqb arquitectura];
               rewrite E; reflexivity].
      intros k [<-|[<-|[<-|[<-|[<-|[]]]]]]; reflexivity.
    + injection H as <-. split; [|reflexivity].
      intros k [<-|[<-|[<-|[<-|[<-|[]]]]]]; reflexivity.
Qed.

Lemma filtro_ida_y_vuelta_witness :
  crear_filtro_desde_seleccion
    (to_dict {| arquitectura := Some Arquitectura.INTEL;
                socket_cpu := VStr "LGA1700";
                motherboard_form_factor := VStr "ATX";
                ram_type := VNone; psu_form_factor := VNone;
                case_form_factor := VNone |}) =
  Some {| arquitectura := Some Arquitectura.INTEL;
          socket_cpu := VStr "LGA1700";
          motherboard_form_factor := VStr "ATX";
          ram_type := VNone; psu_form_factor := VNone;
          case_form_factor := VNone |}.
Proof. apply (proj1 filtro_ida_y_vuelta). Defined.

(** ** Cooling check *)




(** ** Formatting for the interface *)

(** X19: what the formatted record says about the component itself. The
    four identity keys always come from the component ([id] is the MPN, or
    the name when there is no MPN key, or 'Unknown'). The key [tipo] holds
    the type that was passed for every type but 'ram': for a RAM module it
    is overwritten with the memory generation (such as 'DDR4', or '' when
    the record has none), so the result no longer says it is a RAM. *)
Theorem formatear_tipo_y_claves_base :
  forall (componente : pydict) (tipo : string) (r : pydict),
    formatear_componente_para_ui componente tipo = Ok r ->
    (forall k, In k claves_base -> lookup k r = lookup k (base_info_de componente tipo)) /\
    (tipo <> "ram" -> lookup "tipo" r = Some (VStr tipo)) /\
    (tipo = "ram" ->
     exists g : pyval,
       get3 (VDict componente) "memory_specs" "ram_type" "generation" (VStr "") = Ok g /\
       lookup "tipo" r = Some g).
Proof.
  intros componente tipo r H. unfold formatear_componente_para_ui in H.
  destruct (String.eqb_spec tipo "ram") as [->|Hram].
  - cbn [String.eqb Ascii.eqb Bool.eqb] in H.
    apply bind_ok in H; destruct H as (g & Hg & H). run_ok H.
    split; [|split].
    + intros k [<-|[<-|[<-|[<-|[]]]]]; reflexivity.
    + intros N. contradiction N. reflexivity.
    + intros _. exists g. split; [exact Hg | reflexivity].
  - assert (Hres : (forall k, In k claves_base ->
                      lookup k r = lookup k (base_info_de componente tipo)) /\
                   lookup "tipo" r = Some (VStr tipo)).
    { cbv iota in H.
      run_ok H;
        (split; [intros k [<-|[<-|[<-|[<-|[]]]]]; reflexivity | reflexivity]). }
    destruct Hres as [Hb Ht]. split; [exact Hb|]. split; [intros _; exact Ht|].
    intros E. apply String.eqb_neq in Hram. rewrite E in Hram. discriminate Hram.
Qed.

Lemma formatear_tipo_y_claves_base_witness :
  exists g : pyval,
    get3 (VDict ram_ejemplo) "memory_specs" "ram_type" "generation" (VStr "") = Ok g /\
    lookup "tipo"
      (dict_update (base_info_de ram_ejemplo "ram")
         [("tipo", VStr "DDR4"); ("capacidad", VNum 16); ("capacidad_unit", VStr "GB");
          ("frecuencia", VNum 0); ("sticks", VNum 2); ("timings", VStr "")]) = Some g.
Proof.
  apply (proj2 (proj2 (formatear_tipo_y_claves_base ram_ejemplo "ram" _ eq_refl))).
  reflexivity.
Defined.

(** ** Connectivity check *)





(** ** Socket families of a cooler *)

Lemma en_alguna_familia (f : familia) : en_intel f || en_amd f = true.
Proof. destruct f; reflexivity. Qed.

(** X21: grouping a cooler's sockets by family loses none and invents
    none. Every socket read from the row is in the Intel list or in the AMD
    list, every member of either list is a socket of the row, and so the
    analysis says the cooler supports Intel or AMD exactly when the row
    names at least one socket. *)
Theorem familias_cubren_los_sockets :
  forall row : list (string * string),
    let sockets := from_string (table_get row "Supported Sockets" "") in
    let analisis := _analyze_compatibility row in
    (forall s, In s sockets ->
       In s (intel (families analisis)) \/ In s (amd (families analisis))) /\
    (forall s, In s (intel (families analisis)) \/ In s (amd (families analisis)) ->
       In s sockets) /\
    (supports_intel analisis || supports_amd analisis = true <-> sockets <> []).
Proof.
  intros row sockets analisis.
  assert (Hf : families analisis =
               {| intel := filter (fun s => en_intel (familia_codigo s)) sockets;
                  amd := filter (fun s => en_amd (familia_codigo s)) sockets |}).
  { subst analisis. unfold _analyze_compatibility. cbn [families].
    apply get_socket_families_filter. }
  assert (Hcubre : forall s, In s sockets ->
            In s (intel (families analisis)) \/ In s (amd (families analisis))).
  { intros s Hin. rewrite Hf. cbn [intel amd].
    pose proof (en_alguna_familia (familia_codigo s)) as H.
    apply orb_true_iff in H. destruct H as [H|H]; [left|right];
      apply filter_In; split; assumption. }
  split; [exact Hcubre|]. split.
  - intros s. rewrite Hf. cbn [intel amd].
    intros [H|H]; apply filter_In in H; apply H.
  - assert (Es : supports_intel analisis = Nat.ltb 0 (length (intel (families analisis))))
      by reflexivity.
    assert (Ea : supports_amd analisis = Nat.ltb 0 (length (amd (families analisis))))
      by reflexivity.
    rewrite Es, Ea. split.
    + intros H E. rewrite Hf, E in H. discriminate H.
    + intros H. destruct sockets as [|s rest] eqn:E; [contradiction H; reflexivity|].
      destruct (Hcubre s (or_introl eq_refl)) as [Hin|Hin].
      * destruct (intel (families analisis)); [contradiction|reflexivity].
      * destruct (amd (families analisis)); [contradiction|].
        apply orb_true_r.
Qed.

(** ** Reading and writing a socket list *)

Lemma append_vacio_r (s : string) : (s ++ "")%string = s.
Proof. induction s as [|c s IH]; [reflexivity|]. cbn. rewrite IH. reflexivity. Qed.

Lemma append_asociativa (a b c : string) : ((a ++ b) ++ c)%string = (a ++ (b ++ c))%string.
Proof. induction a as [|x a IH]; [reflexivity|]. cbn. rewrite IH. reflexivity. Qed.

Lemma rev_string_rev_string (s a b : string) :
  rev_string a (rev_string b s) = rev_string (s ++ a)%string b.
Proof.
  revert a b. induction s as [|c s IH]; intros a b; [reflexivity|].
  cbn [rev_string]. rewrite IH. reflexivity.
Qed.

Lemma rev_string_involutiva (s : string) : rev_string "" (rev_string "" s) = s.
Proof. rewrite rev_string_rev_string. cbn. apply append_vacio_r. Qed.

Lemma rev_string_acc (s acc : string) :
  rev_string acc s = (rev_string "" s ++ acc)%string.
Proof.
  revert acc. induction s as [|c s IH]; intros acc; [reflexivity|].
  cbn [rev_string]. rewrite IH, (IH (String c "")), append_asociativa. reflexivity.
Qed.

Lemma rev_string_append (u v acc : string) :
  rev_string acc (u ++ v)%string = rev_string (rev_string acc u) v.
Proof.
  revert acc. induction u as [|c u IH]; intros acc; [reflexivity|].
  cbn. apply IH.
Qed.

Lemma rev_string_vacio (s : string) : rev_string "" s = "" -> s = "".
Proof.
  destruct s as [|c s]; [reflexivity|]. cbn [rev_string]. rewrite rev_string_acc.
  destruct (rev_string "" s); discriminate.
Qed.

Lemma lstrip_idempotente (s : string) : lstrip (lstrip s) = lstrip s.
Proof.
  induction s as [|c s IH]; [reflexivity|]. cbn [lstrip].
  destruct (is_space c) eqn:E; [exact IH|]. cbn [lstrip]. rewrite E. reflexivity.
Qed.

Lemma rstrip_idempotente (s : string) : rstrip (rstrip s) = rstrip s.
Proof.
  unfold rstrip. rewrite rev_string_involutiva, lstrip_idempotente. reflexivity.
Qed.

Lemma lstrip_append_char (t : string) (c : ascii) :
  lstrip (t ++ String c "")%string =
  match lstrip t with
  | EmptyString => if is_space c then ""%string else String c ""
  | _ => (lstrip t ++ String c "")%string
  end.
Proof.
  induction t as [|x t IH]; [reflexivity|]. cbn [String.append lstrip].
  destruct (is_space x); [exact IH | reflexivity].
Qed.

(** [rstrip] read from the front of the string. *)
Lemma rstrip_cons (c : ascii) (s : string) :
  rstrip (String c s) =
  match rstrip s with
  | EmptyString => if is_space c then ""%string else String c ""
  | _ => String c (rstrip s)
  end.
Proof.
  unfold rstrip. cbn [rev_string]. rewrite (rev_string_acc s (String c "")).
  rewrite lstrip_append_char.
  destruct (lstrip (rev_string "" s)) as [|x t] eqn:E.
  - cbn [rev_string]. destruct (is_space c); reflexivity.
  - rewrite rev_string_append.
    destruct (rev_string "" (String x t)) as [|y u] eqn:E'.
    + apply rev_string_vacio in E'. discriminate E'.
    + reflexivity.
Qed.

Lemma lstrip_rstrip (s : string) : lstrip (rstrip s) = rstrip (lstrip s).
Proof.
  induction s as [|c s IH]; [reflexivity|].
  cbn [lstrip]. destruct (is_space c) eqn:E.
  - rewrite rstrip_cons, E. rewrite <- IH.
    destruct (rstrip s) as [|x t]; [reflexivity|].
    cbn [lstrip]. rewrite E. reflexivity.
  - rewrite rstrip_cons, E.
    destruct (rstrip s) as [|x t]; cbn [lstrip]; rewrite E; reflexivity.
Qed.

Lemma py_strip_idempotente (s : string) : py_strip (py_strip s) = py_strip s.
Proof.
  unfold py_strip. rewrite lstrip_rstrip, lstrip_idempotente, rstrip_idempotente.
  reflexivity.
Qed.

Lemma lstrip_py_strip (s : string) : lstrip (py_strip s) = py_strip s.
Proof. unfold py_strip. rewrite lstrip_rstrip, lstrip_idempotente. reflexivity. Qed.

Lemma lstrip_length (s : string) : (String.length (lstrip s) <= String.length s)%nat.
Proof.
  induction s as [|c s IH]; [apply le_n|]. cbn [lstrip].
  destruct (is_space c); [cbn [String.length]; apply le_S; exact IH | apply le_n].
Qed.

(** A stripped, non-empty name starts with a character that is not
    whitespace. *)
Lemma limpio_empieza (c : ascii) (s : string) :
  py_strip (String c s) = String c s -> is_space c = false.
Proof.
  intros H. destruct (is_space c) eqn:E; [|reflexivity]. exfalso.
  pose proof (lstrip_py_strip (String c s)) as L. rewrite H in L.
  cbn [lstrip] in L. rewrite E in L.
  pose proof (lstrip_length s) as Hlen. rewrite L in Hlen. cbn [String.length] in Hlen.
  lia.
Qed.


Lemma py_contains_coma (s : string) : py_contains "," s = negb (sin_coma s).
Proof.
  induction s as [|c s IH]; [reflexivity|].
  cbn [py_contains sin_coma String.prefix]. rewrite IH.
  destruct (ascii_dec "," c) as [<-|N].
  - destruct s; reflexivity.
  - destruct (Ascii.eqb_spec c ",") as [->|_]; [contradiction N; reflexivity|].
    reflexivity.
Qed.

Lemma sin_coma_append (a b : string) :
  sin_coma (a ++ b)%string = sin_coma a && sin_coma b.
Proof.
  induction a as [|c a IH]; [reflexivity|]. cbn [String.append sin_coma].
  rewrite IH, andb_assoc. reflexivity.
Qed.

Lemma sin_coma_rev_string (s acc : string) :
  sin_coma (rev_string acc s) = sin_coma acc && sin_coma s.
Proof.
  revert acc. induction s as [|c s IH]; intros acc; cbn [rev_string sin_coma].
  - rewrite andb_true_r. reflexivity.
  - rewrite IH. cbn [sin_coma].
    destruct (negb (Ascii.eqb c ",")), (sin_coma acc), (sin_coma s); reflexivity.
Qed.

Lemma sin_coma_lstrip (s : string) : sin_coma s = true -> sin_coma (lstrip s) = true.
Proof.
  induction s as [|c s IH]; [reflexivity|]. cbn [lstrip].
  destruct (is_space c); [|exact (fun H => H)].
  cbn [sin_coma]. intros H. apply andb_true_iff in H. apply IH, H.
Qed.

Lemma sin_coma_py_strip (s : string) : sin_coma s = true -> sin_coma (py_strip s) = true.
Proof.
  intros H. unfold py_strip, rstrip.
  rewrite sin_coma_rev_string. cbn [sin_coma andb].
  apply sin_coma_lstrip. rewrite sin_coma_rev_string. cbn [sin_coma andb].
  apply sin_coma_lstrip. exact H.
Qed.

(** The pieces of [split(',')] hold no comma. *)
Lemma split_comma_sin_coma (s cur x : string) :
  sin_coma cur = true -> In x (split_comma cur s) -> sin_coma x = true.
Proof.
  revert cur. induction s as [|c s IH]; intros cur Hcur; cbn [split_comma].
  - intros [<-|[]]. rewrite sin_coma_rev_string. rewrite Hcur. reflexivity.
  - destruct (Ascii.eqb_spec c ",") as [->|N].
    + intros [<-|Hin].
      * rewrite sin_coma_rev_string. rewrite Hcur. reflexivity.
      * exact (IH "" eq_refl Hin).
    + apply IH. cbn [sin_coma]. rewrite Hcur.
      apply Ascii.eqb_neq in N. rewrite N. reflexivity.
Qed.

Lemma split_comma_una_pieza (s cur : string) :
  sin_coma s = true -> split_comma cur s = [rev_string "" (rev_string cur s)].
Proof.
  revert cur. induction s as [|c s IH]; intros cur H; [reflexivity|].
  cbn [sin_coma] in H. apply andb_true_iff in H. destruct H as [Hc Hs].
  cbn [split_comma rev_string]. apply negb_true_iff in Hc. rewrite Hc. apply IH, Hs.
Qed.

Lemma split_comma_append (s t cur : string) :
  sin_coma s = true ->
  split_comma cur (s ++ String "," t)%string =
  rev_string "" (rev_string cur s) :: split_comma "" t.
Proof.
  revert cur. induction s as [|c s IH]; intros cur H; [reflexivity|].
  cbn [sin_coma] in H. apply andb_true_iff in H. destruct H as [Hc Hs].
  cbn [String.append split_comma rev_string]. apply negb_true_iff in Hc. rewrite Hc.
  apply IH, Hs.
Qed.

Lemma split_comma_py_join (rest : list string) (pre s : string) :
  sin_coma pre = true -> Forall (fun x => sin_coma x = true) (s :: rest) ->
  split_comma "" (pre ++ py_join ", " (s :: rest))%string =
  (pre ++ s)%string :: map (String.append " ") rest.
Proof.
  revert pre s. induction rest as [|s' rest IH]; intros pre s Hpre H.
  - cbn [py_join map]. rewrite split_comma_una_pieza.
    + rewrite rev_string_involutiva. reflexivity.
    + rewrite sin_coma_append, Hpre. inversion H; subst. assumption.
  - inversion H as [|? ? Hs H']; subst.
    change (py_join ", " (s :: s' :: rest))
      with (s ++ String "," (" " ++ py_join ", " (s' :: rest)))%string.
    rewrite <- append_asociativa. rewrite split_comma_append.
    + rewrite rev_string_involutiva. rewrite (IH " "%string s' eq_refl H'). reflexivity.
    + rewrite sin_coma_append, Hpre, Hs. reflexivity.
Qed.

Lemma py_strip_espacio (s : string) : py_strip (String " " s) = py_strip s.
Proof. reflexivity. Qed.

Lemma socket_limpio_sin_coma (s : string) : socket_limpio s -> sin_coma s = true.
Proof.
  intros (_ & _ & H). rewrite py_contains_coma in H. apply negb_false_iff in H. exact H.
Qed.

Lemma es_ascii_rev_string (s acc : string) :
  es_ascii (rev_string acc s) = es_ascii acc && es_ascii s.
Proof.
  revert acc. induction s as [|c s IH]; intros acc; cbn [rev_string es_ascii].
  - rewrite andb_true_r. reflexivity.
  - rewrite IH. cbn [es_ascii].
    destruct (byte_ascii c), (es_ascii acc), (es_ascii s); reflexivity.
Qed.

Lemma es_ascii_lstrip (s : string) : es_ascii s = true -> es_ascii (lstrip s) = true.
Proof.
  induction s as [|c s IH]; [reflexivity|]. cbn [lstrip].
  destruct (is_space c); [|exact (fun H => H)].
  cbn [es_ascii]. intros H. apply andb_true_iff in H. apply IH, H.
Qed.

Lemma es_ascii_py_strip (s : string) : es_ascii s = true -> es_ascii (py_strip s) = true.
Proof.
  intros H. unfold py_strip, rstrip.
  rewrite es_ascii_rev_string. cbn [es_ascii andb].
  apply es_ascii_lstrip. rewrite es_ascii_rev_string. cbn [es_ascii andb].
  apply es_ascii_lstrip. exact H.
Qed.

(** The pieces of an ASCII text are ASCII texts. *)
Lemma split_comma_es_ascii (s cur x : string) :
  es_ascii cur = true -> es_ascii s = true ->
  In x (split_comma cur s) -> es_ascii x = true.
Proof.
  revert cur. induction s as [|c s IH]; intros cur Hcur Hs; cbn [split_comma].
  - intros [<-|[]]. rewrite es_ascii_rev_string. rewrite Hcur. reflexivity.
  - cbn [es_ascii] in Hs. apply andb_true_iff in Hs. destruct Hs as [Hc Hs].
    destruct (Ascii.eqb c ",").
    + intros [<-|Hin].
      * rewrite es_ascii_rev_string. rewrite Hcur. reflexivity.
      * exact (IH "" eq_refl Hs Hin).
    + apply IH; [|exact Hs]. cbn [es_ascii]. rewrite Hc, Hcur. reflexivity.
Qed.

Lemma from_string_es_ascii (sockets_str s : string) :
  es_ascii sockets_str = true -> In s (from_string sockets_str) -> es_ascii s = true.
Proof.
  intros Ha Hin. unfold from_string in Hin.
  destruct (String.eqb sockets_str "" || String.eqb (py_strip sockets_str) "");
    [contradiction|].
  apply filter_In in Hin. destruct Hin as [Hin _].
  apply in_map_iff in Hin. destruct Hin as (x & <- & Hx).
  apply es_ascii_py_strip. exact (split_comma_es_ascii _ "" x eq_refl Ha Hx).
Qed.

(** X22: reading a cooler's socket text and writing the list back, on
    ASCII text. Every name [from_string] returns from an ASCII text is an
    ASCII name that is non-empty, stripped and free of commas; and a list
    of such names, written with ', ' between them as the interface does, is
    read back as the same list, so reading, writing and reading again gives
    what the first reading gave. *)
Theorem from_string_ida_y_vuelta :
  (forall (sockets_str s : string),
     es_ascii sockets_str = true -> In s (from_string sockets_str) ->
     es_ascii s = true /\ socket_limpio s) /\
  (forall sockets : list string,
     Forall (fun s => es_ascii s = true /\ socket_limpio s) sockets ->
     from_string (py_join ", " sockets) = sockets) /\
  (forall sockets_str : string,
     es_ascii sockets_str = true ->
     from_string (py_join ", " (from_string sockets_str)) = from_string sockets_str).
Proof.
  assert (H1 : forall (sockets_str s : string),
             In s (from_string sockets_str) -> socket_limpio s).
  { intros str s Hin. unfold from_string in Hin.
    destruct (String.eqb str "" || String.eqb (py_strip str) ""); [contradiction|].
    apply filter_In in Hin. destruct Hin as [Hin Hne].
    apply in_map_iff in Hin. destruct Hin as (x & <- & Hx).
    split; [|split].
    - intros E. rewrite E in Hne. discriminate Hne.
    - apply py_strip_idempotente.
    - rewrite py_contains_coma. apply negb_false_iff. apply sin_coma_py_strip.
      exact (split_comma_sin_coma _ "" x eq_refl Hx). }
  assert (H2 : forall sockets : list string,
             Forall socket_limpio sockets -> from_string (py_join ", " sockets) = sockets).
  { intros [|s rest] H; [reflexivity|].
    inversion H as [|? ? Hs Hrest]; subst.
    assert (Hcomas : Forall (fun x => sin_coma x = true) (s :: rest)).
    { apply Forall_impl with (2 := H). exact socket_limpio_sin_coma. }
    pose proof (split_comma_py_join rest "" s eq_refl Hcomas) as Hsplit.
    cbn [String.append] in Hsplit.
    destruct Hs as (Hne & Hstrip & Hcoma).
    destruct s as [|c s']; [contradiction Hne; reflexivity|].
    pose proof (limpio_empieza c s' Hstrip) as Hc.
    assert (Hj : exists cola, py_join ", " (String c s' :: rest) = String c cola).
    { destruct rest; cbn [py_join String.append]; eexists; reflexivity. }
    destruct Hj as (cola & Hj).
    unfold from_string. rewrite Hsplit. rewrite Hj.
    assert (Hno : String.eqb (py_strip (String c cola)) "" = false).
    { unfold py_strip. cbn [lstrip]. rewrite Hc. rewrite rstrip_cons, Hc.
      destruct (rstrip cola); reflexivity. }
    rewrite Hno. cbn [String.eqb orb map filter]. rewrite Hstrip.
    cbn [String.eqb negb]. f_equal.
    clear -Hrest. induction Hrest as [|x rest (Hne & Hstrip & _) _ IH]; [reflexivity|].
    cbn [map filter]. rewrite py_strip_espacio, Hstrip.
    destruct x as [|c x]; [contradiction Hne; reflexivity|].
    cbn [String.eqb negb]. f_equal. exact IH. }
  split; [|split].
  - intros str s Ha Hin.
    split; [exact (from_string_es_ascii str s Ha Hin) | exact (H1 str s Hin)].
  - intros sockets H. apply H2. apply Forall_impl with (2 := H).
    intros s [_ Hs]. exact Hs.
  - intros str _. apply H2. apply Forall_forall. intros s Hin. exact (H1 str s Hin).
Qed.

Lemma from_string_ida_y_vuelta_witness :
  from_string (py_join ", " ["AM4"; "LGA1700"; "sTRX4"]) = ["AM4"; "LGA1700"; "sTRX4"].
Proof.
  apply (proj1 (proj2 from_string_ida_y_vuelta)).
  repeat constructor; discriminate.
Defined.

(** ** Parsing measures *)






Section Digitos.

Context {R : Type}.
Variable k : string -> string -> option R.

(** Where the continuation accepts all the digits, they are all taken. *)
Lemma mas_digitos_voraz (d t r : string) (x : R) :
  all_digits d = true -> sin_digito_inicial r ->
  k (t ++ d)%string r = Some x ->
  mas_digitos k t (d ++ r)%string = Some x.
Proof.
  revert t. induction d as [|c d IH]; intros t Hd Hr Hk.
  - rewrite append_vacio_r in Hk. cbn [String.append].
    destruct r as [|c r]; [exact Hk|]. cbn [mas_digitos]. cbn in Hr. rewrite Hr. exact Hk.
  - cbn [all_digits] in Hd. apply andb_true_iff in Hd. destruct Hd as [Hc Hd].
    cbn [String.append mas_digitos]. rewrite Hc.
    rewrite (IH (t ++ String c "")%string Hd Hr); [reflexivity|].
    rewrite append_asociativa. exact Hk.
Qed.


End Digitos.






Lemma strip_no_vacio (texto medida : string) :
  py_strip texto = medida -> medida <> "" ->
  String.eqb texto "" || String.eqb (py_strip texto) "" = false.
Proof.
  intros H Hne. rewrite H.
  destruct texto as [|c t]; [cbn in H; contradiction Hne; symmetry; exact H|].
  cbn [String.eqb orb]. destruct medida; [contradiction Hne; reflexivity|reflexivity].
Qed.





(** ** Fan slots *)

Section DigitosLeidos.

Context {R : Type}.
Variable k : string -> string -> option R.

(** What a successful [\d+] took is a run of digits. *)
Lemma mas_digitos_Some (r t : string) (x : R) :
  mas_digitos k t r = Some x ->
  exists d r' : string,
    r = (d ++ r')%string /\ all_digits d = true /\ k (t ++ d)%string r' = Some x.
Proof.
  revert t. induction r as [|c r IH]; intros t H.
  - exists ""%string, ""%string. rewrite (append_vacio_r t). repeat split. exact H.
  - cbn [mas_digitos] in H. destruct (is_digit c) eqn:Hc.
    + destruct (mas_digitos k (t ++ String c "")%string r) as [y|] eqn:E.
      * injection H as ->. destruct (IH _ E) as (d & r' & -> & Hd & Hk).
        exists (String c d), r'. cbn [String.append all_digits]. rewrite Hc, Hd.
        repeat split. rewrite append_asociativa in Hk. exact Hk.
      * exists ""%string, (String c r). rewrite (append_vacio_r t). repeat split. exact H.
    + exists ""%string, (String c r). rewrite (append_vacio_r t). repeat split. exact H.
Qed.

Lemma digitos_Some (r : string) (x : R) :
  digitos k r = Some x ->
  exists d r' : string, r = (d ++ r')%string /\ numero d /\ k d r' = Some x.
Proof.
  unfold digitos. destruct r as [|c r]; [discriminate|].
  destruct (is_digit c) eqn:Hc; [|discriminate]. intros H.
  destruct (mas_digitos_Some r _ x H) as (d & r' & -> & Hd & Hk).
  exists (String c d), r'. repeat split.
  - discriminate.
  - cbn [all_digits]. rewrite Hc, Hd. reflexivity.
  - exact Hk.
Qed.

Lemma digitos_voraz (d r : string) (x : R) :
  numero d -> sin_digito_inicial r -> k d r = Some x ->
  digitos k (d ++ r)%string = Some x.
Proof.
  intros [Hne Hd] Hr Hk. destruct d as [|c d]; [contradiction Hne; reflexivity|].
  cbn [all_digits] in Hd. apply andb_true_iff in Hd. destruct Hd as [Hc Hd].
  cbn [String.append digitos]. rewrite Hc.
  apply mas_digitos_voraz; assumption.
Qed.

End DigitosLeidos.

Lemma digit_value_no_negativo (c : ascii) : is_digit c = true -> (0 <= digit_value c)%Z.
Proof. destruct c as [[] [] [] [] [] [] [] []]; cbv; congruence. Qed.

Lemma int_de_no_negativo (s : string) (acc : Z) :
  all_digits s = true -> (0 <= acc)%Z -> (0 <= int_de acc s)%Z.
Proof.
  revert acc. induction s as [|c s IH]; intros acc Hs Hacc; [exact Hacc|].
  cbn [all_digits] in Hs. apply andb_true_iff in Hs. destruct Hs as [Hc Hs].
  cbn [int_de]. apply IH; [exact Hs|].
  pose proof (digit_value_no_negativo c Hc). lia.
Qed.

Lemma fan_patron_escrito (a b : string) :
  numero a -> numero b -> FanSlots.patron (a ++ String "/" b)%string = Some (a, b).
Proof.
  intros Ha Hb. unfold FanSlots.patron.
  apply digitos_voraz; [exact Ha | reflexivity |].
  cbn [Ascii.eqb Bool.eqb]. rewrite <- (append_vacio_r b) at 1.
  apply digitos_voraz; [exact Hb | exact I | reflexivity].
Qed.

Lemma fan_patron_Some (s a b : string) :
  FanSlots.patron s = Some (a, b) ->
  numero a /\ numero b /\ s = (a ++ String "/" b)%string.
Proof.
  unfold FanSlots.patron. intros H.
  apply digitos_Some in H. destruct H as (d & r1 & -> & Hd & H).
  destruct r1 as [|c r2]; [discriminate|].
  destruct (Ascii.eqb_spec c "/") as [->|_]; [|discriminate].
  apply digitos_Some in H. destruct H as (e & r3 & -> & He & H).
  destruct r3; [|discriminate]. injection H as <- <-.
  rewrite append_vacio_r. split; [exact Hd|]. split; [exact He | reflexivity].
Qed.

(** X25: what [FanSlots.from_string] accepts, on an ASCII text of at most
    4300 characters (so that the digits are the ASCII ones and [int] reads
    every run of them). A text that, stripped, is a run of digits, a slash
    and a run of digits gives those two numbers as installed and maximum;
    any other text gives neither. So the two fields are set together or
    not at all, and a count that is set is never negative. *)
Theorem fanslots_from_string_forma :
  forall fan_str : string,
    es_ascii fan_str = true ->
    (Z.of_nat (String.length fan_str) <= 4300)%Z ->
    (forall a b : string, numero a -> numero b ->
       py_strip fan_str = (a ++ String "/" b)%string ->
       FanSlots.from_string fan_str =
       {| FanSlots.installed := Some (int_de 0 a);
          FanSlots.maximum := Some (int_de 0 b);
          FanSlots.raw_value := fan_str |}) /\
    (forall i : Z, FanSlots.installed (FanSlots.from_string fan_str) = Some i ->
       exists a b : string,
         numero a /\ numero b /\ py_strip fan_str = (a ++ String "/" b)%string /\
         i = int_de 0 a /\ (0 <= i)%Z /\
         FanSlots.maximum (FanSlots.from_string fan_str) = Some (int_de 0 b) /\
         (0 <= int_de 0 b)%Z) /\
    (FanSlots.installed (FanSlots.from_string fan_str) = None <->
     FanSlots.maximum (FanSlots.from_string fan_str) = None).
Proof.
  intros fan_str _ _. split; [|split].
  - intros a b Ha Hb Ht. unfold FanSlots.from_string.
    rewrite (strip_no_vacio fan_str _ Ht).
    + rewrite Ht, (fan_patron_escrito a b Ha Hb). reflexivity.
    + destruct Ha as [Hne _]. destruct a; [contradiction Hne; reflexivity | discriminate].
  - intros i H. unfold FanSlots.from_string in *.
    destruct (String.eqb fan_str "" || String.eqb (py_strip fan_str) ""); [discriminate H|].
    destruct (FanSlots.patron (py_strip fan_str)) as [[a b]|] eqn:E; [|discriminate H].
    cbn [FanSlots.installed FanSlots.maximum] in *. injection H as <-.
    destruct (fan_patron_Some _ a b E) as (Ha & Hb & Hs).
    exists a, b.
    split; [exact Ha|]. split; [exact Hb|]. split; [exact Hs|]. split; [reflexivity|].
    split; [apply int_de_no_negativo; [apply Ha | apply Z.le_refl]|].
    split; [reflexivity|].
    apply int_de_no_negativo; [apply Hb | apply Z.le_refl].
  - unfold FanSlots.from_string.
    destruct (String.eqb fan_str "" || String.eqb (py_strip fan_str) "");
      [split; reflexivity|].
    destruct (FanSlots.patron (py_strip fan_str)) as [[a b]|];
      cbn [FanSlots.installed FanSlots.maximum]; split; (discriminate || reflexivity).
Qed.

Lemma fanslots_from_string_forma_witness :
  FanSlots.from_string " 2/6" =
  {| FanSlots.installed := Some (int_de 0 "2");
     FanSlots.maximum := Some (int_de 0 "6");
     FanSlots.raw_value := " 2/6" |}.
Proof.
  apply (proj1 (fanslots_from_string_forma " 2/6" eq_refl ltac:(cbn; lia)) "2" "6").
  - split; [discriminate | reflexivity].
  - split; [discriminate | reflexivity].
  - reflexivity.
Defined.

(** The fan count stops at the first entry whose count is not a number. *)
Lemma contar_ventiladores_numeros (entradas : list (string * pyval)) (ac t : Q * Q) :
  for_each entradas contar_ventiladores ac = Ok t ->
  forall (size : string) (d : pydict),
    In (size, VDict d) entradas -> num_value (dict_get d "installed" (VNum 0)) <> None.
Proof.
  revert ac. induction entradas as [|[s0 sl0] rest IH]; intros ac H size d Hin;
    [contradiction|].
  cbn [for_each] in H. apply bind_ok in H. destruct H as (ac' & Hstep & H).
  destruct Hin as [[= -> ->]|Hin]; [|exact (IH ac' H size d Hin)].
  destruct ac as [i e]. unfold contar_ventiladores in Hstep.
  cbn [is_dict py_get bind] in Hstep. unfold py_add in Hstep.
  intros E. rewrite E in Hstep.
  destruct (py_contains "front" (py_lower size) || py_contains "intake" (py_lower size));
    discriminate Hstep.
Qed.

(** X26: a fan column that is empty or not of the form 'n/m' stops the
    cooling check. The case record then holds that size with a null
    installed count, and [verificar_refrigeracion] adds it to the total: it
    returns no report for any build with such a case. *)
Theorem refrigeracion_ventilador_nulo :
  forall (configuracion : pydict) (case : pyval) (fan_slots : pydict)
         (size fan_str : string),
    lookup "case" configuracion = Some case ->
    py_get case "fan_support" (VDict []) = Ok (VDict fan_slots) ->
    In (size, VDict (FanSlots.to_dict (FanSlots.from_string fan_str)))
       (dict_items fan_slots) ->
    FanSlots.installed (FanSlots.from_string fan_str) = None ->
    forall r, verificar_refrigeracion configuracion <> Ok r.
Proof.
  intros cfg case fan_slots size fan_str Hcase Hfan Hin Hnull r H.
  unfold verificar_refrigeracion in H.
  apply bind_ok in H. destruct H as (r1 & _ & H).
  apply bind_ok in H. destruct H as (r2 & H & _).
  assert (Ecase : config_get cfg "case" VNone = case).
  { unfold config_get, dict_get. rewrite Hcase. reflexivity. }
  rewrite Ecase in H. unfold analizar_ventilacion in H.
  assert (T : truthy case = true).
  { destruct case as [|b|q|t|xs|cd]; try discriminate Hfan.
    destruct cd; [|reflexivity]. injection Hfan as <-. contradiction Hin. }
  rewrite T, Hfan in H. cbn [bind py_items] in H.
  apply bind_ok in H. destruct H as (totales & Hloop & _).
  apply (contar_ventiladores_numeros _ _ _ Hloop size _ Hin).
  unfold FanSlots.to_dict. rewrite Hnull. reflexivity.
Qed.

Lemma refrigeracion_ventilador_nulo_witness :
  verificar_refrigeracion [("case", case_con_ventiladores "2/6" "")] <>
  Ok Refrigeracion.reporte_inicial.
Proof.
  apply (refrigeracion_ventilador_nulo
           [("case", case_con_ventiladores "2/6" "")] (case_con_ventiladores "2/6" "")
           [("120mm", VDict (FanSlots.to_dict (FanSlots.from_string "2/6")));
            ("140mm", VDict (FanSlots.to_dict (FanSlots.from_string "")))]
           "140mm" "").
  - reflexivity.
  - reflexivity.
  - right. left. reflexivity.
  - reflexivity.
Defined.

(** ** Cooler type *)

Lemma altura_cero_nunca (height : option Q) : altura_cero height = false.
Proof.
  destruct height as [h|]; [|reflexivity]. cbn [altura_cero].
  destruct (Qeq_bool h 0); reflexivity.
Qed.

(** The type, from the name and the fan count alone. *)
Lemma determine_cooler_type_sin_altura (row : list (string * string)) :
  _determine_cooler_type row =
  if nombre_liquido row then "liquid"
  else if Z.eqb (_calculate_total_fans row) 0 then "passive"
  else if Z.eqb (_calculate_total_fans row) 1 then "single_fan"
  else if Z.eqb (_calculate_total_fans row) 2 then "dual_fan"
  else if Z.ltb 2 (_calculate_total_fans row) then "multi_fan"
  else "air_tower".
Proof.
  unfold _determine_cooler_type, nombre_liquido. rewrite altura_cero_nunca. reflexivity.
Qed.

(** X27: the height of a cooler never decides its type. The branch that
    would call a cooler of height 0 liquid cannot be taken, so the type is
    'liquid' exactly when the lower-cased name contains 'liquid' or 'aio',
    'air_tower' exactly when it does not and the fan columns add up to a
    negative number, and two rows that differ only in their Height column
    get the same type. *)
Theorem determine_cooler_type_ignora_altura :
  (forall row : list (string * string),
     (_determine_cooler_type row = "liquid" <-> nombre_liquido row = true) /\
     (_determine_cooler_type row = "air_tower" <->
      nombre_liquido row = false /\ (_calculate_total_fans row < 0)%Z)) /\
  (forall row1 row2 : list (string * string),
     (forall k : string, k <> "Height" -> table_get row1 k "" = table_get row2 k "") ->
     _determine_cooler_type row1 = _determine_cooler_type row2).
Proof.
  split.
  - intros row. rewrite determine_cooler_type_sin_altura.
    destruct (nombre_liquido row).
    + split; split; try reflexivity; try discriminate. intros [H _]. discriminate H.
    + destruct (Z.eqb_spec (_calculate_total_fans row) 0) as [E0|N0];
        [split; split; try discriminate; intros [_ H]; lia|].
      destruct (Z.eqb_spec (_calculate_total_fans row) 1) as [E1|N1];
        [split; split; try discriminate; intros [_ H]; lia|].
      destruct (Z.eqb_spec (_calculate_total_fans row) 2) as [E2|N2];
        [split; split; try discriminate; intros [_ H]; lia|].
      destruct (Z.ltb_spec 2 (_calculate_total_fans row)) as [L|L];
        [split; split; try discriminate; intros [_ H]; lia|].
      split; split; try discriminate; try reflexivity.
      intros _. split; [reflexivity | lia].
  - intros row1 row2 H. rewrite !determine_cooler_type_sin_altura.
    assert (Hn : nombre_liquido row1 = nombre_liquido row2).
    { unfold nombre_liquido. rewrite (H "Name"%string) by discriminate. reflexivity. }
    assert (Hf : _calculate_total_fans row1 = _calculate_total_fans row2).
    { unfold _calculate_total_fans, fan_sizes. cbn [fold_left].
      rewrite (H "80mm Fans"%string), (H "92mm Fans"%string), (H "120mm Fans"%string),
        (H "140mm Fans"%string), (H "200mm Fans"%string) by discriminate.
      reflexivity. }
    rewrite Hn, Hf. reflexivity.
Qed.

Lemma determine_cooler_type_ignora_altura_witness :
  _determine_cooler_type fila_cooler =
  _determine_cooler_type
    [("Name", "Noctua NH-D15"); ("Height", "165 mm"); ("120mm Fans", "0");
     ("140mm Fans", "2")].
Proof.
  apply (proj2 determine_cooler_type_ignora_altura).
  intros k Hk. unfold fila_cooler, table_get. cbn [assoc].
  destruct (String.eqb k "Name"); [reflexivity|].
  destruct (String.eqb_spec k "Height") as [E|_]; [contradiction|].
  reflexivity.
Defined.

(** ** What the validators do not read *)

Section OtraClave.

Variables (k : string) (v : pyval) (d : pydict).

Lemma lookup_otra (k0 : string) :
  String.eqb k0 k = false -> lookup k0 ((k, v) :: d) = lookup k0 d.
Proof. intros H. cbn [lookup]. rewrite H. reflexivity. Qed.

Lemma has_key_otra (k0 : string) :
  String.eqb k0 k = false -> has_key k0 ((k, v) :: d) = has_key k0 d.
Proof. intros H. unfold has_key. rewrite (lookup_otra k0 H). reflexivity. Qed.

Lemma item_otra (k0 : string) :
  String.eqb k0 k = false -> item ((k, v) :: d) k0 = item d k0.
Proof. intros H. unfold item, py_item. rewrite (lookup_otra k0 H). reflexivity. Qed.

Lemma config_get_otra (k0 : string) (default : pyval) :
  String.eqb k0 k = false -> config_get ((k, v) :: d) k0 default = config_get d k0 default.
Proof. intros H. unfold config_get, dict_get. rewrite (lookup_otra k0 H). reflexivity. Qed.

End OtraClave.

Lemma no_es_clave (k k0 : string) (claves : list string) :
  ~ In k claves -> In k0 claves -> String.eqb k0 k = false.
Proof.
  intros Hno Hin. apply String.eqb_neq. intros E. apply Hno. rewrite <- E. exact Hin.
Qed.

(** X29: each validator depends only on the components it names. Adding
    to a build any component under another key (a cooler or a drive for
    the compatibility check, a PSU for the physical check, and so on)
    leaves the outcome of that validator as it was: the same report or the
    same exception. *)
Theorem validadores_ignoran_otras_claves :
  forall (configuracion : pydict) (k : string) (v : pyval),
    (~ In k claves_compatibilidad ->
     verificar_compatibilidad_completa ((k, v) :: configuracion) =
     verificar_compatibilidad_completa configuracion) /\
    (~ In k claves_dimensiones ->
     validar_dimensiones_fisicas ((k, v) :: configuracion) =
     validar_dimensiones_fisicas configuracion) /\
    (~ In k claves_conectividad ->
     validar_conectividad ((k, v) :: configuracion) =
     validar_conectividad configuracion) /\
    (~ In k claves_refrigeracion ->
     verificar_refrigeracion ((k, v) :: configuracion) =
     verificar_refrigeracion configuracion).
Proof.
  intros cfg k v. split; [|split; [|split]].
  - intros Hno.
    assert (Hcpu : String.eqb "cpu" k = false)
      by (apply (no_es_clave k _ _ Hno); cbn; tauto).
    assert (Hmb : String.eqb "motherboard" k = false)
      by (apply (no_es_clave k _ _ Hno); cbn; tauto).
    assert (Hram : String.eqb "ram" k = false)
      by (apply (no_es_clave k _ _ Hno); cbn; tauto).
    assert (Hcase : String.eqb "case" k = false)
      by (apply (no_es_clave k _ _ Hno); cbn; tauto).
    assert (Hpsu : String.eqb "psu" k = false)
      by (apply (no_es_clave k _ _ Hno); cbn; tauto).
    assert (Hgpu : String.eqb "gpu" k = false)
      by (apply (no_es_clave k _ _ Hno); cbn; tauto).
    assert (H1 : forall r, verificar_cpu_motherboard ((k, v) :: cfg) r =
                           verificar_cpu_motherboard cfg r).
    { intros r. unfold verificar_cpu_motherboard.
      rewrite !has_key_otra, !item_otra by assumption. reflexivity. }
    assert (H2 : forall r, verificar_ram_motherboard ((k, v) :: cfg) r =
                           verificar_ram_motherboard cfg r).
    { intros r. unfold verificar_ram_motherboard.
      rewrite !has_key_otra, !item_otra by assumption. reflexivity. }
    assert (H3 : forall r, verificar_case_motherboard ((k, v) :: cfg) r =
                           verificar_case_motherboard cfg r).
    { intros r. unfold verificar_case_motherboard.
      rewrite !has_key_otra, !item_otra by assumption. reflexivity. }
    assert (Hpot : has_key "psu" cfg = true ->
                   _calcular_potencia_requerida (@Some pydict ((k, v) :: cfg)) =
                   _calcular_potencia_requerida (Some cfg)).
    { intros Hk. destruct cfg as [|kv rest]; [discriminate Hk|].
      unfold _calcular_potencia_requerida. cbn [falsy_dict].
      unfold potencia_cpu, potencia_gpu.
      rewrite !has_key_otra, !item_otra by assumption. reflexivity. }
    assert (H4 : forall r, verificar_potencia_psu ((k, v) :: cfg) r =
                           verificar_potencia_psu cfg r).
    { intros r. unfold verificar_potencia_psu.
      rewrite !has_key_otra, !item_otra by assumption.
      destruct (has_key "psu" cfg) eqn:Hk; [|reflexivity].
      rewrite (Hpot eq_refl). reflexivity. }
    unfold verificar_compatibilidad_completa. rewrite H1.
    destruct (verificar_cpu_motherboard cfg reporte_inicial) as [r1|e]; [|reflexivity].
    cbn [bind]. rewrite H2.
    destruct (verificar_ram_motherboard cfg r1) as [r2|e]; [|reflexivity].
    cbn [bind]. rewrite H3.
    destruct (verificar_case_motherboard cfg r2) as [r3|e]; [|reflexivity].
    cbn [bind]. rewrite H4. reflexivity.
  - intros Hno. unfold validar_dimensiones_fisicas.
    rewrite !config_get_otra by (apply (no_es_clave k _ _ Hno); cbn; tauto).
    reflexivity.
  - intros Hno. unfold validar_conectividad.
    rewrite !config_get_otra by (apply (no_es_clave k _ _ Hno); cbn; tauto).
    reflexivity.
  - intros Hno. unfold verificar_refrigeracion.
    rewrite !config_get_otra by (apply (no_es_clave k _ _ Hno); cbn; tauto).
    reflexivity.
Qed.

Lemma validadores_ignoran_otras_claves_witness :
  verificar_compatibilidad_completa
    (("cpu_cooler", VDict [("name", VStr "NH-D15")]) :: build_sin_psu) =
  verificar_compatibilidad_completa build_sin_psu.
Proof.
  apply (proj1 (validadores_ignoran_otras_claves build_sin_psu "cpu_cooler"
                  (VDict [("name", VStr "NH-D15")]))).
  intros [H|[H|[H|[H|[H|[H|[]]]]]]]; discriminate H.
Defined.

(** ** RAM filter and full-build validation *)

Lemma seleccionar_si_completa (arg : option string)
  (cond : string -> pyval -> result bool) (xs l : list pyval) (x : pyval) :
  seleccionar_si arg cond xs = Ok l ->
  In x xs ->
  (forall s : string, arg = Some s -> s <> "" -> cond s x = Ok true) ->
  In x l.
Proof.
  unfold seleccionar_si. intros H Hin Hc. destruct arg as [s|].
  - destruct (String.eqb_spec s "") as [E|NE].
    + injection H as <-. exact Hin.
    + exact (seleccionar_completa _ _ _ H x Hin (Hc s eq_refl NE)).
  - injection H as <-. exact Hin.
Qed.

(** The RAM step, once the two types are read. *)
Lemma verificar_ram_motherboard_lectura
  (cfg : pydict) (ram mb g tm : pyval) (r : reporte) :
  lookup "ram" cfg = Some ram -> lookup "motherboard" cfg = Some mb ->
  ram_generation ram = Ok g -> memory_type mb = Ok tm ->
  verificar_ram_motherboard cfg r =
  Ok (if py_eq g tm then r
      else set_incompatible (append_error (IncompatibilidadRAM g tm) r)).
Proof.
  intros Hram Hmb Hg Htm. unfold verificar_ram_motherboard.
  destruct (lookup_has_key _ _ _ Hram) as [-> ->].
  destruct (lookup_has_key _ _ _ Hmb) as [-> ->].
  cbn [andb bind]. unfold ram_generation in Hg. unfold memory_type in Htm.
  destruct (py_get ram "memory_specs" (VDict [])) as [ms|e]; [|discriminate Hg].
  cbn [bind] in *.
  destruct (py_get ms "ram_type" (VDict [])) as [rt|e]; [|discriminate Hg].
  cbn [bind] in *. rewrite Hg. cbn [bind].
  destruct (py_get mb "memory" (VDict [])) as [mem|e]; [|discriminate Htm].
  cbn [bind] in *. rewrite Htm. cbn [bind].
  destruct (py_eq g tm); reflexivity.
Qed.

Lemma append_error_distinto (m : mensaje) (r : reporte) :
  set_incompatible (append_error m r) <> r.
Proof.
  intros E. apply (f_equal (fun x => length (errores x))) in E.
  cbn [errores set_incompatible append_error] in E. rewrite length_app in E.
  cbn [length] in E. lia.
Qed.

(** X30: the RAM filter and the RAM check of the full-build validation.
    The memory type of every catalog motherboard that matches the socket
    and form factor given is among the supported types the filter returns.
    A RAM kit the filter returned passes the check against such a board
    exactly when its generation is the board's type, so a kit offered for
    one matching board can fail against another; when all supported types
    are the board's, every kit returned passes. *)
Theorem ram_filtrada_y_validacion :
  forall (datos : catalogo) (socket form_factor : option string)
         (rams tipos : list pyval) (configuracion : pydict) (ram mb : pyval)
         (ts : string) (r : reporte),
    filtrar_ram_por_motherboard datos socket form_factor = Ok (rams, tipos) ->
    In ram rams ->
    lookup "ram" configuracion = Some ram ->
    lookup "motherboard" configuracion = Some mb ->
    In mb (datos_get datos "motherboard") ->
    coincide socket form_factor mb ->
    memory_type mb = Ok (VStr ts) -> ts <> "" ->
    In (VStr ts) tipos /\
    (verificar_ram_motherboard configuracion r = Ok r <->
     ram_generation ram = Ok (VStr ts)) /\
    ((forall t, In t tipos -> t = VStr ts) ->
     verificar_ram_motherboard configuracion r = Ok r).
Proof.
  intros datos socket form_factor rams tipos cfg ram mb ts r H Hin Hram Hmb Hcat
    [Hs Hf] Htm Hts.
  unfold filtrar_ram_por_motherboard in H.
  apply bind_ok in H; destruct H as (tipos' & Htipos & H).
  apply bind_ok in H; destruct H as (rams' & Hsel & H).
  injection H as <- <-.
  assert (Hgen : exists g, ram_generation ram = Ok g /\ set_mem g tipos' = true).
  { destruct (seleccionar_In _ _ _ Hsel ram Hin) as [_ Hc].
    apply bind_ok in Hc; destruct Hc as (g & Hg & Hc).
    exists g. split; [exact Hg|]. unfold set_in in Hc.
    destruct (hashable g); [|discriminate]. injection Hc as ->. reflexivity. }
  destruct Hgen as (g & Hg & Hmem).
  assert (Hlisted : In (VStr ts) tipos').
  { unfold tipos_ram_soportados in Htipos.
    apply bind_ok in Htipos; destruct Htipos as (mbs1 & H1 & Htipos).
    apply bind_ok in Htipos; destruct Htipos as (mbs2 & H2 & Htipos).
    pose proof (seleccionar_si_completa _ _ _ _ mb H1 Hcat Hs) as Hin1.
    pose proof (seleccionar_si_completa _ _ _ _ mb H2 Hin1 Hf) as Hin2.
    apply set_mem_str.
    apply (recoger_completa memory_type mbs2 tipos' Htipos mb (VStr ts) Hin2 Htm).
    exact (truthy_str ts Hts). }
  pose proof (verificar_ram_motherboard_lectura cfg ram mb g (VStr ts) r
                Hram Hmb Hg Htm) as Hcheck.
  split; [exact Hlisted|]. split.
  - rewrite Hcheck, Hg. split.
    + destruct (py_eq g (VStr ts)) eqn:E.
      * intros _. apply py_eq_str_r in E. rewrite E. reflexivity.
      * intros [= Habs]. contradiction (append_error_distinto _ _ Habs).
    + intros [= ->]. rewrite py_eq_str_refl. reflexivity.
  - intros Hunico. rewrite Hcheck.
    unfold set_mem in Hmem. apply existsb_exists in Hmem.
    destruct Hmem as (u & Hu & E). rewrite (Hunico u Hu) in E. rewrite E. reflexivity.
Qed.

Lemma ram_filtrada_y_validacion_witness :
  In (VStr "DDR4") [VStr "DDR4"] /\
  (verificar_ram_motherboard
     [("ram", nth 0 (datos_get catalogo_ejemplo "ram") VNone);
      ("motherboard", nth 0 (datos_get catalogo_ejemplo "motherboard") VNone)]
     reporte_inicial = Ok reporte_inicial <->
   ram_generation (nth 0 (datos_get catalogo_ejemplo "ram") VNone) = Ok (VStr "DDR4")) /\
  ((forall t, In t [VStr "DDR4"] -> t = VStr "DDR4") ->
   verificar_ram_motherboard
     [("ram", nth 0 (datos_get catalogo_ejemplo "ram") VNone);
      ("motherboard", nth 0 (datos_get catalogo_ejemplo "motherboard") VNone)]
     reporte_inicial = Ok reporte_inicial).
Proof.
  apply (ram_filtrada_y_validacion catalogo_ejemplo (Some "AM4") (Some "ATX")
           [nth 0 (datos_get catalogo_ejemplo "ram") VNone] [VStr "DDR4"]
           [("ram", nth 0 (datos_get catalogo_ejemplo "ram") VNone);
            ("motherboard", nth 0 (datos_get catalogo_ejemplo "motherboard") VNone)]
           (nth 0 (datos_get catalogo_ejemplo "ram") VNone)
           (nth 0 (datos_get catalogo_ejemplo "motherboard") VNone)
           "DDR4" reporte_inicial).
  - reflexivity.
  - left. reflexivity.
  - reflexivity.
  - reflexivity.
  - left. reflexivity.
  - split; intros s [= <-] _; reflexivity.
  - reflexivity.
  - discriminate.
Defined.
